(** * Column-mapping and record-flattening engine of the ETL pipelines

    A shallow embedding of the declarative extraction code of

    - [google-ads-pipeline-new-module/google_ads_pipeline.py]
      (the GAQL query builder, the dotted-path extractor, the type coercer),
    - [meta-ads-pipeline-new-module/meta_ads_pipeline.py]
      (the field-list builder, [process_record], [process_nested_response]),
    - [xero-data-pipeline-new-module/xero_data_pipeline.py]
      ([extract_record_values], [process_invoices], [process_credit_notes]),

    followed by the properties of the record extractor, the type coercer and
    the query builder.

    Python values are modelled by the inductive type [pyval]; a Python [dict]
    is an association list in insertion order with unique keys; an exception
    is the [Raise] constructor of [result].  Strings are sequences of code
    points below 256. *)

From Stdlib Require Import ZArith Ascii String List Bool Lia.
From Stdlib Require Import Floats.SpecFloat.
From stdpp Require Import base list strings sorting gmap.

Set Warnings "-register-all".

Local Open Scope string_scope.
Local Open Scope Z_scope.

(** * Python values *)

Inductive exn : Type :=
  | ValueError | TypeError | OverflowError | AttributeError | KeyError | IndexError
  | UnboundLocalError.

Inductive result (A : Type) : Type :=
  | Ok (a : A)
  | Raise (e : exn).
Arguments Ok {A} a.
Arguments Raise {A} e.

Definition bind {A B} (m : result A) (k : A → result B) : result B :=
  match m with
  | Ok a => k a
  | Raise e => Raise e
  end.

Notation "'let!' x ':=' m 'in' k" := (bind m (fun x => k))
  (at level 10, x pattern, m at level 100, k at level 200).

Global Instance result_fmap : FMap result := fun A B f m =>
  match m with
  | Ok a => Ok (f a)
  | Raise e => Raise e
  end.

(** [try: m except: h] is a [try] block whose handler catches every
    exception. *)
Definition try_except {A} (m : result A) (h : A) : A :=
  match m with
  | Ok a => a
  | Raise _ => h
  end.

(** A naive [datetime.datetime] (no tzinfo), as [datetime.now()] returns. *)
Record datetime : Type := mk_datetime {
  year : Z; month : Z; day : Z;
  hour : Z; minute : Z; second : Z; microsecond : Z
}.

(** Python floats are IEEE binary64 numbers. *)
Definition prec : Z := 53.
Definition emax : Z := 1024.

Inductive pyval : Type :=
  | PNone
  | PBool (b : bool)
  | PInt (z : Z)
  | PFloat (f : spec_float)
  | PStr (s : string)
  | PList (l : list pyval)
  | PDict (d : list (string * pyval))
  | PDatetime (t : datetime).

Definition pydict : Type := list (string * pyval).

(** * Strings *)

Definition is_ascii_digit (c : ascii) : bool :=
  let n := N_of_ascii c in ((48 <=? n) && (n <=? 57))%N.

Definition digit_val (c : ascii) : Z := Z.of_N (N_of_ascii c) - 48.

Definition digit_char (d : Z) : ascii := ascii_of_N (Z.to_N (48 + d)).

(** [str.isdigit] on one character: the decimal digits and, below 256, the
    superscripts two, three and one. *)
Definition is_unicode_digit (c : ascii) : bool :=
  is_ascii_digit c ||
  let n := N_of_ascii c in ((n =? 178) || (n =? 179) || (n =? 185))%N.

Fixpoint string_forallb (p : ascii → bool) (s : string) : bool :=
  match s with
  | EmptyString => true
  | String c s' => p c && string_forallb p s'
  end.

(** [s.isdigit()]: non-empty and every character a digit. *)
Definition isdigit (s : string) : bool :=
  match s with
  | EmptyString => false
  | _ => string_forallb is_unicode_digit s
  end.

(** [str.isspace] on one character below 256. *)
Definition is_space (c : ascii) : bool :=
  let n := N_of_ascii c in
  (((9 <=? n) && (n <=? 13)) || ((28 <=? n) && (n <=? 32))
   || (n =? 133) || (n =? 160))%N.

Fixpoint lstrip (s : string) : string :=
  match s with
  | EmptyString => EmptyString
  | String c s' => if is_space c then lstrip s' else s
  end.

Fixpoint rstrip (s : string) : string :=
  match s with
  | EmptyString => EmptyString
  | String c s' =>
      match rstrip s' with
      | EmptyString => if is_space c then EmptyString else String c EmptyString
      | r => String c r
      end
  end.

(** [s.strip()] *)
Definition strip (s : string) : string := rstrip (lstrip s).

(** [s.split(sep)] for a one-character separator: [cur] holds the characters
    of the current piece, reversed. *)
Fixpoint split_go (sep : ascii) (cur : string) (s : string) : list string :=
  match s with
  | EmptyString => [String.rev cur]
  | String c s' =>
      if Ascii.eqb c sep then String.rev cur :: split_go sep EmptyString s'
      else split_go sep (String c cur) s'
  end.

Definition split (sep : ascii) (s : string) : list string :=
  split_go sep EmptyString s.

Definition dot : ascii := "."%char.

(** [sep.join(l)] *)
Fixpoint join (sep : string) (l : list string) : string :=
  match l with
  | [] => ""
  | [x] => x
  | x :: l' => x +:+ sep +:+ join sep l'
  end.

(** [c in s] for one character [c] *)
Fixpoint contains_char (c : ascii) (s : string) : bool :=
  match s with
  | EmptyString => false
  | String c' s' => Ascii.eqb c c' || contains_char c s'
  end.

(** [sub in s] on strings *)
Definition is_substring (sub s : string) : bool :=
  match String.index 0 sub s with
  | Some _ => true
  | None => false
  end.

(** * Integers and their decimal notation *)

Fixpoint dec_digits (fuel : nat) (n : Z) (acc : string) : string :=
  match fuel with
  | O => acc
  | S fuel' =>
      let acc' := String (digit_char (n mod 10)) acc in
      if n / 10 =? 0 then acc' else dec_digits fuel' (n / 10) acc'
  end.

Definition str_of_nonneg (n : Z) : string :=
  dec_digits (S (Z.to_nat (Z.log2 n))) n "".

(** [str(z)] for an [int] *)
Definition str_of_Z (z : Z) : string :=
  if z <? 0 then String "-"%char (str_of_nonneg (- z)) else str_of_nonneg z.

(** The digit part of an integer literal as [int()] reads it: decimal digits
    with single underscores between digits. [seen] records that the previous
    character was a digit. *)
Fixpoint parse_digits (acc : Z) (seen : bool) (s : string) : option Z :=
  match s with
  | EmptyString => if seen then Some acc else None
  | String c s' =>
      if is_ascii_digit c then parse_digits (10 * acc + digit_val c) true s'
      else if Ascii.eqb c "_"%char && seen then
        match s' with
        | String c' _ => if is_ascii_digit c' then parse_digits acc false s' else None
        | EmptyString => None
        end
      else None
  end.

Definition parse_signed (s : string) : option Z :=
  match s with
  | String c s' =>
      if Ascii.eqb c "-"%char then Z.opp <$> parse_digits 0 false s'
      else if Ascii.eqb c "+"%char then parse_digits 0 false s'
      else parse_digits 0 false s
  | EmptyString => None
  end.

(** [int(s)] for a [str] *)
Definition int_of_string (s : string) : result Z :=
  match parse_signed (strip s) with
  | Some z => Ok z
  | None => Raise ValueError
  end.

(** * Floats *)

(** [float(z)] for an [int]: round to nearest even; [OverflowError] when the
    rounded value is out of range. *)
Definition float_of_Z (z : Z) : result spec_float :=
  match binary_normalize prec emax z 0 false with
  | S754_infinity _ => Raise OverflowError
  | f => Ok f
  end.

(** [int(f)] for a [float]: truncation towards zero. *)
Definition int_of_float (f : spec_float) : result Z :=
  match f with
  | S754_zero _ => Ok 0
  | S754_infinity _ => Raise OverflowError
  | S754_nan => Raise ValueError
  | S754_finite s m e =>
      let a := if 0 <=? e then Zpos m * 2 ^ e else Zpos m / 2 ^ (- e) in
      Ok (if s then - a else a)
  end.

(** [bool(f)] *)
Definition float_truthy (f : spec_float) : bool :=
  match f with
  | S754_zero _ => false
  | _ => true
  end.

(** The binary64 number nearest to [m * 10 ^ k] ([0 <= m]), ties to even.
    For a negative [k] the quotient is taken with more than 64 significant
    bits and a sticky bit, so that the final rounding is the correct one. *)
Definition float_of_decimal (neg : bool) (m k : Z) : spec_float :=
  if m =? 0 then S754_zero neg
  else if 400 <? k then S754_infinity neg
  else if Z.log2 m + 3 * k <? -1076 then S754_zero neg
  else
    let f :=
      if 0 <=? k then binary_normalize prec emax (m * 10 ^ k) 0 false
      else
        let d := 10 ^ (- k) in
        let s := Z.max 0 (64 + Z.log2 d - Z.log2 m) in
        let q := (m * 2 ^ s) / d in
        let sticky := if (m * 2 ^ s) mod d =? 0 then 0 else 1 in
        binary_normalize prec emax (2 * q + sticky) (- s - 1) false in
    if neg then SFopp f else f.

(** A digit part of a float literal: digits with single underscores between
    them. Returns the accumulated value, the number of digits read and the
    rest of the input; [None] on a misplaced underscore. *)
Fixpoint read_digits (acc : Z) (cnt : Z) (seen : bool) (s : string)
  : option (Z * Z * string) :=
  match s with
  | EmptyString => Some (acc, cnt, s)
  | String c s' =>
      if is_ascii_digit c then read_digits (10 * acc + digit_val c) (cnt + 1) true s'
      else if Ascii.eqb c "_"%char && seen then
        match s' with
        | String c' _ =>
            if is_ascii_digit c' then read_digits acc cnt false s' else None
        | EmptyString => None
        end
      else Some (acc, cnt, s)
  end.

Definition lower_char (c : ascii) : ascii :=
  let n := N_of_ascii c in
  if ((65 <=? n) && (n <=? 90))%N then ascii_of_N (n + 32) else c.

Fixpoint lower (s : string) : string :=
  match s with
  | EmptyString => EmptyString
  | String c s' => String (lower_char c) (lower s')
  end.

Definition read_sign (s : string) : bool * string :=
  match s with
  | String c s' =>
      if Ascii.eqb c "-"%char then (true, s')
      else if Ascii.eqb c "+"%char then (false, s')
      else (false, s)
  | EmptyString => (false, s)
  end.

Definition read_exponent (s : string) : option (Z * string) :=
  match s with
  | String c s' =>
      if Ascii.eqb (lower_char c) "e"%char then
        let '(neg, r) := read_sign s' in
        '(ev, n, r') ← read_digits 0 0 false r;
        if n =? 0 then None else Some (if neg then - ev else ev, r')
      else Some (0, s)
  | EmptyString => Some (0, s)
  end.

Definition parse_float_number (neg : bool) (s : string) : option spec_float :=
  '(ip, n1, r1) ← read_digits 0 0 false s;
  '(mant, n2, r2) ←
    match r1 with
    | String "."%char r => read_digits ip 0 false r
    | _ => Some (ip, 0, r1)
    end;
  if n1 + n2 =? 0 then None
  else
    '(ev, r3) ← read_exponent r2;
    match r3 with
    | EmptyString => Some (float_of_decimal neg mant (ev - n2))
    | _ => None
    end.

Definition parse_float (s : string) : option spec_float :=
  let '(neg, body) := read_sign s in
  let l := lower body in
  if String.eqb l "inf" || String.eqb l "infinity" then Some (S754_infinity neg)
  else if String.eqb l "nan" then Some S754_nan
  else parse_float_number neg body.

(** [float(s)] for a [str] *)
Definition float_of_string (s : string) : result spec_float :=
  match parse_float (strip s) with
  | Some f => Ok f
  | None => Raise ValueError
  end.

(** ** [repr] of a float: the shortest decimal that reads back as the float *)

(** [floor (num / den / 10 ^ k)] *)
Definition scaled_floor (num den k : Z) : Z :=
  if 0 <=? k then num / (den * 10 ^ k) else (num * 10 ^ (- k)) / den.

(** The decimal exponent [E] with [10 ^ E <= num / den < 10 ^ (E + 1)]. *)
Fixpoint adjust_exp10 (fuel : nat) (num den e : Z) : Z :=
  match fuel with
  | O => e
  | S fuel' =>
      if 10 <=? scaled_floor num den e then adjust_exp10 fuel' num den (e + 1)
      else e
  end.

Definition exp10 (num den : Z) : Z :=
  adjust_exp10 4 num den ((Z.log2 num - Z.log2 den) * 30103 / 100000 - 1).

(** The [n]-digit decimals next to [num / den] that read back as [x]; of two,
    the nearer one (the even one on a tie). *)
Definition repr_try (x : spec_float) (num den e10 : Z) (n : Z) : option (Z * Z) :=
  let k := e10 - (n - 1) in
  let lo := scaled_floor num den k in
  let hi := lo + 1 in
  let ok d := SFeqb (float_of_decimal false d k) x in
  let nearer_lo :=
    let '(a, b) := if 0 <=? k then (2 * num, den * 10 ^ k)
                   else (2 * num * 10 ^ (- k), den) in
    match a ?= (2 * lo + 1) * b with
    | Lt => true
    | Gt => false
    | Eq => Z.even lo
    end in
  match ok lo, ok hi with
  | true, true => Some (if nearer_lo then lo else hi, k)
  | true, false => Some (lo, k)
  | false, true => Some (hi, k)
  | false, false => None
  end.

Fixpoint repr_search (fuel : nat) (x : spec_float) (num den e10 : Z) (n : Z)
  : Z * Z :=
  match fuel with
  | O => (scaled_floor num den (e10 - 16), e10 - 16)
  | S fuel' =>
      match repr_try x num den e10 n with
      | Some r => r
      | None => repr_search fuel' x num den e10 (n + 1)
      end
  end.

Fixpoint strip_zeros (fuel : nat) (d k : Z) : Z * Z :=
  match fuel with
  | O => (d, k)
  | S fuel' => if d mod 10 =? 0 then strip_zeros fuel' (d / 10) (k + 1) else (d, k)
  end.

Fixpoint zeros (n : nat) : string :=
  match n with
  | O => ""
  | S n' => String "0"%char (zeros n')
  end.

(** [n] in decimal, padded with zeros on the left to [width] characters *)
Definition zpad (width : nat) (n : Z) : string :=
  let s := str_of_nonneg n in
  zeros (width - String.length s) +:+ s.

Definition format_repr (d k : Z) : string :=
  let ds := str_of_nonneg d in
  let nd := Z.of_nat (String.length ds) in
  let decpt := nd + k in
  if (-4 <? decpt) && (decpt <=? 16) then
    if decpt <=? 0 then "0." +:+ zeros (Z.to_nat (- decpt)) +:+ ds
    else if nd <=? decpt then ds +:+ zeros (Z.to_nat (decpt - nd)) +:+ ".0"
    else substring 0 (Z.to_nat decpt) ds +:+ "." +:+
         substring (Z.to_nat decpt) (Z.to_nat (nd - decpt)) ds
  else
    let x := decpt - 1 in
    substring 0 1 ds +:+
    (if 1 <? nd then "." +:+ substring 1 (Z.to_nat (nd - 1)) ds else "") +:+
    "e" +:+ (if x <? 0 then "-" else "+") +:+ zpad 2 (Z.abs x).

(** [repr(f)], which is also [str(f)] *)
Definition repr_float (f : spec_float) : string :=
  match f with
  | S754_nan => "nan"
  | S754_infinity s => if s then "-inf" else "inf"
  | S754_zero s => if s then "-0.0" else "0.0"
  | S754_finite s m e =>
      let '(num, den) := if 0 <=? e then (Zpos m * 2 ^ e, 1)
                         else (Zpos m, 2 ^ (- e)) in
      let '(d, k) := repr_search 17 (S754_finite false m e) num den (exp10 num den) 1 in
      let '(d, k) := strip_zeros 17 d k in
      (if s then "-" else "") +:+ format_repr d k
  end.

(** * [str], [repr] and the conversions [int], [float], [bool] *)

Definition hex_digit (n : N) : ascii :=
  if (n <? 10)%N then ascii_of_N (48 + n) else ascii_of_N (87 + n).

Definition backslash : ascii := ascii_of_N 92.
Definition squote : ascii := ascii_of_N 39.
Definition dquote : ascii := ascii_of_N 34.

Definition escaped (s : string) : string := String backslash s.

Definition repr_char (quote : ascii) (c : ascii) : string :=
  let n := N_of_ascii c in
  if Ascii.eqb c quote || Ascii.eqb c backslash then escaped (String c "")
  else if (n =? 9)%N then escaped "t"
  else if (n =? 10)%N then escaped "n"
  else if (n =? 13)%N then escaped "r"
  else if ((n <? 32) || ((127 <=? n) && (n <=? 160)) || (n =? 173))%N then
    escaped (String "x"%char
      (String (hex_digit (n / 16)) (String (hex_digit (n mod 16)) "")))
  else String c "".

Fixpoint repr_chars (quote : ascii) (s : string) : string :=
  match s with
  | EmptyString => ""
  | String c s' => repr_char quote c +:+ repr_chars quote s'
  end.

(** [repr(s)] for a [str] *)
Definition repr_str (s : string) : string :=
  let quote :=
    if contains_char squote s && negb (contains_char dquote s)
    then dquote else squote in
  String quote (repr_chars quote s) +:+ String quote "".

(** [t.isoformat(sep)] *)
Definition isoformat (sep : string) (t : datetime) : string :=
  zpad 4 (year t) +:+ "-" +:+ zpad 2 (month t) +:+ "-" +:+ zpad 2 (day t) +:+
  sep +:+
  zpad 2 (hour t) +:+ ":" +:+ zpad 2 (minute t) +:+ ":" +:+ zpad 2 (second t) +:+
  (if microsecond t =? 0 then "" else "." +:+ zpad 6 (microsecond t)).

Definition repr_datetime (t : datetime) : string :=
  "datetime.datetime(" +:+ str_of_Z (year t) +:+ ", " +:+ str_of_Z (month t) +:+
  ", " +:+ str_of_Z (day t) +:+ ", " +:+ str_of_Z (hour t) +:+ ", " +:+
  str_of_Z (minute t) +:+
  (if (second t =? 0) && (microsecond t =? 0) then ""
   else ", " +:+ str_of_Z (second t) +:+
        (if microsecond t =? 0 then "" else ", " +:+ str_of_Z (microsecond t))) +:+
  ")".

Fixpoint py_repr (v : pyval) : string :=
  match v with
  | PNone => "None"
  | PBool b => if b then "True" else "False"
  | PInt z => str_of_Z z
  | PFloat f => repr_float f
  | PStr s => repr_str s
  | PList l => "[" +:+ join ", " (map py_repr l) +:+ "]"
  | PDict d =>
      "{" +:+
      join ", " (map (fun kv => let '(k, x) := kv in
                                repr_str k +:+ ": " +:+ py_repr x) d) +:+
      "}"
  | PDatetime t => repr_datetime t
  end.

(** [str(v)] *)
Definition py_str (v : pyval) : string :=
  match v with
  | PStr s => s
  | PDatetime t => isoformat " " t
  | _ => py_repr v
  end.

(** [bool(v)], the truth value of [v] *)
Definition py_bool (v : pyval) : bool :=
  match v with
  | PNone => false
  | PBool b => b
  | PInt z => negb (z =? 0)
  | PFloat f => float_truthy f
  | PStr s => negb (String.eqb s "")
  | PList l => match l with [] => false | _ => true end
  | PDict d => match d with [] => false | _ => true end
  | PDatetime _ => true
  end.

(** [int(v)] *)
Definition py_int (v : pyval) : result Z :=
  match v with
  | PBool b => Ok (if b then 1 else 0)
  | PInt z => Ok z
  | PFloat f => int_of_float f
  | PStr s => int_of_string s
  | PNone | PList _ | PDict _ | PDatetime _ => Raise TypeError
  end.

(** [float(v)] *)
Definition py_float (v : pyval) : result spec_float :=
  match v with
  | PBool b => float_of_Z (if b then 1 else 0)
  | PInt z => float_of_Z z
  | PFloat f => Ok f
  | PStr s => float_of_string s
  | PNone | PList _ | PDict _ | PDatetime _ => Raise TypeError
  end.

(** * Dictionaries and containers *)

(** [d.get(k)], [None] of [option] when the key is absent *)
Fixpoint dict_get (d : pydict) (k : string) : option pyval :=
  match d with
  | [] => None
  | (k', v) :: d' => if String.eqb k' k then Some v else dict_get d' k
  end.

(** [k in d] *)
Definition dict_has (d : pydict) (k : string) : bool :=
  match dict_get d k with
  | Some _ => true
  | None => false
  end.

(** [d.get(k, default)] *)
Definition dict_get_default (d : pydict) (k : string) (default : pyval) : pyval :=
  match dict_get d k with
  | Some v => v
  | None => default
  end.

(** [d[k] = v]: an existing key keeps its place, a new key goes last. *)
Fixpoint dict_set (d : pydict) (k : string) (v : pyval) : pydict :=
  match d with
  | [] => [(k, v)]
  | (k', v') :: d' =>
      if String.eqb k' k then (k, v) :: d' else (k', v') :: dict_set d' k v
  end.

(** [v.get(k, default)] on an arbitrary value: only a [dict] has [get]. *)
Definition py_get (v : pyval) (k : string) (default : pyval) : result pyval :=
  match v with
  | PDict d => Ok (dict_get_default d k default)
  | _ => Raise AttributeError
  end.

Fixpoint chars_of (s : string) : list pyval :=
  match s with
  | EmptyString => []
  | String c s' => PStr (String c "") :: chars_of s'
  end.

(** The elements a [for] loop over [v] visits *)
Definition py_iter (v : pyval) : result (list pyval) :=
  match v with
  | PList l => Ok l
  | PDict d => Ok (map (fun kv => PStr kv.1) d)
  | PStr s => Ok (chars_of s)
  | PNone | PBool _ | PInt _ | PFloat _ | PDatetime _ => Raise TypeError
  end.

(** [v == s] for a [str] [s] *)
Definition eq_str (v : pyval) (s : string) : bool :=
  match v with
  | PStr s' => String.eqb s' s
  | _ => false
  end.

(** [s in v] for a [str] [s] *)
Definition py_contains (s : string) (v : pyval) : result bool :=
  match v with
  | PDict d => Ok (dict_has d s)
  | PList l => Ok (existsb (fun x => eq_str x s) l)
  | PStr s' => Ok (is_substring s s')
  | PNone | PBool _ | PInt _ | PFloat _ | PDatetime _ => Raise TypeError
  end.

Definition is_list (v : pyval) : bool :=
  match v with PList _ => true | _ => false end.

Definition is_none (v : pyval) : bool :=
  match v with PNone => true | _ => false end.

(** Following a path of keys through nested dictionaries,
    [if isinstance(current, dict) and part in current: current = current[part]]
    for each part; [None] when a part is not found. *)
Fixpoint follow_keys (current : pyval) (path : list string) : option pyval :=
  match path with
  | [] => Some current
  | part :: path' =>
      match current with
      | PDict d =>
          match dict_get d part with
          | Some v => follow_keys v path'
          | None => None
          end
      | _ => None
      end
  end.

Definition str_truthy (o : option string) : bool :=
  match o with
  | Some s => negb (String.eqb s "")
  | None => false
  end.

Definition nl : string := String (ascii_of_N 10) "".

(** * Dates *)

(** A [datetime.date] is given by its proleptic Gregorian ordinal, the
    number [date.toordinal()] returns: day 1 is 1 January of year 1 and the
    last day, 31 December 9999, is [MAXORDINAL]. *)
Definition MAXORDINAL : Z := 3652059.

Definition is_date (d : Z) : Prop := 1 <= d <= MAXORDINAL.

(** [timedelta(days=n)] *)
Definition timedelta_days (n : Z) : result Z :=
  if Z.abs n <=? 999999999 then Ok n else Raise OverflowError.

(** [d - delta] for a date [d] and a [timedelta] of [delta] days *)
Definition date_sub (d delta : Z) : result Z :=
  let o := d - delta in
  if (0 <? o) && (o <=? MAXORDINAL) then Ok o else Raise OverflowError.

(** [d - timedelta(days=n)] *)
Definition days_before (d n : Z) : result Z :=
  let! delta := timedelta_days n in date_sub d delta.

(** [d.weekday()]: Monday is 0 and Sunday is 6. *)
Definition weekday (d : Z) : Z := (d + 6) mod 7.

Definition is_leap (year : Z) : bool :=
  (year mod 4 =? 0) && (negb (year mod 100 =? 0) || (year mod 400 =? 0)).

Definition days_before_year (year : Z) : Z :=
  let y := year - 1 in y * 365 + y / 4 - y / 100 + y / 400.

Definition DAYS_IN_MONTH : list Z := [31; 28; 31; 30; 31; 30; 31; 31; 30; 31; 30; 31].

Definition DAYS_BEFORE_MONTH : list Z :=
  [0; 31; 59; 90; 120; 151; 181; 212; 243; 273; 304; 334].

Definition days_before_month (year month : Z) : Z :=
  default 0 (DAYS_BEFORE_MONTH !! Z.to_nat (month - 1))
  + (if (2 <? month) && is_leap year then 1 else 0).

(** [date(year, month, day).toordinal()] *)
Definition ordinal_of_ymd (year month day : Z) : Z :=
  days_before_year year + days_before_month year month + day.

(** The year, month and day of [date.fromordinal(n)] *)
Definition ymd_of_ordinal (n : Z) : Z * Z * Z :=
  let n := n - 1 in
  let n400 := n / 146097 in
  let n := n mod 146097 in
  let n100 := n / 36524 in
  let n := n mod 36524 in
  let n4 := n / 1461 in
  let n := n mod 1461 in
  let n1 := n / 365 in
  let n := n mod 365 in
  let year := n400 * 400 + 1 + n100 * 100 + n4 * 4 + n1 in
  if (n1 =? 4) || (n100 =? 4) then (year - 1, 12, 31)
  else
    let leapyear := (n1 =? 3) && (negb (n4 =? 24) || (n100 =? 3)) in
    let month := Z.shiftr (n + 50) 5 in
    let preceding :=
      default 0 (DAYS_BEFORE_MONTH !! Z.to_nat (month - 1))
      + (if (2 <? month) && leapyear then 1 else 0) in
    if n <? preceding then
      let month := month - 1 in
      let preceding :=
        preceding - (default 0 (DAYS_IN_MONTH !! Z.to_nat (month - 1))
                     + (if (month =? 2) && leapyear then 1 else 0)) in
      (year, month, n - preceding + 1)
    else (year, month, n - preceding + 1).

(** [d.replace(day=1)] *)
Definition first_of_month (d : Z) : Z :=
  let '(year, month, _) := ymd_of_ordinal d in ordinal_of_ymd year month 1.

(** [s.endswith(suffix)] *)
Fixpoint endswith (suffix s : string) : bool :=
  String.eqb s suffix ||
  match s with
  | EmptyString => false
  | String _ s' => endswith suffix s'
  end.

(** * The Google Ads pipeline ([google_ads_pipeline.py]) *)

Module GoogleAds.

(** One entry of [self.column_config].  [_parse_column_config] rejects an
    entry without ["name"] or ["type"]; the other keys are read with [get].
    [transform] stands for the function [eval(col_config["transform"])]
    yields: an [eval] that raises is a function that always raises, both
    happen inside the same [try]. *)
Record col_config : Type := mk_col {
  name : string;
  type_ : string;
  source_field : option string;
  is_table : bool;
  is_unique_id : bool;
  is_date_range : bool;
  filtered : option string;
  filter_type : option string;
  filter_value : option string;
  transform : option (pyval → result pyval)
}.

(** [c.upper()] for one character; the two letters whose capital lies
    above code point 255 are left as they are. *)
Definition upper_char (c : ascii) : string :=
  let n := N_of_ascii c in
  if ((97 <=? n) && (n <=? 122))%N then String (ascii_of_N (n - 32)) ""
  else if ((224 <=? n) && (n <=? 254) && negb (n =? 247))%N
  then String (ascii_of_N (n - 32)) ""
  else if (n =? 223)%N then "SS"
  else String c "".

Definition capitalize_first (segment : string) : string :=
  match segment with
  | EmptyString => ""
  | String c rest => upper_char c +:+ rest
  end.

Definition _convert_snake_to_camel (path_part : string) : string :=
  if negb (contains_char "_"%char path_part) then path_part
  else
    match split "_"%char path_part with
    | [] => ""
    | first :: rest =>
        fold_left (fun result segment => result +:+ capitalize_first segment)
                  rest first
    end.

Definition float_zero : spec_float := S754_zero false.

Definition _get_default_value (bq_type : string) : pyval :=
  if String.eqb bq_type "INTEGER" then PInt 0
  else if String.eqb bq_type "FLOAT64" then PFloat float_zero
  else if String.eqb bq_type "STRING" then PStr "N/A"
  else if String.eqb bq_type "TIMESTAMP" then PNone
  else if String.eqb bq_type "DATE" then PNone
  else if String.eqb bq_type "BOOLEAN" then PBool false
  else PNone.

(** The body of the [try] block of [_convert_value_based_on_type] *)
Definition convert_attempt (value : pyval) (bq_type : string) : result pyval :=
  if String.eqb bq_type "INTEGER" then PInt <$> py_int value
  else if String.eqb bq_type "FLOAT64" then PFloat <$> py_float value
  else if String.eqb bq_type "STRING" then Ok (PStr (py_str value))
  else if String.eqb bq_type "TIMESTAMP" then
    match value with
    | PDatetime t => Ok (PStr (isoformat "T" t))
    | _ => Ok value
    end
  else if String.eqb bq_type "BOOLEAN" then Ok (PBool (py_bool value))
  else Ok value.

Definition _convert_value_based_on_type (value : pyval) (bq_type : string) : pyval :=
  if is_none value then _get_default_value bq_type
  else try_except (convert_attempt value bq_type) (_get_default_value bq_type).

Definition normalized_path (source_field : string) : list string :=
  map _convert_snake_to_camel (split dot source_field).

Definition _extract_value_from_result
    (result : pydict) (source_field : option string) (col : col_config) : pyval :=
  if negb (str_truthy source_field) then PNone
  else
    match follow_keys (PDict result) (normalized_path (default "" source_field)) with
    | None => _get_default_value (type_ col)
    | Some current =>
        match transform col with
        | Some transform_func => try_except (transform_func current) current
        | None => _convert_value_based_on_type current (type_ col)
        end
    end.

(** The state [generate_api_query] builds while it walks the configuration *)
Record query_parts : Type := mk_parts {
  source_fields : list string;
  table_name : string;
  date_field : string;
  filters : list string
}.

Definition scan_column (acc : query_parts) (col : col_config) : query_parts :=
  if is_table col then
    mk_parts (source_fields acc) (name col) (date_field acc) (filters acc)
  else if is_unique_id col then acc
  else if is_date_range col then
    let date_field := default "segments.date" (source_field col) in
    mk_parts (source_fields acc ++ [date_field])%list (table_name acc) date_field
             (filters acc)
  else
    let filters' :=
      if (match filtered col with Some f => String.eqb f "true" | None => false end)
           && str_truthy (source_field col)
           && str_truthy (filter_type col) && str_truthy (filter_value col)
      then (filters acc ++
            [default "" (source_field col) +:+ " " +:+ default "" (filter_type col)
             +:+ " '" +:+ default "" (filter_value col) +:+ "'"])%list
      else filters acc in
    let source_fields' :=
      match source_field col with
      | Some sf =>
          if negb (String.eqb sf "") && negb (String.eqb sf "None")
          then (source_fields acc ++ [sf])%list else source_fields acc
      | None => source_fields acc
      end in
    mk_parts source_fields' (table_name acc) (date_field acc) filters'.

(** "Remove duplicates while preserving order" *)
Definition unique_fields (fields : list string) : list string :=
  fold_left (fun unique field =>
               if bool_decide (field ∈ unique) then unique else (unique ++ [field])%list)
            fields [].

(** The time window of a query: the period given by the caller, the
    configured [DURING_PERIOD], and the configured date range. *)
Record window : Type := mk_window {
  during_period_value : option string;
  During_period : option string;
  start_date : string;
  end_date : string
}.

Definition generate_api_query (column_config : list col_config) (w : window) : string :=
  let parts := fold_left scan_column column_config
                 (mk_parts [] "campaign" "segments.date" []) in
  let select_clause :=
    "SELECT" +:+ nl +:+ "    " +:+
    join ("," +:+ nl +:+ "    ") (unique_fields (source_fields parts)) in
  let active_during_period :=
    if str_truthy (during_period_value w) then during_period_value w
    else During_period w in
  let during_period :=
    if str_truthy active_during_period then
      "WHERE " +:+ date_field parts +:+ " DURING " +:+ default "" active_during_period
    else
      "WHERE " +:+ date_field parts +:+ " BETWEEN '" +:+ start_date w +:+
      "' AND '" +:+ end_date w +:+ "'" in
  let filters_clause :=
    match filters parts with
    | [] => ""
    | fs => "AND " +:+ join " AND " fs
    end in
  nl +:+ select_clause +:+ nl +:+
  "FROM " +:+ table_name parts +:+ nl +:+
  during_period +:+ nl +:+
  filters_clause +:+ nl +:+
  "ORDER BY " +:+ date_field parts +:+ " ASC" +:+ nl +:+
  "LIMIT 10000" +:+ nl.

(** ** [_process_results] *)

(** [source_field == "None"] *)
Definition source_is_None (col : col_config) : bool :=
  match source_field col with
  | Some sf => String.eqb sf "None"
  | None => false
  end.

(** Whether the iteration for [col] calls [datetime.now()] *)
Definition reads_clock (col : col_config) : bool :=
  negb (is_table col)
  && negb (String.eqb (name col) "ID" && source_is_None col)
  && (String.eqb (name col) "processed_at" && source_is_None col).


Section process_results.
(** [clock n] is the value of the [n]-th call of [datetime.now()], and
    [uuid4 k] the string of the [k]-th call of [uuid.uuid4()]. *)
Variable clock : nat → datetime.
Variable uuid4 : nat → string.


End process_results.

(** ** [_calculate_dates_from_period] *)

Section calculate_dates.
(** [strftime d] is the text [d.strftime("%Y-%m-%d")] gives for the date
    [d]. *)
Variable strftime : Z → string.

(** The pair the function returns for the dates [start] and [end_] *)
Definition formatted (start end_ : Z) : pyval * pyval :=
  (PStr (strftime start), PStr (strftime end_)).

(** The [try] block of the [LAST_x_DAYS] branch *)
Definition last_days_attempt (today : Z) (period : string)
  : result (pyval * pyval) :=
  let! days :=
    match split "_"%char period !! 1%nat with
    | Some part => int_of_string part
    | None => Raise IndexError
    end in
  let! yesterday := days_before today 1 in
  let! start_date := days_before today days in
  Ok (formatted start_date yesterday).

(** [_calculate_dates_from_period(period)] when [self.now.date()] is
    [today] *)
Definition _calculate_dates_from_period (today : Z) (period : string)
  : result (pyval * pyval) :=
  if String.eqb period "TODAY" then Ok (formatted today today)
  else if String.eqb period "YESTERDAY" then
    let! yesterday := days_before today 1 in
    Ok (formatted yesterday yesterday)
  else if String.prefix "LAST_" period && endswith "_DAYS" period then
    match last_days_attempt today period with
    | Raise IndexError | Raise ValueError => Ok (PNone, PNone)
    | outcome => outcome
    end
  else if String.eqb period "THIS_WEEK_SUN_TODAY" then
    let days_since_sunday := weekday today + 1 in
    let! start_date :=
      (if days_since_sunday =? 7 then Ok today
       else days_before today days_since_sunday) in
    Ok (formatted start_date today)
  else if String.eqb period "THIS_WEEK_MON_TODAY" then
    let days_since_monday := weekday today in
    let! start_date :=
      (if days_since_monday =? 0 then Ok today
       else days_before today days_since_monday) in
    Ok (formatted start_date today)
  else if String.eqb period "LAST_WEEK" then
    let! start_of_this_week := days_before today (weekday today) in
    let! end_of_last_week := days_before start_of_this_week 1 in
    let! start_of_last_week := days_before end_of_last_week 6 in
    Ok (formatted start_of_last_week end_of_last_week)
  else if String.eqb period "LAST_BUSINESS_WEEK" then
    let days_since_monday := weekday today in
    let! last_friday := days_before today (days_since_monday + 3) in
    let! last_monday := days_before last_friday 4 in
    Ok (formatted last_monday last_friday)
  else if String.eqb period "LAST_MONTH" then
    let first_of_this_month := first_of_month today in
    let! last_of_last_month := days_before first_of_this_month 1 in
    let first_of_last_month := first_of_month last_of_last_month in
    Ok (formatted first_of_last_month last_of_last_month)
  else Ok (PNone, PNone).
End calculate_dates.

End GoogleAds.

(** * The Meta Ads pipeline ([meta_ads_pipeline.py]) *)

Module MetaAds.

(** One entry of [self.column_definitions]: ["name"] is read by subscript,
    every other key with [get]. *)
Record col_def : Type := mk_col {
  name : string;
  type_ : string;
  source_field : option string;
  is_nested : bool;
  action_filter : option string;
  auto_generate : bool;
  is_value_from : option string;
  deep_nested : bool;
  path_to_value : option string;
  array_all : bool;
  join_delimiter : option string;
  is_breakdown : bool
}.

(** ** [_generate_api_fields] *)

(** [nested_fields[top_level].add(child)], creating the entry when needed;
    [child = None] only creates the entry. *)
Fixpoint nested_add (nested : list (string * gset string)) (top_level : string)
    (child : option string) : list (string * gset string) :=
  let extend (s : gset string) : gset string :=
    match child with
    | Some c => s ∪ {[ c ]}
    | None => s
    end in
  match nested with
  | [] => [(top_level, extend ∅)]
  | (k, s) :: nested' =>
      if String.eqb k top_level then (k, extend s) :: nested'
      else (k, s) :: nested_add nested' top_level child
  end.

Definition collect_fields (acc : gset string * list (string * gset string))
    (col : col_def) : gset string * list (string * gset string) :=
  let '(api_fields, nested_fields) := acc in
  if auto_generate col || is_breakdown col then acc
  else
    let source_field := default "" (source_field col) in
    if deep_nested col && str_truthy (path_to_value col) then
      match split dot (default "" (path_to_value col)) with
      | [] => acc
      | top_level :: rest =>
          let api_fields := api_fields ∪ {[ top_level ]} in
          match rest with
          | [] => (api_fields, nested_fields)
          | _ =>
              let nested_path := filter (fun segment => isdigit segment = false) rest in
              (api_fields, nested_add nested_fields top_level (last nested_path))
          end
      end
    else if contains_char dot source_field then
      (api_fields ∪ {[ default "" (head (split dot source_field)) ]}, nested_fields)
    else (api_fields ∪ {[ source_field ]}, nested_fields).

(** [fields_list.remove(x)]: drops the first occurrence *)
Fixpoint remove_first (x : string) (l : list string) : list string :=
  match l with
  | [] => []
  | y :: l' => if String.eqb y x then l' else y :: remove_first x l'
  end.

Section generate_api_fields.
(** The order in which Python enumerates a [set] of strings is not fixed:
    [enum] is the order of the run at hand. *)
Variable enum : gset string → list string.

(** [sorted(s)] *)
Definition sorted (l : list string) : list string := merge_sort String.le l.

Definition add_nested (fields_list : list string)
    (entry : string * gset string) : list string :=
  let '(parent_field, child_fields) := entry in
  if bool_decide (child_fields = ∅) then fields_list
  else
    let nested_str :=
      parent_field +:+ "{" +:+ join "," (sorted (enum child_fields)) +:+ "}" in
    let fields_list :=
      if bool_decide (parent_field ∈ fields_list)
      then remove_first parent_field fields_list else fields_list in
    (fields_list ++ [nested_str])%list.

Definition _generate_api_fields (column_definitions : list col_def) : string :=
  let '(api_fields, nested_fields) :=
    fold_left collect_fields column_definitions (∅, []) in
  let api_fields := api_fields ∖ {[ "" ]} in
  let fields_list := fold_left add_nested nested_fields (enum api_fields) in
  join "," (sorted fields_list).
End generate_api_fields.

(** ** [process_record] *)

(** The local variable [array_pos] of [process_record]: it is assigned only
    while a path with a ["*"] is prepared, and keeps its value from one
    column to the next. *)
Inductive array_pos_state : Type :=
  | Unbound
  | BoundNone
  | BoundInt (i : nat).

Fixpoint find_star (i : nat) (path_segments : list string) : option nat :=
  match path_segments with
  | [] => None
  | segment :: rest =>
      if String.eqb segment "*" then Some i else find_star (S i) rest
  end.

(** Lines 283-296: the wildcard becomes the placeholder ["0"]. Returns the
    path, [array_all] and [array_pos] as they stand afterwards. *)
Definition prepare_wildcard (path_to_value : string) (array_all : bool)
    (array_pos : array_pos_state) : string * bool * array_pos_state :=
  if contains_char "*"%char path_to_value then
    let path_segments := split dot path_to_value in
    match find_star 0 path_segments with
    | Some i => (join "." (<[i := "0"]> path_segments), true, BoundInt i)
    | None => (path_to_value, array_all, BoundNone)
    end
  else (path_to_value, array_all, array_pos).

(** [i == array_pos] *)
Definition at_array_pos (i : nat) (array_pos : array_pos_state) : result bool :=
  match array_pos with
  | Unbound => Raise UnboundLocalError
  | BoundNone => Ok false
  | BoundInt p => Ok (Nat.eqb i p)
  end.

(** [i == array_pos - 1] *)
Definition before_array_pos (i : nat) (array_pos : array_pos_state) : result bool :=
  match array_pos with
  | Unbound => Raise UnboundLocalError
  | BoundNone => Raise TypeError
  | BoundInt p => Ok (Z.of_nat i =? Z.of_nat p - 1)
  end.

Record nav_state : Type := mk_nav {
  current_value : pyval;
  collecting_array : bool;
  array_position : Z
}.

Definition stop_empty (st : nav_state) : nav_state :=
  mk_nav (PStr "") (collecting_array st) (array_position st).

Definition step_to (v : pyval) (st : nav_state) : nav_state :=
  mk_nav v (collecting_array st) (array_position st).

(** Lines 308-344: the loop over the path segments; a returned state is the
    state at the [break] or at the end of the path. *)
Fixpoint walk_path (array_all : bool) (array_pos : array_pos_state)
    (i : nat) (path_segments : list string) (st : nav_state) : result nav_state :=
  match path_segments with
  | [] => Ok st
  | segment :: rest =>
      if isdigit segment then
        let! idx := int_of_string segment in
        let! mark := (if array_all && negb (collecting_array st)
                then at_array_pos i array_pos else Ok false : result bool) in
        let st := if mark then mk_nav (current_value st) true (Z.of_nat i) else st in
        if mark && is_list (current_value st) then Ok st
        else
          match current_value st with
          | PList l =>
              match l !! Z.to_nat idx with
              | Some v => walk_path array_all array_pos (S i) rest (step_to v st)
              | None => Ok (stop_empty st)
              end
          | PDict d =>
              match dict_get d segment with
              | Some v => walk_path array_all array_pos (S i) rest (step_to v st)
              | None => Ok (stop_empty st)
              end
          | _ => Ok (stop_empty st)
          end
      else
        match current_value st with
        | PDict d =>
            match dict_get d segment with
            | Some v =>
                let! mark := (if is_list v && array_all
                        then before_array_pos i array_pos else Ok false : result bool) in
                if mark then Ok (mk_nav v true (Z.of_nat i + 1))
                else walk_path array_all array_pos (S i) rest (step_to v st)
            | None => Ok (stop_empty st)
            end
        | _ => Ok (stop_empty st)
        end
  end.

(** Lines 356-368: the remaining path applied to one array item *)
Fixpoint apply_remaining (item_value : pyval) (remaining_path : list string)
  : result pyval :=
  match remaining_path with
  | [] => Ok item_value
  | segment :: rest =>
      match item_value with
      | PDict d =>
          match dict_get d segment with
          | Some v => apply_remaining v rest
          | None => Ok (PStr "")
          end
      | PList l =>
          if isdigit segment then
            let! idx := int_of_string segment in
            match l !! Z.to_nat idx with
            | Some v => apply_remaining v rest
            | None => Ok (PStr "")
            end
          else Ok (PStr "")
      | _ => Ok (PStr "")
      end
  end.

(** Lines 352-373: the strings collected from the items of the array *)
Fixpoint collect_items (items : list pyval) (remaining_path : list string)
  : result (list string) :=
  match items with
  | [] => Ok []
  | item :: items' =>
      let! item_value := apply_remaining item remaining_path in
      let! array_values := collect_items items' remaining_path in
      Ok (if is_none item_value then array_values
          else py_str item_value :: array_values)
  end.

(** Lines 281-386, the body of the [try] *)
Definition deep_nested_attempt (path_to_value : string) (array_all : bool)
    (array_pos : array_pos_state) (join_delimiter : string) (record : pydict)
  : result pyval :=
  let path_segments := split dot path_to_value in
  let! st := walk_path array_all array_pos 0 path_segments (mk_nav (PDict record) false (-1)) in
  match current_value st with
  | PList items =>
      if collecting_array st then
        let remaining_path :=
          if array_position st <? Z.of_nat (length path_segments) - 1
          then drop (Z.to_nat (array_position st + 1)) path_segments else [] in
        let! array_values := collect_items items remaining_path in
        match array_values with
        | [] => Ok (PStr "")
        | first :: _ =>
            Ok (PStr (if array_all then join join_delimiter array_values else first))
        end
      else Ok (current_value st)
  | PNone => Ok (PStr "")
  | v => Ok v
  end.

(** The array position after a column has been handled *)
Definition next_array_pos (array_pos : array_pos_state) (col : col_def)
  : array_pos_state :=
  if auto_generate col then array_pos
  else if deep_nested col && str_truthy (path_to_value col) then
    (prepare_wildcard (default "" (path_to_value col)) (array_all col) array_pos).2
  else array_pos.

Definition deep_nested_value (array_pos : array_pos_state) (col : col_def)
    (record : pydict) : pyval :=
  let '(path_to_value, array_all, array_pos) :=
    prepare_wildcard (default "" (path_to_value col)) (array_all col) array_pos in
  try_except
    (deep_nested_attempt path_to_value array_all array_pos
       (default "," (join_delimiter col)) record)
    (PStr "").

(** Lines 396-401 and 404-409: the [for ... else] over an action array *)
Fixpoint scan_actions (action_filter : string) (actions : list pyval) : result pyval :=
  match actions with
  | [] => Ok (PStr "")
  | action :: rest =>
      let! action_type := py_get action "action_type" PNone in
      if eq_str action_type action_filter then py_get action "value" (PStr "")
      else scan_actions action_filter rest
  end.

Definition action_filter_value (col : col_def) (record : pydict) : result pyval :=
  let action_filter := default "" (action_filter col) in
  if (match is_value_from col with
      | Some src => String.eqb src "action_values"
      | None => false
      end) && dict_has record "action_values" then
    let! actions := py_iter (dict_get_default record "action_values" (PList [])) in
    scan_actions action_filter actions
  else if dict_has record "actions" then
    let! actions := py_iter (dict_get_default record "actions" (PList [])) in
    scan_actions action_filter actions
  else Ok (PStr "").

(** [next((a for a in items if "value" in a), None)] *)
Fixpoint first_with_value (items : list pyval) : result (option pyval) :=
  match items with
  | [] => Ok None
  | a :: rest =>
      let! found := py_contains "value" a in
      if found then Ok (Some a) else first_with_value rest
  end.

Definition nested_value (col : col_def) (record : pydict) : result pyval :=
  match source_field col with
  | None => Raise TypeError
  | Some source_field =>
      if contains_char dot source_field then
        match split dot source_field with
        | [parent_field; child_field] =>
            match dict_get record parent_field with
            | Some parent =>
                if py_bool parent then
                  let! items := py_iter parent in
                  let! action := first_with_value items in
                  match action with
                  | Some action =>
                      if py_bool action then
                        if String.eqb child_field "action_type"
                        then py_get action "action_type" (PStr "")
                        else py_get action "value" (PStr "")
                      else Ok (PStr "")
                  | None => Ok (PStr "")
                  end
                else Ok (PStr "")
            | None => Ok (PStr "")
            end
        | _ => Raise ValueError
        end
      else Ok (PStr "")
  end.

(** [record.get(source_field, "")] *)
Definition record_get (record : pydict) (source_field : option string) : pyval :=
  match source_field with
  | Some k => dict_get_default record k (PStr "")
  | None => PStr ""
  end.

Definition direct_value (col : col_def) (record : pydict) : result pyval :=
  let value := record_get record (source_field col) in
  if (match source_field col with
      | Some k => String.eqb k "campaign_id"
      | None => false
      end) && py_bool (dict_get_default record "campaign_id" PNone) then
    match py_int value with
    | Ok z => Ok (PInt z)
    | Raise ValueError | Raise TypeError => Ok (PStr "")
    | Raise e => Raise e
    end
  else Ok value.

(** The value one iteration of the loop of [process_record] appends; [now]
    is what [datetime.now()] returns during it. *)
Definition column_value (now : datetime) (array_pos : array_pos_state)
    (col : col_def) (record : pydict) : result pyval :=
  if auto_generate col then
    Ok (if String.eqb (name col) "processed_at" then PDatetime now else PStr "")
  else if deep_nested col && str_truthy (path_to_value col) then
    Ok (deep_nested_value array_pos col record)
  else if is_nested col && str_truthy (action_filter col) then
    action_filter_value col record
  else if is_nested col then nested_value col record
  else direct_value col record.

(** Whether the iteration calls [datetime.now()] *)
Definition reads_clock (col : col_def) : bool :=
  auto_generate col && String.eqb (name col) "processed_at".

Section process.
(** [clock n] is the value of the [n]-th call of [datetime.now()]. *)
Variable clock : nat → datetime.
Variable column_definitions : list col_def.

Fixpoint process_columns (n : nat) (array_pos : array_pos_state)
    (cols : list col_def) (record : pydict) : result (list pyval * nat) :=
  match cols with
  | [] => Ok ([], n)
  | col :: rest =>
      let! v := column_value (clock n) array_pos col record in
      let! (row, n') := process_columns (if reads_clock col then S n else n)
                      (next_array_pos array_pos col) rest record in
      Ok (v :: row, n')
  end.

(** [process_record(record)] when [n] calls of [datetime.now()] have been
    made before: the row and the number of calls afterwards. *)
Definition process_record (n : nat) (record : pydict) : result (list pyval * nat) :=
  process_columns n Unbound column_definitions record.

(** ** [process_nested_response] *)

(** Lines 477-486 for one field of the record: the nested array and the
    pagination URL the field carries. *)
Definition nested_array_of (field_value : pyval) : option (list pyval) :=
  match field_value with
  | PDict fv =>
      match dict_get fv "data" with
      | Some (PList items) => Some items
      | _ => None
      end
  | _ => None
  end.

Definition pagination_of (field_value : pyval) : result (option pyval) :=
  match field_value with
  | PDict fv =>
      match dict_get fv "paging" with
      | Some paging =>
          let! has_next := py_contains "next" paging in
          if has_next then
            match paging with
            | PDict pg => Ok (dict_get pg "next")
            | _ => Raise TypeError
            end
          else Ok None
      | None => Ok None
      end
  | _ => Ok None
  end.

(** [nested_arrays] and [nested_paginations] of a record *)
Fixpoint scan_fields (fields : pydict)
  : result (list (string * list pyval) * list (string * pyval)) :=
  match fields with
  | [] => Ok ([], [])
  | (field_name, field_value) :: rest =>
      let! here :=
        match nested_array_of field_value with
        | Some items =>
            let! next := pagination_of field_value in
            Ok ([(field_name, items)],
                match next with
                | Some url => [(field_name, url)]
                | None => []
                end)
        | None => Ok ([], [])
        end in
      let! (arrays, paginations) := scan_fields rest in
      Ok ((here.1 ++ arrays)%list, (here.2 ++ paginations)%list)
  end.

(** Lines 538-546 and 550-558: one row per nested item *)
Fixpoint process_items (n : nat) (record : pydict) (field_name : string)
    (items : list pyval) : result (list (list pyval) * nat) :=
  match items with
  | [] => Ok ([], n)
  | nested_item :: items' =>
      let combined_record :=
        dict_set record field_name (PDict [("data", PList [nested_item])]) in
      let! (row, n1) := process_record n combined_record in
      let! (rows, n2) := process_items n1 record field_name items' in
      Ok (row :: rows, n2)
  end.

(** A session is modelled by what the pagination loop (lines 495-535)
    fetches for a field from its first pagination URLs; without such a
    URL the loop body never runs and nothing is fetched. *)
Definition session : Type := string → list pyval → list pyval.

Definition all_nested_items (s : option session)
    (paginations : list (string * pyval)) (field_name : string)
    (nested_items : list pyval) : list pyval :=
  match s with
  | Some fetch =>
      let pagination_urls :=
        map snd (filter (fun p => String.eqb p.1 field_name = true) paginations) in
      match pagination_urls with
      | [] => nested_items
      | _ => (nested_items ++ fetch field_name pagination_urls)%list
      end
  | None => nested_items
  end.

Fixpoint process_arrays (s : option session) (n : nat) (record : pydict)
    (paginations : list (string * pyval))
    (arrays : list (string * list pyval)) : result (list (list pyval) * nat) :=
  match arrays with
  | [] => Ok ([], n)
  | (field_name, nested_items) :: arrays' =>
      let! (rows, n1) := process_items n record field_name
                      (all_nested_items s paginations field_name nested_items) in
      let! (rows', n2) := process_arrays s n1 record paginations arrays' in
      Ok ((rows ++ rows')%list, n2)
  end.

(** The body of the loop over [response["data"]] for one record *)
Definition process_nested_record (s : option session) (n : nat)
    (record : pydict) : result (list (list pyval) * nat) :=
  let! (nested_arrays, nested_paginations) := scan_fields record in
  match nested_arrays with
  | [] =>
      let! (row, n') := process_record n record in
      Ok ([row], n')
  | _ => process_arrays s n record nested_paginations nested_arrays
  end.

Fixpoint process_nested_records (s : option session) (n : nat)
    (records : list pyval) : result (list (list pyval) * nat) :=
  match records with
  | [] => Ok ([], n)
  | PDict record :: records' =>
      let! (rows, n1) := process_nested_record s n record in
      let! (rows', n2) := process_nested_records s n1 records' in
      Ok ((rows ++ rows')%list, n2)
  | _ :: _ => Raise AttributeError
  end.

Definition process_nested_response (s : option session) (n : nat)
    (response : pydict) : result (list (list pyval) * nat) :=
  match dict_get response "data" with
  | None => Ok ([], n)
  | Some data =>
      let! records := py_iter data in
      process_nested_records s n records
  end.
End process.

End MetaAds.

(** * Arithmetic *)

Definition as_number (v : pyval) : option (Z + spec_float) :=
  match v with
  | PBool b => Some (inl (if b then 1 else 0))
  | PInt z => Some (inl z)
  | PFloat f => Some (inr f)
  | _ => None
  end.

(** [s * n] for a sequence [s] *)
Definition repeat_seq (v : pyval) (n : Z) : result pyval :=
  match v with
  | PStr s => Ok (PStr (String.concat "" (replicate (Z.to_nat n) s)))
  | PList l => Ok (PList (concat (replicate (Z.to_nat n) l)))
  | _ => Raise TypeError
  end.

(** [a * b] *)
Definition py_mul (a b : pyval) : result pyval :=
  match as_number a, as_number b with
  | Some (inl x), Some (inl y) => Ok (PInt (x * y))
  | Some (inl x), Some (inr g) =>
      let! f := float_of_Z x in Ok (PFloat (SFmul prec emax f g))
  | Some (inr f), Some (inl y) =>
      let! g := float_of_Z y in Ok (PFloat (SFmul prec emax f g))
  | Some (inr f), Some (inr g) => Ok (PFloat (SFmul prec emax f g))
  | Some (inl n), None => repeat_seq b n
  | None, Some (inl n) => repeat_seq a n
  | _, _ => Raise TypeError
  end.

(** [a - b] on the values a JSON document holds (numbers subtract, nothing
    else does) *)
Definition py_sub (a b : pyval) : result pyval :=
  match as_number a, as_number b with
  | Some (inl x), Some (inl y) => Ok (PInt (x - y))
  | Some (inl x), Some (inr g) =>
      let! f := float_of_Z x in Ok (PFloat (SFsub prec emax f g))
  | Some (inr f), Some (inl y) =>
      let! g := float_of_Z y in Ok (PFloat (SFsub prec emax f g))
  | Some (inr f), Some (inr g) => Ok (PFloat (SFsub prec emax f g))
  | _, _ => Raise TypeError
  end.

(** [-v] *)
Definition py_neg (v : pyval) : result pyval :=
  match as_number v with
  | Some (inl x) => Ok (PInt (- x))
  | Some (inr f) => Ok (PFloat (SFopp f))
  | None => Raise TypeError
  end.

(** [v[0]] for a [v] that is true *)
Definition py_first (v : pyval) : result pyval :=
  match v with
  | PList (x :: _) => Ok x
  | PList [] => Raise IndexError
  | PStr (String c _) => Ok (PStr (String c ""))
  | PStr EmptyString => Raise IndexError
  | PDict _ => Raise KeyError
  | _ => Raise TypeError
  end.

(** [len(v)] *)
Definition py_len (v : pyval) : result Z :=
  match v with
  | PList l => Ok (Z.of_nat (length l))
  | PDict d => Ok (Z.of_nat (length d))
  | PStr s => Ok (Z.of_nat (String.length s))
  | PNone | PBool _ | PInt _ | PFloat _ | PDatetime _ => Raise TypeError
  end.

(** [v[i]] for an index [i >= 0] written in the code; a dictionary of a JSON
    document has no integer key. *)
Definition py_item (v : pyval) (i : nat) : result pyval :=
  match v with
  | PList l =>
      match l !! i with
      | Some x => Ok x
      | None => Raise IndexError
      end
  | PStr s =>
      match String.get i s with
      | Some c => Ok (PStr (String c ""))
      | None => Raise IndexError
      end
  | PDict _ => Raise KeyError
  | PNone | PBool _ | PInt _ | PFloat _ | PDatetime _ => Raise TypeError
  end.

(** [v[k]] for a key [k] that is a string *)
Definition py_field (v : pyval) (k : string) : result pyval :=
  match v with
  | PDict d =>
      match dict_get d k with
      | Some x => Ok x
      | None => Raise KeyError
      end
  | _ => Raise TypeError
  end.

(** * The Xero pipeline ([xero_data_pipeline.py]) *)

Module Xero.

Record col_def : Type := mk_col {
  name : string;
  type_ : string;
  source_field : option string;
  is_nested : bool;
  auto_generate : bool
}.

Definition plain (name type_ source_field : string) : col_def :=
  mk_col name type_ (Some source_field) false false.
Definition nested (name type_ source_field : string) : col_def :=
  mk_col name type_ (Some source_field) true false.

(** [config.INVOICES_COLUMN_DEFINITIONS] *)
Definition INVOICES_COLUMN_DEFINITIONS : list col_def :=
  [ plain "type" "STRING" "Type";
    plain "invoice_id" "STRING" "InvoiceID";
    plain "invoice_number" "STRING" "InvoiceNumber";
    plain "reference" "STRING" "Reference";
    nested "payments_amount" "FLOAT64" "Payments.Amount";
    plain "amount_due" "FLOAT64" "AmountDue";
    plain "amount_paid" "FLOAT64" "AmountPaid";
    plain "amount_credited" "FLOAT64" "AmountCredited";
    plain "url" "STRING" "Url";
    plain "currency_rate" "FLOAT64" "CurrencyRate";
    nested "contact_name" "STRING" "Contact.Name";
    plain "date" "DATE" "DateString";
    plain "due_date" "DATE" "DueDateString";
    plain "status" "STRING" "Status";
    nested "unit_amount" "FLOAT64" "LineItems.UnitAmount";
    nested "item_name" "STRING" "LineItems.Item.Name";
    nested "item_code" "STRING" "LineItems.Item.Code";
    nested "quantity" "FLOAT64" "LineItems.Quantity";
    plain "sub_total" "FLOAT64" "SubTotal";
    plain "currency_code" "STRING" "CurrencyCode";
    nested "account_code" "STRING" "LineItems.AccountCode";
    mk_col "processed_at" "TIMESTAMP" None false true ].

(** [config.CREDIT_NOTES_COLUMN_DEFINITIONS] *)
Definition CREDIT_NOTES_COLUMN_DEFINITIONS : list col_def :=
  [ plain "type" "STRING" "Type";
    plain "credit_note_id" "STRING" "CreditNoteID";
    plain "credit_note_number" "STRING" "CreditNoteNumber";
    plain "reference" "STRING" "Reference";
    plain "amount_credited" "FLOAT64" "Total";
    nested "url" "STRING" "Attachments.Url";
    plain "currency_rate" "FLOAT64" "CurrencyRate";
    nested "contact_name" "STRING" "Contact.Name";
    plain "date" "DATE" "DateString";
    plain "status" "STRING" "Status";
    nested "unit_amount" "FLOAT64" "LineItems.UnitAmount";
    nested "item_name" "STRING" "LineItems.Item.Name";
    nested "item_code" "STRING" "LineItems.Item.Code";
    nested "quantity" "FLOAT64" "LineItems.Quantity";
    plain "sub_total" "FLOAT64" "SubTotal";
    plain "currency_code" "STRING" "CurrencyCode";
    nested "account_code" "STRING" "LineItems.AccountCode";
    mk_col "processed_at" "TIMESTAMP" None false true ].

(** [config.PROFIT_LOSS_COLUMN_DEFINITIONS] *)
Definition PROFIT_LOSS_COLUMN_DEFINITIONS : list col_def :=
  [ plain "category" "STRING" "Section.Title";
    nested "account_name" "STRING" "Row.Cells[0].Value";
    nested "amount" "FLOAT64" "Row.Cells[1].Value";
    plain "date_from" "DATE" "ReportDate.FromDate";
    plain "date_to" "DATE" "ReportDate.ToDate";
    mk_col "processed_at" "TIMESTAMP" None false true ].

(** [config.PRODUCT_QUANTITY_MULTIPLIERS] *)
Definition PRODUCT_QUANTITY_MULTIPLIERS : pydict :=
  [ ("Digestive EQ - 1 box of 4 x 4kg Tubs", PInt 4);
    ("Digestive RP - 1 box of 4 x 4kg Tubs", PInt 4);
    ("Digestive VM 1 box of 4 x 4kg Tubs", PInt 4);
    ("Digestive EQ - 1 box of 5 x 4kg Sachets", PInt 5);
    ("Digestive VM - 1 box of 5 x 4kg Sachets", PInt 5);
    ("Stress Paste - 1 box of 12 x 60ml syringes", PInt 12) ].

(** ** [extract_nested_value] *)

(** [lst[index]], with Python's negative indices *)
Definition list_index (l : list pyval) (index : Z) : option pyval :=
  if 0 <=? index then l !! Z.to_nat index
  else if - Z.of_nat (length l) <=? index then l !! Z.to_nat (Z.of_nat (length l) + index)
  else None.

(** Regular field access: one step of either loop *)
Definition step_field (current : pyval) (part : string) : option pyval :=
  match current with
  | PDict d => dict_get d part
  | _ => None
  end.

(** A part with an array index, [name[n]] *)
Definition step_indexed (current : pyval) (part : string) : option pyval :=
  let field_name := default "" (head (split "["%char part)) in
  let index_str :=
    default "" (head (split "]"%char (default "" (split "["%char part !! 1%nat)))) in
  match int_of_string index_str with
  | Raise _ => None
  | Ok index =>
      match current with
      | PDict d =>
          match dict_get d field_name with
          | Some (PList l) =>
              if Z.of_nat (length l) >? index then list_index l index else None
          | _ => None
          end
      | _ => None
      end
  end.

Fixpoint follow (indexed : bool) (current : pyval) (parts : list string)
  : option pyval :=
  match parts with
  | [] => Some current
  | part :: parts' =>
      let next :=
        if indexed && contains_char "["%char part && contains_char "]"%char part
        then step_indexed current part
        else step_field current part in
      match next with
      | Some v => follow indexed v parts'
      | None => None
      end
  end.

Definition extract_nested_value (record : pydict) (field_path : string) : pyval :=
  let indexed :=
    contains_char "["%char field_path && contains_char "]"%char field_path in
  default PNone (follow indexed (PDict record) (split dot field_path)).

(** ** [extract_record_values] *)

Definition column_value (now : datetime) (col : col_def) (record : pydict)
  : result pyval :=
  if auto_generate col then
    Ok (if String.eqb (name col) "processed_at" then PDatetime now else PNone)
  else if is_nested col then
    match source_field col with
    | Some field_path => Ok (extract_nested_value record field_path)
    | None => Raise TypeError
    end
  else
    Ok (match source_field col with
        | Some k => dict_get_default record k PNone
        | None => PNone
        end).

Definition reads_clock (col : col_def) : bool :=
  auto_generate col && String.eqb (name col) "processed_at".

Section process.
(** [clock n] is the value of the [n]-th call of [datetime.now()]. *)
Variable clock : nat → datetime.
Variable product_multipliers : pydict.

Fixpoint extract_record_values (n : nat) (record : pydict)
    (column_definitions : list col_def) : result (list pyval * nat) :=
  match column_definitions with
  | [] => Ok ([], n)
  | col :: rest =>
      let! v := column_value (clock n) col record in
      let! (values, n') :=
        extract_record_values (if reads_clock col then S n else n) record rest in
      Ok (v :: values, n')
  end.

(** [item_name in self.product_multipliers]: a list or a dict cannot be
    hashed. *)
Definition adjust_quantity_for_product (item_name original_quantity : pyval)
  : result pyval :=
  match item_name with
  | PList _ | PDict _ => Raise TypeError
  | PStr s =>
      match dict_get product_multipliers s with
      | Some multiplier => py_mul original_quantity multiplier
      | None => Ok original_quantity
      end
  | _ => Ok original_quantity
  end.

(** [x.get("Contact", {}).get("Name", "No Name Provided")] *)
Definition contact_name (x : pydict) : result pyval :=
  py_get (dict_get_default x "Contact" (PDict [])) "Name" (PStr "No Name Provided").

(** [x.get(key, [{}])[0].get(field, d) if x.get(key) else d] *)
Definition first_of (x : pydict) (key field : string) (d : pyval) : result pyval :=
  if py_bool (dict_get_default x key PNone) then
    let! first := py_first (dict_get_default x key (PList [PDict []])) in
    py_get first field d
  else Ok d.

Definition item_name_of (line_item : pyval) : result pyval :=
  let! item := py_get line_item "Item" (PDict []) in
  let! description := py_get line_item "Description" (PStr "No Item Name") in
  py_get item "Name" description.

Definition item_code_of (line_item : pyval) : result pyval :=
  let! item := py_get line_item "Item" (PDict []) in
  py_get item "Code" (PStr "No Item Code").

(** The amount a line item states, tax excluded: lines 421-425 and 547-551
    before the sign is applied. *)
Definition line_amount (document : pydict) (line_item : pydict) : result pyval :=
  if eq_str (dict_get_default document "LineAmountTypes" PNone) "Inclusive"
     && dict_has line_item "LineAmount" && dict_has line_item "TaxAmount"
  then py_sub (dict_get_default line_item "LineAmount" PNone)
              (dict_get_default line_item "TaxAmount" PNone)
  else Ok (dict_get_default line_item "LineAmount" (PInt 0)).

(** *** [process_invoices] *)

Definition base_invoice_data (invoice : pydict) : result pydict :=
  let! contact := contact_name invoice in
  let! payment := first_of invoice "Payments" "Amount" (PInt 0) in
  Ok [ ("Type", dict_get_default invoice "Type" (PStr ""));
       ("InvoiceID", dict_get_default invoice "InvoiceID" (PStr ""));
       ("InvoiceNumber", dict_get_default invoice "InvoiceNumber" (PStr ""));
       ("Reference", dict_get_default invoice "Reference" (PStr ""));
       ("Url", dict_get_default invoice "Url" (PStr ""));
       ("CurrencyRate", dict_get_default invoice "CurrencyRate" (PInt 1));
       ("Contact", PDict [("Name", contact)]);
       ("DateString", dict_get_default invoice "DateString" (PStr ""));
       ("DueDateString", dict_get_default invoice "DueDateString" (PStr ""));
       ("Status", dict_get_default invoice "Status" (PStr ""));
       ("CurrencyCode", dict_get_default invoice "CurrencyCode" (PStr ""));
       ("AmountDue", dict_get_default invoice "AmountDue" (PInt 0));
       ("AmountPaid", dict_get_default invoice "AmountPaid" (PInt 0));
       ("AmountCredited", dict_get_default invoice "AmountCredited" (PInt 0));
       ("SubTotal", dict_get_default invoice "SubTotal" (PInt 0));
       ("Payments", PList [PDict [("Amount", payment)]]) ].

Definition invoice_line_item_data (invoice : pydict) (line_item : pyval)
  : result pydict :=
  let! item_name := item_name_of line_item in
  match line_item with
  | PDict li =>
      let! unit_amount := line_amount invoice li in
      let! code := item_code_of line_item in
      let! quantity :=
        adjust_quantity_for_product item_name (dict_get_default li "Quantity" (PInt 0)) in
      Ok [ ("Item", PDict [("Name", item_name); ("Code", code)]);
           ("Quantity", quantity);
           ("UnitAmount", unit_amount);
           ("AccountCode", dict_get_default li "AccountCode" (PStr "")) ]
  | _ => Raise AttributeError
  end.

Fixpoint invoice_lines (n : nat) (invoice base : pydict) (columns : list col_def)
    (line_items : list pyval) : result (list (list pyval) * nat) :=
  match line_items with
  | [] => Ok ([], n)
  | line_item :: rest =>
      let! line_item_data := invoice_line_item_data invoice line_item in
      let record := dict_set base "LineItems" (PDict line_item_data) in
      let! (processed_record, n1) := extract_record_values n record columns in
      let! (records, n2) := invoice_lines n1 invoice base columns rest in
      Ok (processed_record :: records, n2)
  end.

Definition process_invoice (columns : list col_def) (n : nat) (invoice : pydict)
  : result (list (list pyval) * nat) :=
  let! base := base_invoice_data invoice in
  let! line_items := py_iter (dict_get_default invoice "LineItems" (PList [])) in
  invoice_lines n invoice base columns line_items.

Fixpoint process_invoices (columns : list col_def) (n : nat)
    (invoices : list pydict) : result (list (list pyval) * nat) :=
  match invoices with
  | [] => Ok ([], n)
  | invoice :: rest =>
      let! (records, n1) := process_invoice columns n invoice in
      let! (records', n2) := process_invoices columns n1 rest in
      Ok ((records ++ records')%list, n2)
  end.

(** *** [process_credit_notes] *)

Definition base_credit_note_data (credit_note : pydict) : result pydict :=
  let! contact := contact_name credit_note in
  let! url := first_of credit_note "Attachments" "Url" (PStr "") in
  Ok [ ("Type", dict_get_default credit_note "Type" (PStr ""));
       ("CreditNoteID", dict_get_default credit_note "CreditNoteID" (PStr ""));
       ("CreditNoteNumber", dict_get_default credit_note "CreditNoteNumber" (PStr ""));
       ("Reference", dict_get_default credit_note "Reference" (PStr ""));
       ("Total", dict_get_default credit_note "Total" (PInt 0));
       ("CurrencyRate", dict_get_default credit_note "CurrencyRate" (PInt 1));
       ("Contact", PDict [("Name", contact)]);
       ("DateString", dict_get_default credit_note "DateString" (PStr ""));
       ("Status", dict_get_default credit_note "Status" (PStr ""));
       ("CurrencyCode", dict_get_default credit_note "CurrencyCode" (PStr ""));
       ("SubTotal", dict_get_default credit_note "SubTotal" (PInt 0));
       ("Attachments", PList [PDict [("Url", url)]]) ].

(** Lines 533-534 *)
Definition is_acc_pay_credit (credit_note : pydict) : bool :=
  eq_str (dict_get_default credit_note "Type" PNone) "ACCPAYCREDIT".

Definition sign_multiplier (credit_note : pydict) : Z :=
  if is_acc_pay_credit credit_note then 1 else -1.

(** Lines 543-567, [line_item_data] for a given [sign_multiplier] *)
Definition credit_line_item_data (sign : Z) (credit_note : pydict)
    (line_item : pyval) : result pydict :=
  let! item_name := item_name_of line_item in
  match line_item with
  | PDict li =>
      let! amount := line_amount credit_note li in
      let! unit_amount := py_mul (PInt sign) amount in
      let! adjusted :=
        adjust_quantity_for_product item_name (dict_get_default li "Quantity" (PInt 0)) in
      let! quantity := py_mul (PInt sign) adjusted in
      let! code := item_code_of line_item in
      Ok [ ("Item", PDict [("Name", item_name); ("Code", code)]);
           ("Quantity", quantity);
           ("UnitAmount", unit_amount);
           ("AccountCode", dict_get_default li "AccountCode" (PStr "")) ]
  | _ => Raise AttributeError
  end.

(** The [record] handed to [extract_record_values] for one line item *)
Definition credit_note_record (credit_note base : pydict) (line_item : pyval)
  : result pydict :=
  let! line_item_data :=
    credit_line_item_data (sign_multiplier credit_note) credit_note line_item in
  Ok (dict_set base "LineItems" (PDict line_item_data)).

Fixpoint credit_note_lines (n : nat) (credit_note base : pydict)
    (columns : list col_def) (line_items : list pyval)
  : result (list (list pyval) * nat) :=
  match line_items with
  | [] => Ok ([], n)
  | line_item :: rest =>
      let! record := credit_note_record credit_note base line_item in
      let! (processed_record, n1) := extract_record_values n record columns in
      let! (records, n2) := credit_note_lines n1 credit_note base columns rest in
      Ok (processed_record :: records, n2)
  end.

Definition process_credit_note (columns : list col_def) (n : nat)
    (credit_note : pydict) : result (list (list pyval) * nat) :=
  let! base := base_credit_note_data credit_note in
  let! line_items := py_iter (dict_get_default credit_note "LineItems" (PList [])) in
  credit_note_lines n credit_note base columns line_items.

Fixpoint process_credit_notes (columns : list col_def) (n : nat)
    (credit_notes : list pydict) : result (list (list pyval) * nat) :=
  match credit_notes with
  | [] => Ok ([], n)
  | credit_note :: rest =>
      let! (records, n1) := process_credit_note columns n credit_note in
      let! (records', n2) := process_credit_notes columns n1 rest in
      Ok ((records ++ records')%list, n2)
  end.

(** *** [process_profit_and_loss] *)

(** [row.get("RowType") == "Row" and "Cells" in row and
    len(row["Cells"]) >= 2] *)
Definition is_account_row (row : pyval) : result bool :=
  let! row_type := py_get row "RowType" PNone in
  if eq_str row_type "Row" then
    let! has_cells := py_contains "Cells" row in
    if has_cells then
      let! cells := py_field row "Cells" in
      let! size := py_len cells in
      Ok (2 <=? size)
    else Ok false
  else Ok false.

(** The [record] of lines 648-660 *)
Definition profit_loss_record (section_title : pyval) (row : pyval)
    (from_date to_date : string) : result pydict :=
  let! cells_0 := py_field row "Cells" in
  let! cell_0 := py_item cells_0 0 in
  let! account_name := py_field cell_0 "Value" in
  let! cells_1 := py_field row "Cells" in
  let! cell_1 := py_item cells_1 1 in
  let! amount := py_field cell_1 "Value" in
  Ok [ ("Section", PDict [("Title", section_title)]);
       ("Row", PDict [("Cells", PList [PDict [("Value", account_name)];
                                       PDict [("Value", amount)]])]);
       ("ReportDate", PDict [("FromDate", PStr from_date);
                             ("ToDate", PStr to_date)]) ].

Fixpoint profit_loss_rows (columns : list col_def) (n : nat)
    (section_title : pyval) (from_date to_date : string) (rows : list pyval)
  : result (list (list pyval) * nat) :=
  match rows with
  | [] => Ok ([], n)
  | row :: rest =>
      let! wanted := is_account_row row in
      if wanted then
        let! record := profit_loss_record section_title row from_date to_date in
        let! (processed_record, n1) := extract_record_values n record columns in
        let! (records, n2) :=
          profit_loss_rows columns n1 section_title from_date to_date rest in
        Ok (processed_record :: records, n2)
      else profit_loss_rows columns n section_title from_date to_date rest
  end.

(** [section.get("RowType") == "Section" and "Rows" in section] *)
Definition is_section (section : pyval) : result bool :=
  let! row_type := py_get section "RowType" PNone in
  if eq_str row_type "Section" then py_contains "Rows" section else Ok false.

Fixpoint profit_loss_sections (columns : list col_def) (n : nat)
    (from_date to_date : string) (sections : list pyval)
  : result (list (list pyval) * nat) :=
  match sections with
  | [] => Ok ([], n)
  | section :: rest =>
      let! wanted := is_section section in
      let! (records, n1) :=
        (if wanted then
           let! section_title := py_get section "Title" (PStr "") in
           let! section_rows := py_get section "Rows" (PList []) in
           let! rows := py_iter section_rows in
           profit_loss_rows columns n section_title from_date to_date rows
         else Ok ([], n)) in
      let! (records', n2) := profit_loss_sections columns n1 from_date to_date rest in
      Ok ((records ++ records')%list, n2)
  end.

Definition process_profit_and_loss (columns : list col_def) (n : nat)
    (report : pydict) (from_date to_date : string)
  : result (list (list pyval) * nat) :=
  let! sections := py_iter (dict_get_default report "Rows" (PList [])) in
  profit_loss_sections columns n from_date to_date sections.
End process.

End Xero.

(** * Definitions used to state the properties

    Example columns and records, the quantities the statements speak of
    (clock ticks, the keys a column reads), and the wording of the
    specification where it is compared with the code. *)

Section statements.
Import MetaAds.

(** The values of a destination type.  A DATE or TIMESTAMP is an ISO-8601
    string or a date value; the code spells the float type FLOAT64. *)
Definition legal_value (bq_type : string) (v : pyval) : bool :=
  if String.eqb bq_type "INTEGER" then match v with PInt _ => true | _ => false end
  else if String.eqb bq_type "FLOAT64" then match v with PFloat _ => true | _ => false end
  else if String.eqb bq_type "STRING" then match v with PStr _ => true | _ => false end
  else if String.eqb bq_type "BOOLEAN" then match v with PBool _ => true | _ => false end
  else if String.eqb bq_type "DATE" || String.eqb bq_type "TIMESTAMP" then
    match v with PStr _ | PDatetime _ => true | _ => false end
  else false.

Definition clicks_column : MetaAds.col_def :=
  MetaAds.mk_col "clicks" "INTEGER" (Some "clicks") false None false None
                 false None false None false.

(** The ['value'] of the first element whose ['action_type'] equals the
    filter, the empty string when there is none *)
Fixpoint first_match (action_filter : string) (actions : list pyval) : pyval :=
  match actions with
  | [] => PStr ""
  | PDict a :: rest =>
      if eq_str (dict_get_default a "action_type" PNone) action_filter
      then dict_get_default a "value" (PStr "")
      else first_match action_filter rest
  | _ :: rest => first_match action_filter rest
  end.

(** The array the code scans: [action_values] when the column names exactly
    that array and the record has it, [actions] in every other case. *)
Definition scanned_array (col : col_def) (record : pydict) : string :=
  if bool_decide (is_value_from col = Some "action_values")
     && dict_has record "action_values"
  then "action_values" else "actions".

(** The extraction as C6 words it: the array is the one the column names,
    [actions] when it names none. *)
Definition claimed_array (col : col_def) : string :=
  default "actions" (is_value_from col).

Definition claimed_action_value (col : col_def) (record : pydict) : pyval :=
  match dict_get record (claimed_array col) with
  | Some (PList actions) => first_match (default "" (action_filter col)) actions
  | _ => PStr ""
  end.

Definition purchases_column : col_def :=
  mk_col "purchases" "INTEGER" (Some "actions.value") true (Some "purchase")
         false None false None false None false.

Definition purchase_record : pydict :=
  [("actions",
    PList [PDict [("action_type", PStr "click"); ("value", PStr "5")];
           PDict [("action_type", PStr "purchase"); ("value", PStr "9")]])].

Definition purchase_value_column : col_def :=
  mk_col "purchase_value" "FLOAT64" (Some "action_values.value") true
         (Some "purchase") false (Some "action_values") false None false None false.

Definition actions_only_record : pydict :=
  [("actions", PList [PDict [("action_type", PStr "purchase"); ("value", PStr "9")]])].

(** The number of [datetime.now()] calls a list of Meta columns makes *)
Fixpoint meta_ticks (cols : list MetaAds.col_def) : nat :=
  match cols with
  | [] => 0
  | col :: rest => (if MetaAds.reads_clock col then 1 else 0) + meta_ticks rest
  end.

(** [array_pos] after the columns [cols] have been handled *)
Definition array_pos_after (array_pos : MetaAds.array_pos_state)
    (cols : list MetaAds.col_def) : MetaAds.array_pos_state :=
  fold_left MetaAds.next_array_pos cols array_pos.

Fixpoint xero_ticks (cols : list Xero.col_def) : nat :=
  match cols with
  | [] => 0
  | col :: rest => (if Xero.reads_clock col then 1 else 0) + xero_ticks rest
  end.

(** A Xero column list extracts from every record when each nested column
    names its source field. *)
Definition xero_well_formed (col : Xero.col_def) : bool :=
  Xero.auto_generate col || negb (Xero.is_nested col)
  || bool_decide (Xero.source_field col ≠ None).

(** The key of the record a Xero column looks at: the source field, or the
    first segment of a dotted path without its index. *)
Definition xero_field_read (col : Xero.col_def) : option string :=
  match Xero.source_field col with
  | None => None
  | Some path =>
      if Xero.is_nested col then
        let part := default "" (head (split dot path)) in
        if contains_char "["%char path && contains_char "]"%char path
           && contains_char "["%char part && contains_char "]"%char part
        then Some (default "" (head (split "["%char part)))
        else Some part
      else Some path
  end.

Definition ticking_clock (n : nat) : datetime :=
  mk_datetime 2024 1 1 0 0 0 (Z.of_nat n).

(** The path of a deep-nested column once the wildcard is replaced *)
Definition prepared_path (col : col_def) : string :=
  (prepare_wildcard (default "" (path_to_value col)) (array_all col) Unbound).1.1.

(** The top-level keys of the record a column looks at *)
Definition fields_read (col : col_def) : list string :=
  if auto_generate col then []
  else if deep_nested col && str_truthy (path_to_value col) then
    option_list (head (split dot (prepared_path col)))
  else if is_nested col && str_truthy (action_filter col) then
    ["action_values"; "actions"]
  else if is_nested col then
    match source_field col with
    | Some source_field => option_list (head (split dot source_field))
    | None => []
    end
  else option_list (source_field col).

(** Two records that agree on the keys a column reads *)
Definition agree_on (keys : list string) (r1 r2 : pydict) : Prop :=
  ∀ k, k ∈ keys → dict_get r1 k = dict_get r2 k.

(** A column that cannot raise: generated, deep-nested (its [try] catches
    everything), or a direct field other than [campaign_id] (whose [int()]
    may overflow on an infinite float). *)
Definition never_raises (col : col_def) : bool :=
  auto_generate col
  || (deep_nested col && str_truthy (path_to_value col))
  || (negb (is_nested col)
      && negb (bool_decide (source_field col = Some "campaign_id"))).

Definition account_column : col_def :=
  mk_col "account_id" "STRING" (Some "account_id") false None false None
         false None false None false.

Definition actor_column : col_def :=
  mk_col "activity_actor_id" "STRING" None false None false None
         true (Some "activities.data.*.actor_id") true (Some ", ") false.

Definition processed_at_column : col_def :=
  mk_col "processed_at" "TIMESTAMP" (Some "processed_at") false None true None
         false None false None false.

Definition flat_account : pydict := [("account_id", PStr "1")].

Definition account_with_activities : pydict :=
  [("account_id", PStr "1");
   ("activities",
    PDict [("data", PList [PDict [("actor_id", PStr "a")];
                           PDict [("actor_id", PStr "b")]])])].

Definition account_with_two_edges : pydict :=
  [("account_id", PStr "1");
   ("activities", PDict [("data", PList [PDict [("actor_id", PStr "a")]])]);
   ("adcreatives",
    PDict [("data", PList [PDict [("id", PStr "x")]; PDict [("id", PStr "y")]])])].

Definition two_activities : list pyval :=
  [PDict [("actor_id", PStr "a")]; PDict [("actor_id", PStr "b")]].

Definition activity_columns : list col_def :=
  [account_column; actor_column; processed_at_column].

Definition not_none (v : pyval) : Prop := is_none v = false.

Global Instance not_none_dec v : Decision (not_none v).
Proof. unfold not_none. apply _. Defined.

(** The joined value as C7 words it: every element contributes the string
    of what the remaining path resolves to, the empty string when a segment
    is missing. *)
Definition claimed_wildcard_value (join_delimiter : string)
    (items : list pyval) (remaining_path : list string) : pyval :=
  PStr (join join_delimiter
          ((fun item => py_str (try_except (apply_remaining item remaining_path)
                                           (PStr ""))) <$> items)).

Definition names_column : col_def :=
  mk_col "names" "STRING" None false None false None
         true (Some "items.data.*.name") true (Some ", ") false.

Definition names_record : pydict :=
  [("items", PDict [("data", PList [PDict [("name", PStr "a")];
                                    PDict [("name", PStr "b")]])])].

Definition names_with_null : pydict :=
  [("items", PDict [("data", PList [PDict [("name", PStr "a")];
                                    PDict [("name", PNone)];
                                    PDict [("name", PStr "b")]])])].

Definition campaign_config : list GoogleAds.col_config :=
  [ GoogleAds.mk_col "campaign" "STRING" None true false false None None None None;
    GoogleAds.mk_col "customer_id" "INTEGER" (Some "customer.id")
      false false false None None None None;
    GoogleAds.mk_col "date" "DATE" (Some "segments.date")
      false false true None None None None ].

Definition last_week : GoogleAds.window :=
  GoogleAds.mk_window None (Some "LAST_7_DAYS") "2024-01-01" "2024-01-05".

(** A number as a JSON document holds it: an integer or a binary64 float *)
Definition json_number (v : pyval) : Prop :=
  match v with
  | PInt _ => True
  | PFloat f => valid_binary prec emax f = true
  | _ => False
  end.

(** The number with the opposite sign *)
Definition negation (v : pyval) : pyval :=
  match v with
  | PInt z => PInt (- z)
  | PFloat f => PFloat (SFopp f)
  | v => v
  end.

Definition sales_credit_note : pydict :=
  [("Type", PStr "ACCRECCREDIT"); ("CreditNoteID", PStr "c1");
   ("LineAmountTypes", PStr "Inclusive")].

Definition widget_line : pydict :=
  [("Description", PStr "Widget"); ("Quantity", PInt 2);
   ("LineAmount", PInt 10); ("TaxAmount", PInt 1); ("AccountCode", PStr "200")].

(** Six boxes of twelve syringes, stated as the float 0.5 of a box *)
Definition half : spec_float := S754_finite false 4503599627370496 (-53).

Definition paste_line : pydict :=
  [("Item", PDict [("Name", PStr "Stress Paste - 1 box of 12 x 60ml syringes");
                   ("Code", PStr "SP")]);
   ("Quantity", PFloat half); ("LineAmount", PFloat half)].

(** An invoice of two lines *)
Definition two_line_invoice : pydict :=
  [("Type", PStr "ACCREC"); ("InvoiceID", PStr "i1");
   ("LineItems", PList [PDict widget_line; PDict paste_line])].

(** A purchase credit note *)
Definition purchase_credit_note : pydict :=
  [("Type", PStr "ACCPAYCREDIT"); ("CreditNoteID", PStr "c2");
   ("LineAmountTypes", PStr "Inclusive")].

(** A purchase credit note of one line *)
Definition one_line_purchase_credit_note : pydict :=
  [("Type", PStr "ACCPAYCREDIT"); ("CreditNoteID", PStr "c2");
   ("LineAmountTypes", PStr "Inclusive");
   ("LineItems", PList [PDict widget_line])].

(** A sales credit note of one line *)
Definition one_line_credit_note : pydict :=
  [("Type", PStr "ACCRECCREDIT"); ("CreditNoteID", PStr "c1");
   ("LineAmountTypes", PStr "Inclusive");
   ("Attachments", PList [PDict [("Url", PStr "https://example.org/a.pdf")]]);
   ("LineItems", PList [PDict widget_line])].

(** A profit and loss report: a header, and a section of one account line
    and a summary line *)
Definition income_report : pydict :=
  [("ReportID", PStr "ProfitAndLoss");
   ("Rows",
    PList [PDict [("RowType", PStr "Header");
                  ("Cells", PList [PDict [("Value", PStr "")];
                                   PDict [("Value", PStr "31 Dec 24")]])];
           PDict [("RowType", PStr "Section"); ("Title", PStr "Income");
                  ("Rows",
                   PList [PDict [("RowType", PStr "Row");
                                 ("Cells", PList [PDict [("Value", PStr "Sales")];
                                                  PDict [("Value", PStr "100.00")]])];
                          PDict [("RowType", PStr "SummaryRow");
                                 ("Cells", PList [PDict [("Value", PStr "Total Income")];
                                                  PDict [("Value", PStr "100.00")]])]])]])].

(** An invoice that has no line items *)
Definition invoice_without_lines : pydict :=
  [("Type", PStr "ACCREC"); ("InvoiceID", PStr "i2"); ("AmountDue", PInt 40)].

(** The line items of an invoice or a credit note *)
Definition line_items_of (document : pydict) : list pyval :=
  match dict_get_default document "LineItems" (PList []) with
  | PList line_items => line_items
  | _ => []
  end.
End statements.

(** * Properties *)

(** ** The error monad *)

Lemma bind_Ok {A B} (m : result A) (k : A → result B) (b : B) :
  bind m k = Ok b → ∃ a, m = Ok a ∧ k a = Ok b.
Proof. destruct m as [a|e]; simpl; [eauto | discriminate]. Qed.

Ltac inv_bind H :=
  match type of H with
  | bind ?m ?k = Ok _ =>
      let a := fresh "a" in
      let Ha := fresh "Ha" in
      apply bind_Ok in H as (a & Ha & H)
  end.

(** ** Decimal notation of integers *)

Lemma digit_char_spec d :
  0 <= d < 10 →
  is_ascii_digit (digit_char d) = true ∧ digit_val (digit_char d) = d
  ∧ is_space (digit_char d) = false.
Proof.
  intros Hd.
  assert (d = 0 ∨ d = 1 ∨ d = 2 ∨ d = 3 ∨ d = 4 ∨ d = 5 ∨ d = 6 ∨ d = 7
          ∨ d = 8 ∨ d = 9) as Hcases by lia.
  repeat destruct Hcases as [-> | Hcases]; try subst d; vm_compute; auto.
Qed.

Lemma parse_dec_digits fuel : ∀ n rest seen,
  0 <= n < 2 ^ Z.of_nat fuel → (0 < fuel)%nat →
  parse_digits 0 seen (dec_digits fuel n rest) = parse_digits n true rest.
Proof.
  induction fuel as [|fuel IH]; intros n rest seen Hn Hfuel; [lia|].
  assert (0 <= n mod 10 < 10) as Hmod by (apply Z.mod_pos_bound; lia).
  destruct (digit_char_spec _ Hmod) as (Hdig & Hval & _).
  simpl dec_digits.
  destruct (n / 10 =? 0) eqn:Hq.
  - apply Z.eqb_eq in Hq. simpl. rewrite Hdig, Hval.
    f_equal. pose proof (Z.div_mod n 10). lia.
  - apply Z.eqb_neq in Hq.
    assert (0 < n / 10) by (pose proof (Z.div_pos n 10); lia).
    assert (n / 10 < 2 ^ Z.of_nat fuel).
    { rewrite Nat2Z.inj_succ, Z.pow_succ_r in Hn by lia.
      apply Z.div_lt_upper_bound; lia. }
    assert (0 < fuel)%nat.
    { destruct fuel; [simpl in *; lia | lia]. }
    rewrite IH by lia. simpl. rewrite Hdig, Hval.
    f_equal. pose proof (Z.div_mod n 10). lia.
Qed.

Lemma log2_fuel n : 0 <= n → n < 2 ^ Z.of_nat (S (Z.to_nat (Z.log2 n))).
Proof.
  intros Hn. rewrite Nat2Z.inj_succ, Z2Nat.id by apply Z.log2_nonneg.
  destruct (Z.eq_dec n 0) as [-> | Hne]; [reflexivity|].
  apply Z.log2_spec. lia.
Qed.

Lemma parse_str_of_nonneg n seen :
  0 <= n → parse_digits 0 seen (str_of_nonneg n) = Some n.
Proof.
  intros Hn. unfold str_of_nonneg.
  rewrite parse_dec_digits; [reflexivity | | lia].
  split; [lia | by apply log2_fuel].
Qed.

Lemma dec_digits_head fuel n rest :
  (0 < fuel)%nat →
  ∃ c s, dec_digits fuel n rest = String c s ∧ is_ascii_digit c = true.
Proof.
  revert n rest. induction fuel as [|fuel IH]; intros n rest Hfuel; [lia|].
  assert (0 <= n mod 10 < 10) as Hmod by (apply Z.mod_pos_bound; lia).
  destruct (digit_char_spec _ Hmod) as (Hdig & _ & _).
  simpl. destruct (n / 10 =? 0); [eauto|].
  destruct fuel as [|fuel']; [simpl; eauto | apply IH; lia].
Qed.

Lemma dec_digits_nonspace fuel : ∀ n rest,
  string_forallb (fun c => negb (is_space c)) rest = true →
  string_forallb (fun c => negb (is_space c)) (dec_digits fuel n rest) = true.
Proof.
  induction fuel as [|fuel IH]; intros n rest Hrest; [done|].
  assert (0 <= n mod 10 < 10) as Hmod by (apply Z.mod_pos_bound; lia).
  destruct (digit_char_spec _ Hmod) as (_ & _ & Hsp).
  simpl. destruct (n / 10 =? 0); [|apply IH]; simpl; by rewrite Hsp.
Qed.

Lemma lstrip_nonspace s :
  string_forallb (fun c => negb (is_space c)) s = true → lstrip s = s.
Proof.
  destruct s as [|c s]; simpl; [done|].
  intros [Hc _]%andb_prop. by destruct (is_space c).
Qed.

Lemma rstrip_nonspace s :
  string_forallb (fun c => negb (is_space c)) s = true → rstrip s = s.
Proof.
  induction s as [|c s IH]; simpl; [done|].
  intros [Hc Hs]%andb_prop. rewrite IH by done.
  destruct s; [by destruct (is_space c) | done].
Qed.

Lemma strip_nonspace s :
  string_forallb (fun c => negb (is_space c)) s = true → strip s = s.
Proof. intros H. unfold strip. by rewrite lstrip_nonspace, rstrip_nonspace. Qed.

Lemma str_of_Z_nonspace z :
  string_forallb (fun c => negb (is_space c)) (str_of_Z z) = true.
Proof.
  unfold str_of_Z, str_of_nonneg. destruct (z <? 0).
  - cbn [string_forallb]. apply andb_true_intro. split; [reflexivity|].
    by apply dec_digits_nonspace.
  - by apply dec_digits_nonspace.
Qed.

(** [int(str(z)) == z] for every integer [z]. *)
Lemma int_of_string_str_of_Z z : int_of_string (str_of_Z z) = Ok z.
Proof.
  unfold int_of_string. rewrite strip_nonspace by apply str_of_Z_nonspace.
  unfold str_of_Z. destruct (z <? 0) eqn:Hz.
  - apply Z.ltb_lt in Hz. simpl.
    rewrite parse_str_of_nonneg by lia. simpl. f_equal. lia.
  - apply Z.ltb_ge in Hz.
    destruct (dec_digits_head (S (Z.to_nat (Z.log2 z))) z "") as (c & s & Hs & Hc);
      [lia|].
    unfold parse_signed. fold (str_of_nonneg z) in Hs.
    pose proof (parse_str_of_nonneg z false Hz) as Hparse.
    rewrite Hs in *.
    assert (Ascii.eqb c "-"%char = false ∧ Ascii.eqb c "+"%char = false) as [-> ->].
    { split; apply Ascii.eqb_neq; intros ->; vm_compute in Hc; discriminate. }
    by rewrite Hparse.
Qed.

(** ** The type coercer *)

Section coercer.
Import GoogleAds.

Lemma convert_None bq_type :
  _convert_value_based_on_type PNone bq_type = _get_default_value bq_type.
Proof. reflexivity. Qed.

Lemma convert_failed value bq_type e :
  convert_attempt value bq_type = Raise e →
  _convert_value_based_on_type value bq_type = _get_default_value bq_type.
Proof.
  intros H. unfold _convert_value_based_on_type. rewrite H.
  by destruct (is_none value).
Qed.

Lemma convert_INTEGER value :
  ∃ z, _convert_value_based_on_type value "INTEGER" = PInt z.
Proof.
  unfold _convert_value_based_on_type. destruct (is_none value); [by exists 0|].
  unfold convert_attempt. simpl. destruct (py_int value); simpl; eauto.
Qed.

Lemma convert_FLOAT64 value :
  ∃ f, _convert_value_based_on_type value "FLOAT64" = PFloat f.
Proof.
  unfold _convert_value_based_on_type.
  destruct (is_none value); [by exists float_zero|].
  unfold convert_attempt. simpl. destruct (py_float value); simpl; eauto.
Qed.

Lemma convert_STRING value :
  ∃ s, _convert_value_based_on_type value "STRING" = PStr s.
Proof.
  unfold _convert_value_based_on_type.
  destruct (is_none value); simpl; eauto.
Qed.

Lemma convert_BOOLEAN value :
  ∃ b, _convert_value_based_on_type value "BOOLEAN" = PBool b.
Proof.
  unfold _convert_value_based_on_type.
  destruct (is_none value); simpl; eauto.
Qed.

(** What the coercer does on a type name it has no conversion for: DATE,
    a plain FLOAT, any other name. *)
Lemma convert_pass_through value bq_type :
  bq_type ≠ "INTEGER" → bq_type ≠ "FLOAT64" → bq_type ≠ "STRING" →
  bq_type ≠ "TIMESTAMP" → bq_type ≠ "BOOLEAN" →
  _convert_value_based_on_type value bq_type =
    if is_none value then _get_default_value bq_type else value.
Proof.
  intros H1 H2 H3 H4 H5. unfold _convert_value_based_on_type, convert_attempt.
  apply String.eqb_neq in H1, H2, H3, H4, H5.
  by rewrite H1, H2, H3, H4, H5.
Qed.

Lemma convert_TIMESTAMP value :
  _convert_value_based_on_type value "TIMESTAMP" =
    match value with
    | PNone => PNone
    | PDatetime t => PStr (isoformat "T" t)
    | v => v
    end.
Proof. by destruct value. Qed.

(** C4, as the code has it: the coercer returns a value for every input, an
    [int] for INTEGER, a [float] for FLOAT64, a [str] for STRING, a [bool]
    for BOOLEAN; on [None] and on a conversion that raises it returns the
    default of the type; under TIMESTAMP a datetime becomes its ISO string
    and any other value is returned as it is, and under every other type
    name (DATE among them) the value is returned as it is. *)
Theorem coercer_total_and_typed (value : pyval) (bq_type : string) :
  let r := _convert_value_based_on_type value bq_type in
  (value = PNone → r = _get_default_value bq_type)
  ∧ (∀ e, convert_attempt value bq_type = Raise e → r = _get_default_value bq_type)
  ∧ (bq_type = "INTEGER" → ∃ z, r = PInt z)
  ∧ (bq_type = "FLOAT64" → ∃ f, r = PFloat f)
  ∧ (bq_type = "STRING" → ∃ s, r = PStr s)
  ∧ (bq_type = "BOOLEAN" → ∃ b, r = PBool b)
  ∧ (bq_type = "TIMESTAMP" →
       r = match value with
           | PDatetime t => PStr (isoformat "T" t)
           | v => v
           end)
  ∧ (bq_type ≠ "INTEGER" → bq_type ≠ "FLOAT64" → bq_type ≠ "STRING" →
     bq_type ≠ "TIMESTAMP" → bq_type ≠ "BOOLEAN" → value ≠ PNone → r = value).
Proof.
  cbv zeta. repeat split.
  - by intros ->.
  - intros e. apply convert_failed.
  - intros ->. apply convert_INTEGER.
  - intros ->. apply convert_FLOAT64.
  - intros ->. apply convert_STRING.
  - intros ->. apply convert_BOOLEAN.
  - intros ->. rewrite convert_TIMESTAMP. by destruct value.
  - intros H1 H2 H3 H4 H5 Hv. rewrite convert_pass_through by done.
    by destruct value.
Qed.

(** C4 fails as stated: under DATE the integer 5 comes back as the integer
    5, which is neither a date nor the default [None]. *)
Lemma coercer_date_passes_integer :
  _convert_value_based_on_type (PInt 5) "DATE" = PInt 5
  ∧ legal_value "DATE" (_convert_value_based_on_type (PInt 5) "DATE") = false
  ∧ _convert_value_based_on_type (PInt 5) "DATE" ≠ _get_default_value "DATE".
Proof. vm_compute. repeat split; congruence. Qed.


End coercer.

(** ** Missing paths *)

Section missing_path.

(** C5, as the code has it: a source path that is absent from the record
    makes the Google extractor return the default of the declared type
    (the segments are looked up in camelCase), and makes the Meta extractor
    return the empty string whatever the declared type; neither raises. *)
Theorem missing_path_default :
  (∀ (result : pydict) (source_field : string) (col : GoogleAds.col_config),
      source_field ≠ "" →
      follow_keys (PDict result) (GoogleAds.normalized_path source_field) = None →
      GoogleAds._extract_value_from_result result (Some source_field) col
        = GoogleAds._get_default_value (GoogleAds.type_ col))
  ∧ (∀ (now : datetime) (array_pos : MetaAds.array_pos_state)
       (col : MetaAds.col_def) (record : pydict) (source_field : string),
      MetaAds.auto_generate col = false →
      MetaAds.deep_nested col = false →
      MetaAds.is_nested col = false →
      MetaAds.source_field col = Some source_field →
      dict_get record source_field = None →
      MetaAds.column_value now array_pos col record = Ok (PStr "")).
Proof.
  split.
  - intros result source_field col Hne Hnav.
    unfold GoogleAds._extract_value_from_result. simpl.
    apply String.eqb_neq in Hne. rewrite Hne. simpl. by rewrite Hnav.
  - intros now array_pos col record source_field Hauto Hdeep Hnested Hsf Hget.
    unfold MetaAds.column_value, MetaAds.direct_value, MetaAds.record_get.
    rewrite Hauto, Hdeep, Hnested, Hsf. simpl.
    destruct (String.eqb source_field "campaign_id") eqn:Hc; simpl.
    + apply String.eqb_eq in Hc. subst source_field.
      unfold dict_get_default. by rewrite Hget.
    + unfold dict_get_default. by rewrite Hget.
Qed.

Lemma missing_path_default_witness :
  GoogleAds._extract_value_from_result [] (Some "metrics.clicks")
    (GoogleAds.mk_col "clicks" "INTEGER" (Some "metrics.clicks")
       false false false None None None None) = PInt 0
  ∧ MetaAds.column_value (mk_datetime 2024 1 1 0 0 0 0) MetaAds.Unbound
      clicks_column [] = Ok (PStr "").
Proof.
  destruct missing_path_default as [Hgoogle Hmeta]. split.
  - apply (Hgoogle [] "metrics.clicks"
             (GoogleAds.mk_col "clicks" "INTEGER" (Some "metrics.clicks")
                false false false None None None None)); [discriminate | reflexivity].
  - apply (Hmeta (mk_datetime 2024 1 1 0 0 0 0) MetaAds.Unbound clicks_column []
             "clicks"); reflexivity.
Defined.

(** C5 fails as stated: for an INTEGER column whose field is absent the
    Meta extractor returns the empty string, not the default 0 of the
    type. *)
Lemma meta_missing_integer_is_empty_string :
  MetaAds.column_value (mk_datetime 2024 1 1 0 0 0 0) MetaAds.Unbound
    clicks_column [] = Ok (PStr "")
  ∧ PStr "" ≠ GoogleAds._get_default_value (MetaAds.type_ clicks_column).
Proof. split; [reflexivity | vm_compute; congruence]. Qed.
End missing_path.

(** ** Action filters of the Meta extractor *)

Section action_filter.
Import MetaAds.

Lemma scan_actions_dicts action_filter (ds : list pydict) :
  scan_actions action_filter (PDict <$> ds)
    = Ok (first_match action_filter (PDict <$> ds)).
Proof.
  induction ds as [|d ds IH]; simpl; [done|].
  by destruct (eq_str (dict_get_default d "action_type" PNone) action_filter).
Qed.

Lemma action_filter_value_scanned col record :
  action_filter_value col record =
    match dict_get record (scanned_array col record) with
    | Some actions =>
        let! l := py_iter actions in scan_actions (default "" (action_filter col)) l
    | None => Ok (PStr "")
    end.
Proof.
  unfold action_filter_value, scanned_array, dict_has, dict_get_default.
  destruct (is_value_from col) as [src|]; simpl.
  - destruct (String.eqb_spec src "action_values") as [-> | Hne].
    + rewrite bool_decide_eq_true_2 by done. simpl.
      destruct (dict_get record "action_values") eqn:Hav; simpl; rewrite ?Hav;
        [done|].
      by destruct (dict_get record "actions").
    + rewrite bool_decide_eq_false_2 by congruence. simpl.
      by destruct (dict_get record "actions").
  - by destruct (dict_get record "actions").
Qed.

(** C6, as the code has it: a nested column with an action filter scans
    [action_values] when its override is exactly that name and the record
    has the key, and [actions] otherwise; it yields the ['value'] of the
    first element whose ['action_type'] equals the filter, the empty string
    when no element matches or the array is absent; the scenario of the
    specification yields ["9"]. *)
Theorem action_filter_extraction :
  (∀ (now : datetime) (array_pos : array_pos_state) (col : col_def)
     (record : pydict),
      auto_generate col = false →
      deep_nested col && str_truthy (path_to_value col) = false →
      is_nested col = true →
      str_truthy (action_filter col) = true →
      (∀ ds : list pydict,
          dict_get record (scanned_array col record) = Some (PList (PDict <$> ds)) →
          column_value now array_pos col record
            = Ok (first_match (default "" (action_filter col)) (PDict <$> ds)))
      ∧ (dict_get record (scanned_array col record) = None →
         column_value now array_pos col record = Ok (PStr "")))
  ∧ (∀ now array_pos,
        column_value now array_pos purchases_column purchase_record = Ok (PStr "9")).
Proof.
  split; [|reflexivity].
  intros now array_pos col record Hauto Hdeep Hnested Hfilter.
  unfold column_value. rewrite Hauto, Hdeep, Hnested, Hfilter. simpl.
  rewrite action_filter_value_scanned. split.
  - intros ds ->. simpl. apply scan_actions_dicts.
  - by intros ->.
Qed.

Lemma action_filter_extraction_witness :
  column_value (mk_datetime 2024 1 1 0 0 0 0) Unbound purchases_column purchase_record
    = Ok (PStr "9").
Proof.
  pose proof (proj1 action_filter_extraction (mk_datetime 2024 1 1 0 0 0 0) Unbound
                purchases_column purchase_record
                eq_refl eq_refl eq_refl eq_refl) as [Hfound _].
  exact (Hfound [[("action_type", PStr "click"); ("value", PStr "5")];
                 [("action_type", PStr "purchase"); ("value", PStr "9")]]
                eq_refl).
Defined.

(** C6 fails as stated: with the override [action_values] set and no such
    array in the record, the code falls back to [actions] and yields ["9"],
    where scanning the named array finds nothing. *)
Lemma action_filter_override_falls_back :
  column_value (mk_datetime 2024 1 1 0 0 0 0) Unbound purchase_value_column
    actions_only_record = Ok (PStr "9")
  ∧ claimed_action_value purchase_value_column actions_only_record = PStr "".
Proof. split; reflexivity. Qed.
End action_filter.

(** ** Rows and columns *)

Section rows.
Variable clock : nat → datetime.

Lemma meta_process_columns_spec (cols : list MetaAds.col_def) :
  ∀ n array_pos record row n',
    MetaAds.process_columns clock n array_pos cols record = Ok (row, n') →
    length row = length cols
    ∧ n' = (n + meta_ticks cols)%nat
    ∧ ∀ k col, cols !! k = Some col →
        ∃ v, row !! k = Some v
             ∧ MetaAds.column_value (clock (n + meta_ticks (take k cols)))
                 (array_pos_after array_pos (take k cols)) col record = Ok v.
Proof.
  induction cols as [|c cols IH]; intros n array_pos record row n' H; simpl in H.
  - injection H as <- <-. repeat split; [simpl; lia|]. intros k col Hk. done.
  - inv_bind H. destruct (MetaAds.process_columns _ _ _ _ _) as [[row' m]|] eqn:Hrest;
      simpl in H; [|discriminate].
    injection H as <- <-.
    destruct (IH _ _ _ _ _ Hrest) as (Hlen & Hn & Hcols).
    repeat split.
    + simpl. by rewrite Hlen.
    + simpl. destruct (MetaAds.reads_clock c); lia.
    + intros [|k] col Hk; simpl in Hk.
      * injection Hk as <-. exists a. simpl. by rewrite Nat.add_0_r.
      * destruct (Hcols k col Hk) as (v & Hv & Hval). exists v. split; [done|].
        simpl. unfold array_pos_after in *. simpl.
        replace (n + ((if MetaAds.reads_clock c then 1 else 0)
                      + meta_ticks (take k cols)))%nat
          with ((if MetaAds.reads_clock c then S n else n)
                + meta_ticks (take k cols))%nat
          by (destruct (MetaAds.reads_clock c); lia).
        done.
Qed.

Lemma xero_extract_record_values_spec (cols : list Xero.col_def) :
  ∀ n record values n',
    Xero.extract_record_values clock n record cols = Ok (values, n') →
    length values = length cols
    ∧ n' = (n + xero_ticks cols)%nat
    ∧ ∀ k col, cols !! k = Some col →
        ∃ v, values !! k = Some v
             ∧ Xero.column_value (clock (n + xero_ticks (take k cols))) col record
               = Ok v.
Proof.
  induction cols as [|c cols IH]; intros n record values n' H; simpl in H.
  - injection H as <- <-. repeat split; [simpl; lia|]. intros k col Hk. done.
  - inv_bind H.
    destruct (Xero.extract_record_values _ _ _ _) as [[values' m]|] eqn:Hrest;
      simpl in H; [|discriminate].
    injection H as <- <-.
    destruct (IH _ _ _ _ Hrest) as (Hlen & Hn & Hcols).
    repeat split.
    + simpl. by rewrite Hlen.
    + simpl. destruct (Xero.reads_clock c); lia.
    + intros [|k] col Hk; simpl in Hk.
      * injection Hk as <-. exists a. simpl. by rewrite Nat.add_0_r.
      * destruct (Hcols k col Hk) as (v & Hv & Hval). exists v. split; [done|].
        simpl.
        replace (n + ((if Xero.reads_clock c then 1 else 0)
                      + xero_ticks (take k cols)))%nat
          with ((if Xero.reads_clock c then S n else n)
                + xero_ticks (take k cols))%nat
          by (destruct (Xero.reads_clock c); lia).
        done.
Qed.

Lemma xero_extract_record_values_total (cols : list Xero.col_def) :
  forallb xero_well_formed cols = true →
  ∀ n record, ∃ values,
    Xero.extract_record_values clock n record cols
      = Ok (values, (n + xero_ticks cols)%nat).
Proof.
  induction cols as [|c cols IH]; intros Hwf n record; simpl.
  - exists []. by rewrite Nat.add_0_r.
  - simpl in Hwf. apply andb_prop in Hwf as [Hc Hcols].
    assert (∃ v, Xero.column_value (clock n) c record = Ok v) as [v ->].
    { unfold Xero.column_value, xero_well_formed in *.
      destruct (Xero.auto_generate c); [eauto|].
      destruct (Xero.is_nested c); [|eauto].
      destruct (Xero.source_field c); [eauto|].
      vm_compute in Hc. discriminate. }
    simpl.
    destruct (IH Hcols (if Xero.reads_clock c then S n else n) record) as [values ->].
    simpl. exists (v :: values). do 2 f_equal.
    destruct (Xero.reads_clock c); lia.
Qed.

(** C9: a row that [process_record] (Meta) or [extract_record_values] (Xero)
    returns has exactly one value per column specification, and the value at
    position [k] is the one the [k]-th specification resolves to on the
    record. *)
Theorem row_matches_columns :
  (∀ (cols : list MetaAds.col_def) (n : nat) (record : pydict)
     (row : list pyval) (n' : nat),
      MetaAds.process_record clock cols n record = Ok (row, n') →
      length row = length cols
      ∧ ∀ k col, cols !! k = Some col →
          ∃ v, row !! k = Some v
               ∧ MetaAds.column_value (clock (n + meta_ticks (take k cols)))
                   (array_pos_after MetaAds.Unbound (take k cols)) col record = Ok v)
  ∧ (∀ (cols : list Xero.col_def) (n : nat) (record : pydict)
       (values : list pyval) (n' : nat),
      Xero.extract_record_values clock n record cols = Ok (values, n') →
      length values = length cols
      ∧ ∀ k col, cols !! k = Some col →
          ∃ v, values !! k = Some v
               ∧ Xero.column_value (clock (n + xero_ticks (take k cols))) col record
                 = Ok v).
Proof.
  split.
  - intros cols n record row n' H.
    destruct (meta_process_columns_spec _ _ _ _ _ _ H) as (Hlen & _ & Hcols). done.
  - intros cols n record values n' H.
    destruct (xero_extract_record_values_spec _ _ _ _ _ H) as (Hlen & _ & Hcols). done.
Qed.
End rows.

Lemma row_matches_columns_witness :
  MetaAds.process_record ticking_clock [purchases_column] 0 purchase_record
    = Ok ([PStr "9"], 0%nat)
  ∧ length [PStr "9"] = length [purchases_column]
  ∧ ∀ k col, [purchases_column] !! k = Some col →
      ∃ v, [PStr "9"] !! k = Some v
           ∧ MetaAds.column_value
               (ticking_clock (0 + meta_ticks (take k [purchases_column])))
               (array_pos_after MetaAds.Unbound (take k [purchases_column]))
               col purchase_record = Ok v.
Proof.
  split; [reflexivity|].
  apply (proj1 (row_matches_columns ticking_clock) [purchases_column] 0%nat
           purchase_record [PStr "9"] 0%nat).
  reflexivity.
Defined.

(** ** Row multiplication in the Meta pipeline *)

Section explosion.
Import MetaAds.
Variable clock : nat → datetime.
Variable cols : list col_def.

Lemma dict_get_set (d : pydict) (k k' : string) (v : pyval) :
  dict_get (dict_set d k v) k' = if String.eqb k k' then Some v else dict_get d k'.
Proof.
  induction d as [|[k0 v0] d IH]; simpl.
  - done.
  - destruct (String.eqb_spec k0 k) as [-> | Hne]; simpl.
    + by destruct (String.eqb k k').
    + destruct (String.eqb_spec k0 k') as [-> | Hne']; simpl.
      * apply String.eqb_neq in Hne. by rewrite String.eqb_sym, Hne.
      * done.
Qed.

Lemma prepare_wildcard_path path array_all ap1 ap2 :
  (prepare_wildcard path array_all ap1).1 = (prepare_wildcard path array_all ap2).1
  ∨ (contains_char "*"%char path = false
     ∧ (prepare_wildcard path array_all ap1).1 = (path, array_all)
     ∧ (prepare_wildcard path array_all ap2).1 = (path, array_all)).
Proof.
  unfold prepare_wildcard. destruct (contains_char "*"%char path); [|by right].
  left. by destruct (find_star 0 (split dot path)).
Qed.

Lemma walk_path_first array_all array_pos segment rest r1 r2 :
  dict_get r1 segment = dict_get r2 segment →
  walk_path array_all array_pos 0 (segment :: rest) (mk_nav (PDict r1) false (-1))
  = walk_path array_all array_pos 0 (segment :: rest) (mk_nav (PDict r2) false (-1)).
Proof.
  intros Hget. cbn [walk_path]. destruct (isdigit segment).
  - destruct (int_of_string segment) as [idx|]; simpl; [|done].
    destruct (if array_all && true then at_array_pos 0 array_pos else Ok false)
      as [[]|]; simpl; rewrite ?Hget; done.
  - simpl. by rewrite Hget.
Qed.

Lemma split_go_nonempty sep s : ∀ cur, split_go sep cur s ≠ [].
Proof.
  induction s as [|c s IH]; intros cur; simpl; [done|].
  destruct (Ascii.eqb c sep); [done | apply IH].
Qed.

Lemma split_nonempty sep s : split sep s ≠ [].
Proof. apply split_go_nonempty. Qed.

Lemma deep_nested_value_frame array_pos col r1 r2 :
  agree_on (option_list (head (split dot (prepared_path col)))) r1 r2 →
  deep_nested_value array_pos col r1 = deep_nested_value array_pos col r2.
Proof.
  intros Hagree. unfold deep_nested_value, prepared_path in *.
  destruct (prepare_wildcard (default "" (path_to_value col)) (array_all col) array_pos)
    as [[path aa] ap'] eqn:Hprep.
  assert ((prepare_wildcard (default "" (path_to_value col)) (array_all col) Unbound).1.1
          = path) as Hpath.
  { destruct (prepare_wildcard_path (default "" (path_to_value col)) (array_all col)
                Unbound array_pos) as [Heq | (_ & Heq1 & Heq2)].
    - by rewrite Heq, Hprep.
    - rewrite Heq1. rewrite Hprep in Heq2. by injection Heq2 as <- _. }
  rewrite Hpath in Hagree.
  unfold deep_nested_attempt.
  destruct (split dot path) as [|segment rest] eqn:Hsplit;
    [by apply split_nonempty in Hsplit|].
  rewrite (walk_path_first aa ap' segment rest r1 r2); [done|].
  apply Hagree. simpl. set_solver.
Qed.

Lemma column_value_frame now1 now2 array_pos col r1 r2 :
  reads_clock col = false →
  agree_on (fields_read col) r1 r2 →
  column_value now1 array_pos col r1 = column_value now2 array_pos col r2.
Proof.
  intros Hclock Hagree. unfold column_value, fields_read, reads_clock in *.
  destruct (auto_generate col); simpl in *.
  { by rewrite Hclock. }
  destruct (deep_nested col && str_truthy (path_to_value col)).
  { f_equal. by apply deep_nested_value_frame. }
  destruct (is_nested col && str_truthy (action_filter col)).
  { unfold action_filter_value, dict_has, dict_get_default.
    rewrite (Hagree "action_values"), (Hagree "actions") by set_solver. done. }
  destruct (is_nested col).
  { unfold nested_value. destruct (source_field col) as [sf|]; [|done].
    destruct (contains_char dot sf); [|done].
    destruct (split dot sf) as [|parent [|child [|]]]; try done.
    rewrite (Hagree parent) by (simpl; set_solver). done. }
  unfold direct_value, record_get, dict_get_default.
  destruct (source_field col) as [sf|]; simpl; [|done].
  destruct (String.eqb_spec sf "campaign_id") as [-> | Hne]; simpl.
  - rewrite (Hagree "campaign_id") by (simpl; set_solver). done.
  - rewrite (Hagree sf) by (simpl; set_solver). done.
Qed.

Lemma agree_on_set keys (record : pydict) f x1 x2 :
  f ∉ keys → agree_on keys (dict_set record f x1) (dict_set record f x2).
Proof.
  intros Hf k Hk. rewrite !dict_get_set.
  destruct (String.eqb_spec f k) as [-> | _]; [done | done].
Qed.

Lemma column_value_never_raises now array_pos col record :
  never_raises col = true → ∃ v, column_value now array_pos col record = Ok v.
Proof.
  unfold never_raises, column_value. intros H.
  destruct (auto_generate col); [eauto|].
  destruct (deep_nested col && str_truthy (path_to_value col)); [eauto|].
  destruct (is_nested col); [done|]. simpl in *.
  unfold direct_value. destruct (source_field col) as [sf|]; simpl; [|eauto].
  destruct (String.eqb_spec sf "campaign_id") as [-> | Hne]; simpl; [|eauto].
  by rewrite bool_decide_eq_true_2 in H.
Qed.

Lemma process_columns_total (l : list col_def) :
  forallb never_raises l = true →
  ∀ n array_pos record, ∃ row,
    process_columns clock n array_pos l record = Ok (row, (n + meta_ticks l)%nat).
Proof.
  induction l as [|c l IH]; intros Hsafe n array_pos record; simpl.
  - exists []. by rewrite Nat.add_0_r.
  - simpl in Hsafe. apply andb_prop in Hsafe as [Hc Hl].
    destruct (column_value_never_raises (clock n) array_pos c record Hc) as [v ->].
    simpl.
    destruct (IH Hl (if reads_clock c then S n else n) (next_array_pos array_pos c)
                record) as [row ->].
    simpl. exists (v :: row). do 2 f_equal. destruct (reads_clock c); lia.
Qed.

Lemma process_items_spec (items : list pyval) :
  ∀ n record f rows n',
    process_items clock cols n record f items = Ok (rows, n') →
    length rows = length items
    ∧ ∀ i row, rows !! i = Some row →
        ∃ item m m', items !! i = Some item
          ∧ process_record clock cols m
              (dict_set record f (PDict [("data", PList [item])])) = Ok (row, m').
Proof.
  induction items as [|item items IH]; intros n record f rows n' H; simpl in H.
  - injection H as <- <-. split; [done|]. intros i row Hi. done.
  - inv_bind H. destruct a as [row n1].
    destruct (process_items clock cols n1 record f items) as [[rows' n2]|] eqn:Hrest;
      simpl in H; [|discriminate].
    injection H as <- <-.
    destruct (IH _ _ _ _ _ Hrest) as [Hlen Hrows]. split.
    + simpl. by rewrite Hlen.
    + intros [|i] r Hi; simpl in Hi.
      * injection Hi as <-. exists item, n, n1. done.
      * destruct (Hrows i r Hi) as (it & m & m' & Hit & Hrec). exists it, m, m'. done.
Qed.

Lemma process_items_total (items : list pyval) :
  forallb never_raises cols = true →
  ∀ n record f, ∃ rows,
    process_items clock cols n record f items
      = Ok (rows, (n + length items * meta_ticks cols)%nat).
Proof.
  intros Hsafe. induction items as [|item items IH]; intros n record f; simpl.
  - exists []. by rewrite Nat.add_0_r.
  - unfold process_record.
    destruct (process_columns_total cols Hsafe n Unbound
                (dict_set record f (PDict [("data", PList [item])]))) as [row ->].
    simpl. destruct (IH (n + meta_ticks cols)%nat record f) as [rows ->]. simpl.
    exists (row :: rows). do 2 f_equal. lia.
Qed.

(** Two rows extracted from the record with the field [f] replaced agree on
    every column that reads neither the clock nor [f]. *)
Lemma replica_rows_agree record f x1 x2 m1 m1' m2 m2' row1 row2 k col :
  process_record clock cols m1 (dict_set record f x1) = Ok (row1, m1') →
  process_record clock cols m2 (dict_set record f x2) = Ok (row2, m2') →
  cols !! k = Some col →
  reads_clock col = false →
  f ∉ fields_read col →
  row1 !! k = row2 !! k.
Proof.
  intros H1 H2 Hk Hclock Hf.
  destruct (meta_process_columns_spec clock _ _ _ _ _ _ H1) as (_ & _ & Hc1).
  destruct (meta_process_columns_spec clock _ _ _ _ _ _ H2) as (_ & _ & Hc2).
  destruct (Hc1 k col Hk) as (v1 & -> & Hv1).
  destruct (Hc2 k col Hk) as (v2 & -> & Hv2).
  rewrite (column_value_frame _ (clock (m2 + meta_ticks (take k cols))) _ _ _
             (dict_set record f x2) Hclock (agree_on_set _ record f x1 x2 Hf)) in Hv1.
  congruence.
Qed.

Lemma scan_fields_no_arrays (record : pydict) :
  Forall (fun kv => nested_array_of kv.2 = None) record →
  scan_fields record = Ok ([], []).
Proof.
  induction 1 as [|[k v] record Hv _ IH]; simpl; [done|].
  simpl in Hv. by rewrite Hv, IH.
Qed.

(** C2, as the code has it: whatever the column specifications, a record
    none of whose fields is an object with a ["data"] list yields exactly the
    one row [process_record] makes of it, and that row exists when no column
    can raise. *)
Theorem one_row_without_nested_arrays
    (s : option session) (n : nat) (record : pydict) :
  Forall (fun kv => nested_array_of kv.2 = None) record →
  process_nested_record clock cols s n record
    = (let! (row, n') := process_record clock cols n record in Ok ([row], n'))
  ∧ (forallb never_raises cols = true →
     ∃ row, process_nested_record clock cols s n record
              = Ok ([row], (n + meta_ticks cols)%nat)).
Proof.
  intros Hrecord. unfold process_nested_record.
  rewrite (scan_fields_no_arrays record Hrecord). simpl. split; [done|].
  intros Hsafe. unfold process_record.
  destruct (process_columns_total cols Hsafe n Unbound record) as [row ->].
  simpl. eauto.
Qed.

(** When exactly one field [f] of the record is an object with a ["data"]
    list, of [N] items, and no further page of it is fetched, extraction
    yields [N] rows, and any two of them hold the same value in every column
    that is not the generated timestamp and does not read [f]; the rows exist
    when no column can raise. *)
Lemma record_row_per_nested_item
    (s : option session) (n : nat) (record : pydict) (f : string)
    (items : list pyval) (paginations : list (string * pyval)) :
  scan_fields record = Ok ([(f, items)], paginations) →
  s = None ∨ paginations = [] →
  (∀ rows n',
      process_nested_record clock cols s n record = Ok (rows, n') →
      length rows = length items
      ∧ ∀ i j row_i row_j k col,
          rows !! i = Some row_i → rows !! j = Some row_j →
          cols !! k = Some col →
          reads_clock col = false → f ∉ fields_read col →
          row_i !! k = row_j !! k)
  ∧ (forallb never_raises cols = true →
     ∃ rows, process_nested_record clock cols s n record
               = Ok (rows, (n + length items * meta_ticks cols)%nat)).
Proof.
  intros Hscan Hpages. unfold process_nested_record. rewrite Hscan. simpl.
  assert (all_nested_items s paginations f items = items) as ->.
  { unfold all_nested_items. destruct Hpages as [-> | ->]; [done|].
    by destruct s. }
  split.
  - intros rows n' H.
    destruct (process_items clock cols n record f items) as [[rows0 n0]|] eqn:Hitems;
      simpl in H; [|discriminate].
    injection H as <- <-. rewrite app_nil_r.
    destruct (process_items_spec _ _ _ _ _ _ Hitems) as [Hlen Hrows].
    split; [done|].
    intros i j row_i row_j k col Hi Hj Hk Hclock Hf.
    destruct (Hrows i row_i Hi) as (item_i & m_i & m_i' & _ & Hrec_i).
    destruct (Hrows j row_j Hj) as (item_j & m_j & m_j' & _ & Hrec_j).
    eapply replica_rows_agree; eauto.
  - intros Hsafe.
    destruct (process_items_total items Hsafe n record f) as [rows ->].
    simpl. exists rows. by rewrite app_nil_r.
Qed.
End explosion.

(** ** One row per line item of an invoice *)

Section invoice_rows.
Import Xero.
Variable clock : nat → datetime.
Variable product_multipliers : pydict.

(** A column reads the record at one key only. *)
Lemma xero_column_value_frame now col (r1 r2 : pydict) :
  (∀ k, xero_field_read col = Some k → dict_get r1 k = dict_get r2 k) →
  column_value now col r1 = column_value now col r2.
Proof.
  intros Hagree. unfold column_value, xero_field_read in *.
  destruct (auto_generate col); [done|].
  destruct (source_field col) as [path|]; [|by destruct (is_nested col)].
  destruct (is_nested col).
  - f_equal. unfold extract_nested_value.
    destruct (split dot path) as [|part parts] eqn:Hsplit;
      [by destruct (split_nonempty dot path)|].
    cbn [head from_option] in Hagree. unfold id in Hagree. cbn [follow].
    destruct (contains_char "["%char path && contains_char "]"%char path); cbn [andb] in *.
    + destruct (contains_char "["%char part && contains_char "]"%char part).
      * unfold step_indexed.
        destruct (int_of_string _); [|done].
        by rewrite (Hagree (default "" (head (split "["%char part))) eq_refl).
      * cbn [step_field]. by rewrite (Hagree _ eq_refl).
    + cbn [step_field]. by rewrite (Hagree _ eq_refl).
  - unfold dict_get_default. by rewrite (Hagree _ eq_refl).
Qed.

(** A column that does not read the clock does not depend on the time. *)
Lemma xero_column_value_clock now1 now2 col record :
  reads_clock col = false →
  column_value now1 col record = column_value now2 col record.
Proof.
  unfold reads_clock, column_value. destruct (auto_generate col); [|done].
  cbn [andb]. by intros ->.
Qed.

Lemma invoice_lines_spec invoice base columns : ∀ line_items n rows n',
  invoice_lines clock product_multipliers n invoice base columns line_items
    = Ok (rows, n') →
  length rows = length line_items
  ∧ ∀ i row, rows !! i = Some row →
      ∃ data m m',
        extract_record_values clock m (dict_set base "LineItems" (PDict data)) columns
          = Ok (row, m').
Proof.
  induction line_items as [|line_item rest IH]; intros n rows n' H; simpl in H.
  - injection H as <- <-. split; [done|]. intros i row Hi. done.
  - destruct (invoice_line_item_data _ _ _) as [data|]; simpl in H; [|discriminate].
    destruct (extract_record_values _ _ _ _) as [[row0 n1]|] eqn:Hrow;
      simpl in H; [|discriminate].
    destruct (invoice_lines _ _ _ _ _ _ _) as [[rows' n2]|] eqn:Hrest;
      simpl in H; [|discriminate].
    injection H as <- <-.
    destruct (IH _ _ _ Hrest) as [Hlen Hrows].
    split; [simpl; by rewrite Hlen|].
    intros [|i] row Hi; simpl in Hi.
    + injection Hi as <-. eauto.
    + eauto.
Qed.

Lemma invoice_lines_total invoice base columns :
  forallb xero_well_formed columns = true →
  ∀ line_items n,
    Forall (fun line_item =>
              ∃ data, invoice_line_item_data product_multipliers invoice line_item
                        = Ok data) line_items →
    ∃ rows,
      invoice_lines clock product_multipliers n invoice base columns line_items
        = Ok (rows, (n + length line_items * xero_ticks columns)%nat).
Proof.
  intros Hwf. induction line_items as [|line_item rest IH]; intros n Hitems; simpl.
  - exists []. by rewrite Nat.add_0_r.
  - inversion Hitems as [|? ? [data Hdata] Hrest]; subst.
    rewrite Hdata. simpl.
    destruct (xero_extract_record_values_total clock columns Hwf n
                (dict_set base "LineItems" (PDict data))) as [row ->].
    simpl.
    destruct (IH (n + xero_ticks columns)%nat Hrest) as [rows ->]. simpl.
    exists (row :: rows). do 2 f_equal. lia.
Qed.

Lemma invoice_rows_agree (base : pydict) data1 data2 m1 m1' m2 m2' row1 row2
    columns k col :
  extract_record_values clock m1 (dict_set base "LineItems" (PDict data1)) columns
    = Ok (row1, m1') →
  extract_record_values clock m2 (dict_set base "LineItems" (PDict data2)) columns
    = Ok (row2, m2') →
  columns !! k = Some col →
  reads_clock col = false →
  xero_field_read col ≠ Some "LineItems" →
  row1 !! k = row2 !! k.
Proof.
  intros H1 H2 Hk Hclock Hfield.
  destruct (xero_extract_record_values_spec clock _ _ _ _ _ H1) as (_ & _ & Hc1).
  destruct (xero_extract_record_values_spec clock _ _ _ _ _ H2) as (_ & _ & Hc2).
  destruct (Hc1 k col Hk) as (v1 & -> & Hv1).
  destruct (Hc2 k col Hk) as (v2 & -> & Hv2).
  rewrite (xero_column_value_clock _ (clock 0) _ _ Hclock) in Hv1.
  rewrite (xero_column_value_clock _ (clock 0) _ _ Hclock) in Hv2.
  rewrite (xero_column_value_frame _ col _ (dict_set base "LineItems" (PDict data2)))
    in Hv1; [congruence|].
  intros key Hkey. rewrite !dict_get_set.
  destruct (String.eqb_spec "LineItems" key) as [<- | _]; [|done].
  by destruct Hfield.
Qed.

(** An invoice of [N] line items gives [N] rows; the columns that read
    neither the clock nor [LineItems] hold the same value in all of them. *)
Lemma invoice_row_per_line_item (columns : list col_def) (n : nat)
    (invoice : pydict) (line_items : list pyval) :
  dict_get_default invoice "LineItems" (PList []) = PList line_items →
  (∀ rows n',
      process_invoice clock product_multipliers columns n invoice = Ok (rows, n') →
      length rows = length line_items
      ∧ ∀ i j row_i row_j k col,
          rows !! i = Some row_i → rows !! j = Some row_j →
          columns !! k = Some col →
          reads_clock col = false → xero_field_read col ≠ Some "LineItems" →
          row_i !! k = row_j !! k)
  ∧ (forallb xero_well_formed columns = true →
     (∃ base, base_invoice_data invoice = Ok base) →
     Forall (fun line_item =>
               ∃ data, invoice_line_item_data product_multipliers invoice line_item
                         = Ok data) line_items →
     ∃ rows, process_invoice clock product_multipliers columns n invoice
               = Ok (rows, (n + length line_items * xero_ticks columns)%nat)).
Proof.
  intros Hitems. unfold process_invoice. rewrite Hitems. cbn [py_iter].
  split.
  - intros rows n' H.
    destruct (base_invoice_data invoice) as [base|]; simpl in H; [|discriminate].
    destruct (invoice_lines_spec _ _ _ _ _ _ _ H) as [Hlen Hrows].
    split; [done|].
    intros i j row_i row_j k col Hi Hj Hk Hclock Hfield.
    destruct (Hrows i row_i Hi) as (data_i & m_i & m_i' & Hrow_i).
    destruct (Hrows j row_j Hj) as (data_j & m_j & m_j' & Hrow_j).
    eapply invoice_rows_agree; eauto.
  - intros Hwf [base ->] Hlines. simpl.
    by apply invoice_lines_total.
Qed.
End invoice_rows.

(** C1, as the code has it. Meta: when exactly one field [f] of the record
    is an object with a ["data"] list, of [N] items, and no further page of
    it is fetched, extraction yields [N] rows, and any two of them hold the
    same value in every column that is not the generated timestamp and does
    not read [f]; the rows exist when no column can raise. Xero: an invoice
    whose [LineItems] is a list of [N] items yields [N] rows, and any two of
    them hold the same value in every column that is not the generated
    timestamp and does not read [LineItems]; the rows exist when the base
    data and the data of every line item can be built. *)
Theorem one_row_per_nested_item :
  (∀ (clock : nat → datetime) (cols : list MetaAds.col_def)
     (s : option MetaAds.session) (n : nat) (record : pydict) (f : string)
     (items : list pyval) (paginations : list (string * pyval)),
      MetaAds.scan_fields record = Ok ([(f, items)], paginations) →
      s = None ∨ paginations = [] →
      (∀ rows n',
          MetaAds.process_nested_record clock cols s n record = Ok (rows, n') →
          length rows = length items
          ∧ ∀ i j row_i row_j k col,
              rows !! i = Some row_i → rows !! j = Some row_j →
              cols !! k = Some col →
              MetaAds.reads_clock col = false → f ∉ fields_read col →
              row_i !! k = row_j !! k)
      ∧ (forallb never_raises cols = true →
         ∃ rows, MetaAds.process_nested_record clock cols s n record
                   = Ok (rows, (n + length items * meta_ticks cols)%nat)))
  ∧ (∀ (clock : nat → datetime) (product_multipliers : pydict)
       (columns : list Xero.col_def) (n : nat) (invoice : pydict)
       (line_items : list pyval),
      dict_get_default invoice "LineItems" (PList []) = PList line_items →
      (∀ rows n',
          Xero.process_invoice clock product_multipliers columns n invoice
            = Ok (rows, n') →
          length rows = length line_items
          ∧ ∀ i j row_i row_j k col,
              rows !! i = Some row_i → rows !! j = Some row_j →
              columns !! k = Some col →
              Xero.reads_clock col = false →
              xero_field_read col ≠ Some "LineItems" →
              row_i !! k = row_j !! k)
      ∧ (forallb xero_well_formed columns = true →
         (∃ base, Xero.base_invoice_data invoice = Ok base) →
         Forall (fun line_item =>
                   ∃ data, Xero.invoice_line_item_data product_multipliers invoice
                             line_item = Ok data) line_items →
         ∃ rows, Xero.process_invoice clock product_multipliers columns n invoice
                   = Ok (rows, (n + length line_items * xero_ticks columns)%nat))).
Proof.
  split.
  - intros clock cols s n record f items paginations Hscan Hpages.
    by apply record_row_per_nested_item with (paginations := paginations).
  - intros clock product_multipliers columns n invoice line_items Hitems.
    by apply invoice_row_per_line_item.
Qed.

Section explosion_examples.
Import MetaAds.

Lemma one_row_without_nested_arrays_witness :
  Forall (fun kv => nested_array_of kv.2 = None) flat_account
  ∧ process_nested_record ticking_clock [account_column] None 0 flat_account
    = Ok ([[PStr "1"]], 0%nat).
Proof.
  assert (Forall (fun kv => nested_array_of kv.2 = None) flat_account) as H
    by (repeat constructor).
  split; [exact H|].
  destruct (one_row_without_nested_arrays ticking_clock [account_column] None 0%nat
              flat_account H) as [-> _].
  reflexivity.
Defined.

(** C2 fails as stated: no column is deep-nested, yet the record's
    [activities] edge holds two items and two rows come out. *)
Lemma two_rows_without_deep_nested_column :
  Forall (fun col => deep_nested col = false) [account_column]
  ∧ process_nested_record ticking_clock [account_column] None 0
      account_with_activities = Ok ([[PStr "1"]; [PStr "1"]], 0%nat)
  ∧ length [[PStr "1"]; [PStr "1"]] ≠ 1%nat.
Proof. split; [repeat constructor | split; [reflexivity | simpl; lia]]. Qed.

Lemma one_row_per_nested_item_witness :
  scan_fields account_with_activities = Ok ([("activities", two_activities)], [])
  ∧ (∀ rows n',
        process_nested_record ticking_clock activity_columns None 0
          account_with_activities = Ok (rows, n') →
        length rows = length two_activities
        ∧ ∀ i j row_i row_j k col,
            rows !! i = Some row_i → rows !! j = Some row_j →
            activity_columns !! k = Some col →
            reads_clock col = false → "activities" ∉ fields_read col →
            row_i !! k = row_j !! k)
  ∧ (forallb never_raises activity_columns = true →
     ∃ rows, process_nested_record ticking_clock activity_columns None 0
               account_with_activities
               = Ok (rows, (0 + length two_activities * meta_ticks activity_columns)%nat)).
Proof.
  split; [reflexivity|].
  apply (proj1 one_row_per_nested_item ticking_clock activity_columns None 0%nat
           account_with_activities "activities" two_activities []);
    [reflexivity | left; reflexivity].
Defined.

(** The invoice of two lines gives two rows, one for every line. *)
Lemma two_line_invoice_rows :
  ∃ rows,
    Xero.process_invoice ticking_clock Xero.PRODUCT_QUANTITY_MULTIPLIERS
      Xero.INVOICES_COLUMN_DEFINITIONS 0 two_line_invoice = Ok (rows, 2%nat)
    ∧ length rows = 2%nat
    ∧ (rows !! 0%nat) ≫= (.!! 15%nat) = Some (PStr "Widget")
    ∧ (rows !! 1%nat) ≫= (.!! 15%nat)
      = Some (PStr "Stress Paste - 1 box of 12 x 60ml syringes")
    ∧ (rows !! 0%nat) ≫= (.!! 1%nat) = Some (PStr "i1")
    ∧ (rows !! 1%nat) ≫= (.!! 1%nat) = Some (PStr "i1").
Proof. eexists. split; [vm_compute; reflexivity|]. repeat split. Qed.

(** C1 fails as stated: the one deep-nested column points at an array of one
    element, yet three rows come out, one for every item of every edge the
    record carries. *)
Lemma rows_follow_the_record :
  length (filter (fun col => deep_nested col = true) [account_column; actor_column])
    = 1%nat
  ∧ follow_keys (PDict account_with_two_edges) ["activities"; "data"]
    = Some (PList [PDict [("actor_id", PStr "a")]])
  ∧ process_nested_record ticking_clock [account_column; actor_column] None 0
      account_with_two_edges
    = Ok ([[PStr "1"; PStr "a"]; [PStr "1"; PStr "a"]; [PStr "1"; PStr "a"]], 0%nat).
Proof. repeat split. Qed.

(** The generated timestamp is read from the clock once per row, so it need
    not be the same in two rows of one record. *)
Lemma processed_at_differs_between_rows :
  ∃ t1 t2,
    process_nested_record ticking_clock [account_column; processed_at_column] None 0
      account_with_activities
    = Ok ([[PStr "1"; PDatetime t1]; [PStr "1"; PDatetime t2]], 2%nat)
    ∧ t1 ≠ t2.
Proof.
  exists (ticking_clock 0), (ticking_clock 1). split; [reflexivity|].
  vm_compute. congruence.
Qed.
End explosion_examples.

(** ** Splitting and joining paths *)

Lemma append_cons c s t : String c s +:+ t = String c (s +:+ t).
Proof. reflexivity. Qed.

Lemma append_nil_l t : "" +:+ t = t.
Proof. reflexivity. Qed.

Lemma append_assoc s t u : (s +:+ t) +:+ u = s +:+ (t +:+ u).
Proof. induction s as [|c s IH]; [done|]. by rewrite !append_cons, IH. Qed.

Lemma rev_app_append s : ∀ t u, String.rev_app s t +:+ u = String.rev_app s (t +:+ u).
Proof. induction s as [|c s IH]; intros t u; simpl; [done|]. by rewrite IH. Qed.

Lemma rev_cons_append c cur x :
  String.rev (String c cur) +:+ x = String.rev cur +:+ String c x.
Proof. unfold String.rev. simpl. by rewrite !rev_app_append. Qed.

(** A piece without the separator, followed by the separator, is split off. *)
Lemma split_go_piece sep x : ∀ cur s,
  contains_char sep x = false →
  split_go sep cur (x +:+ String sep s)
    = (String.rev cur +:+ x) :: split_go sep "" s.
Proof.
  induction x as [|c x IH]; intros cur s Hx.
  - rewrite append_nil_l. simpl. rewrite Ascii.eqb_refl.
    f_equal. unfold String.rev. by rewrite rev_app_append.
  - simpl in Hx. apply orb_false_elim in Hx as [Hc Hx].
    rewrite append_cons. simpl. rewrite Ascii.eqb_sym, Hc.
    by rewrite IH, rev_cons_append.
Qed.

Lemma split_go_last sep x : ∀ cur,
  contains_char sep x = false → split_go sep cur x = [String.rev cur +:+ x].
Proof.
  induction x as [|c x IH]; intros cur Hx.
  - simpl. unfold String.rev. by rewrite rev_app_append.
  - simpl in Hx. apply orb_false_elim in Hx as [Hc Hx].
    simpl. rewrite Ascii.eqb_sym, Hc. by rewrite IH, rev_cons_append.
Qed.

(** [sep.join(l).split(sep) == l] when no element of [l] holds the separator *)
Lemma split_join sep (l : list string) :
  l ≠ [] → Forall (fun x => contains_char sep x = false) l →
  split sep (join (String sep "") l) = l.
Proof.
  intros Hne Hl. unfold split. induction Hl as [|x l Hx Hl IH]; [done|].
  destruct l as [|y l].
  - simpl. by rewrite split_go_last.
  - change (join (String sep "") (x :: y :: l))
      with (x +:+ String sep "" +:+ join (String sep "") (y :: l)).
    rewrite append_cons, append_nil_l.
    rewrite split_go_piece by done. rewrite IH by done. done.
Qed.

Lemma contains_char_append c s t :
  contains_char c (s +:+ t) = contains_char c s || contains_char c t.
Proof.
  induction s as [|c' s IH]; [done|].
  rewrite append_cons. simpl. by rewrite IH, orb_assoc.
Qed.

Lemma contains_char_join c sep (l : list string) x :
  x ∈ l → contains_char c x = true → contains_char c (join sep l) = true.
Proof.
  intros Hin Hx. induction l as [|y l IH]; [by apply elem_of_nil in Hin|].
  destruct l as [|z l].
  - apply list_elem_of_singleton in Hin as ->. done.
  - change (join sep (y :: z :: l)) with (y +:+ sep +:+ join sep (z :: l)).
    rewrite !contains_char_append.
    apply elem_of_cons in Hin as [-> | Hin].
    + by rewrite Hx.
    + rewrite IH by done. by rewrite !orb_true_r.
Qed.

(** ** Wildcard paths of the Meta extractor *)

Section wildcard.
Import MetaAds.
Local Open Scope list_scope.

Lemma find_star_app pre suf i :
  "*" ∉ pre → find_star i (pre ++ "*" :: suf) = Some (i + length pre)%nat.
Proof.
  revert i. induction pre as [|seg pre IH]; intros i Hpre; simpl.
  - f_equal. lia.
  - apply not_elem_of_cons in Hpre as [Hseg Hpre].
    destruct (String.eqb_spec seg "*") as [-> | _]; [done|].
    rewrite IH by done. f_equal. lia.
Qed.

Lemma insert_middle (pre suf : list string) x y :
  <[length pre := y]> (pre ++ x :: suf) = pre ++ y :: suf.
Proof.
  rewrite insert_app_r_alt by lia. by rewrite Nat.sub_diag.
Qed.

Lemma prepare_wildcard_star pre suf array_all array_pos :
  "*" ∉ pre →
  Forall (fun x => contains_char dot x = false) (pre ++ "*" :: suf) →
  prepare_wildcard (join "." (pre ++ "*" :: suf)) array_all array_pos
    = (join "." (pre ++ "0" :: suf), true, BoundInt (length pre)).
Proof.
  intros Hpre Hdots. unfold prepare_wildcard.
  rewrite (contains_char_join "*"%char "." (pre ++ "*" :: suf) "*")
    by (set_solver || done).
  rewrite (split_join dot) by (done || by destruct pre).
  rewrite find_star_app by done. simpl. by rewrite insert_middle.
Qed.

Lemma walk_path_key array_all array_pos i seg rest st d v :
  isdigit seg = false → current_value st = PDict d → dict_get d seg = Some v →
  walk_path array_all array_pos i (seg :: rest) st
    = let! mark := (if is_list v && array_all
                    then before_array_pos i array_pos else Ok false) in
      if mark then Ok (mk_nav v true (Z.of_nat i + 1))
      else walk_path array_all array_pos (S i) rest (step_to v st).
Proof. intros Hseg Hst Hget. simpl. by rewrite Hseg, Hst, Hget. Qed.

(** The walk along the keys before the wildcard stops at the array and
    marks it for collection. *)
Lemma walk_path_prefix (pre : list string) : ∀ i st rest items,
  pre ≠ [] →
  Forall (fun seg => isdigit seg = false) pre →
  follow_keys (current_value st) pre = Some (PList items) →
  walk_path true (BoundInt (i + length pre)) i (pre ++ rest) st
    = Ok (mk_nav (PList items) true (Z.of_nat (i + length pre))).
Proof.
  induction pre as [|seg pre IH]; intros i st rest items Hne Hdigits Hfollow; [done|].
  apply Forall_cons in Hdigits as [Hseg Hdigits].
  cbn [follow_keys] in Hfollow.
  destruct (current_value st) as [| | | | | |d|] eqn:Hst; try done.
  destruct (dict_get d seg) as [v|] eqn:Hget; [|done].
  rewrite <- app_comm_cons.
  rewrite (walk_path_key _ _ _ _ _ _ d v) by done.
  destruct pre as [|seg' pre].
  - cbn [follow_keys] in Hfollow. injection Hfollow as ->.
    cbn [is_list andb before_array_pos length].
    replace (Z.of_nat i =? Z.of_nat (i + 1) - 1) with true
      by (symmetry; apply Z.eqb_eq; lia).
    cbn [bind]. do 2 f_equal. lia.
  - assert (is_list v = false) as ->.
    { destruct v; try done. }
    cbn [andb bind].
    replace (i + length (seg :: seg' :: pre))%nat
      with (S i + length (seg' :: pre))%nat by (simpl; lia).
    apply IH; done.
Qed.

Lemma collect_items_values (items : list pyval) (remaining_path : list string)
    (values : list pyval) :
  Forall2 (fun item v => apply_remaining item remaining_path = Ok v) items values →
  collect_items items remaining_path = Ok (py_str <$> filter not_none values).
Proof.
  induction 1 as [|item v items values Hv _ IH]; simpl; [done|].
  rewrite Hv, IH. simpl. rewrite filter_cons.
  destruct (is_none v) eqn:Hn.
  - rewrite decide_False; [done|]. unfold not_none. by rewrite Hn.
  - rewrite decide_True; done.
Qed.

(** C7, as the code has it: for a deep-nested column whose path has a
    wildcard after keys that lead to an array, the value is the join, with
    the column's delimiter, of the strings of what the remaining path
    resolves to in each element, the elements that resolve to [None] being
    left out; an element in which a remaining segment is missing resolves to
    the empty string; the scenario of the specification yields ["a, b"]. *)
Theorem wildcard_join :
  (∀ (now : datetime) (array_pos : array_pos_state) (col : col_def)
     (record : pydict) (pre suf : list string) (items values : list pyval),
      auto_generate col = false →
      deep_nested col = true →
      path_to_value col = Some (join "." (pre ++ "*" :: suf)) →
      "*" ∉ pre →
      Forall (fun seg => contains_char dot seg = false) (pre ++ "*" :: suf) →
      Forall (fun seg => isdigit seg = false) pre →
      follow_keys (PDict record) pre = Some (PList items) →
      Forall2 (fun item v => apply_remaining item suf = Ok v) items values →
      column_value now array_pos col record
        = Ok (PStr (join (default "," (join_delimiter col))
                      (py_str <$> filter not_none values))))
  ∧ (∀ (d : pydict) (segment : string) (rest : list string),
        dict_get d segment = None →
        apply_remaining (PDict d) (segment :: rest) = Ok (PStr ""))
  ∧ (∀ now array_pos,
        column_value now array_pos names_column names_record = Ok (PStr "a, b")).
Proof.
  split; [|split; [|reflexivity]].
  - intros now array_pos col record pre suf items values
      Hauto Hdeep Hpath Hstar Hdots Hdigits Hfollow Hvalues.
    assert (pre ≠ []) as Hpre by (intros ->; discriminate).
    assert (str_truthy (path_to_value col) = true) as Htruthy.
    { rewrite Hpath. simpl. apply negb_true_iff, String.eqb_neq. intros Heq.
      pose proof (contains_char_join "*"%char "." (pre ++ "*" :: suf) "*") as Hc.
      rewrite Heq in Hc. discriminate Hc; [set_solver | done]. }
    unfold column_value. rewrite Hauto, Hdeep, Htruthy. simpl. f_equal.
    unfold deep_nested_value. rewrite Hpath. simpl.
    rewrite prepare_wildcard_star by done.
    unfold deep_nested_attempt.
    assert (Forall (fun x => contains_char dot x = false) (pre ++ "0" :: suf)) as Hdots'.
    { apply Forall_app in Hdots as [H1 H2]. apply Forall_cons in H2 as [_ H2].
      apply Forall_app. split; [done|]. by apply Forall_cons. }
    rewrite (split_join dot) by (done || by destruct pre).
    rewrite (walk_path_prefix pre 0 _ ("0" :: suf) items) by done.
    simpl bind. cbn [current_value collecting_array array_position].
    assert ((if Z.of_nat (length pre) <? Z.of_nat (length (pre ++ "0" :: suf)) - 1
             then drop (Z.to_nat (Z.of_nat (length pre) + 1)) (pre ++ "0" :: suf)
             else []) = suf) as ->.
    { rewrite length_app. simpl length.
      destruct (Z.ltb_spec (Z.of_nat (length pre))
                  (Z.of_nat (length pre + S (length suf)) - 1)) as [Hlt | Hge].
      - replace (Z.to_nat (Z.of_nat (length pre) + 1)) with (length pre + 1)%nat by lia.
        rewrite <- drop_drop, drop_app_length. done.
      - destruct suf; [done | simpl in Hge; lia]. }
    rewrite (collect_items_values items suf values Hvalues). simpl.
    by destruct (py_str <$> filter not_none values).
  - intros d segment rest Hget. simpl. by rewrite Hget.
Qed.

Lemma wildcard_join_witness :
  column_value (mk_datetime 2024 1 1 0 0 0 0) Unbound names_column names_record
    = Ok (PStr (join ", " (py_str <$> filter not_none [PStr "a"; PStr "b"]))).
Proof.
  apply (proj1 wildcard_join (mk_datetime 2024 1 1 0 0 0 0) Unbound names_column
           names_record ["items"; "data"] ["name"]
           [PDict [("name", PStr "a")]; PDict [("name", PStr "b")]]
           [PStr "a"; PStr "b"]);
    try reflexivity.
  - vm_compute. intros H. repeat (apply elem_of_cons in H as [H | H]; [discriminate|]).
    by apply elem_of_nil in H.
  - repeat constructor.
  - repeat constructor.
  - repeat constructor.
Defined.

(** C7 fails as stated: an element whose name is [null] is left out of the
    join, where joining the string of every element gives a third piece. *)
Lemma wildcard_join_skips_null :
  column_value (mk_datetime 2024 1 1 0 0 0 0) Unbound names_column names_with_null
    = Ok (PStr "a, b")
  ∧ claimed_wildcard_value ", "
      [PDict [("name", PStr "a")]; PDict [("name", PNone)]; PDict [("name", PStr "b")]]
      ["name"] = PStr "a, None, b".
Proof. split; reflexivity. Qed.
End wildcard.

(** ** The query builders *)

Section query_builder.
Import MetaAds.
Local Open Scope list_scope.

(** Sorting forgets the order it is given. *)
Lemma sorted_Permutation (l1 l2 : list string) :
  l1 ≡ₚ l2 → sorted l1 = sorted l2.
Proof.
  intros Hperm. unfold sorted.
  apply (Sorted_unique String.le).
  - apply Sorted_merge_sort; apply _.
  - apply Sorted_merge_sort; apply _.
  - by rewrite !merge_sort_Permutation.
Qed.

Lemma remove_first_notin x (l : list string) : x ∉ l → remove_first x l = l.
Proof.
  induction l as [|y l IH]; intros Hx; simpl; [done|].
  apply not_elem_of_cons in Hx as [Hne Hx].
  destruct (String.eqb_spec y x) as [-> | _]; [done|]. by rewrite IH.
Qed.

Lemma remove_first_in x (l : list string) : x ∈ l → l ≡ₚ x :: remove_first x l.
Proof.
  induction l as [|y l IH]; intros Hx; [by apply elem_of_nil in Hx|]. simpl.
  destruct (String.eqb_spec y x) as [-> | Hne]; [done|].
  apply elem_of_cons in Hx as [-> | Hx]; [done|].
  rewrite (IH Hx) at 1. apply Permutation_swap.
Qed.

Lemma remove_first_Permutation x (l1 l2 : list string) :
  l1 ≡ₚ l2 → remove_first x l1 ≡ₚ remove_first x l2.
Proof.
  intros Hperm. destruct (decide (x ∈ l1)) as [Hin | Hnotin].
  - apply (Permutation_cons_inv (a := x)).
    rewrite <- (remove_first_in x l1 Hin).
    rewrite <- (remove_first_in x l2) by (by rewrite <- Hperm).
    done.
  - rewrite !remove_first_notin; [done | by rewrite <- Hperm | done].
Qed.

Section two_enumerations.
Variables enum1 enum2 : gset string → list string.
Hypothesis enum1_elements : ∀ s, enum1 s ≡ₚ elements s.
Hypothesis enum2_elements : ∀ s, enum2 s ≡ₚ elements s.

Lemma add_nested_Permutation (l1 l2 : list string) entry :
  l1 ≡ₚ l2 → add_nested enum1 l1 entry ≡ₚ add_nested enum2 l2 entry.
Proof.
  intros Hperm. destruct entry as [parent children]. unfold add_nested.
  destruct (bool_decide (children = ∅)); [done|].
  rewrite (sorted_Permutation (enum1 children) (enum2 children))
    by (by rewrite enum1_elements, enum2_elements).
  apply Permutation_app; [|done].
  destruct (decide (parent ∈ l1)) as [Hin | Hnotin].
  - rewrite !bool_decide_eq_true_2 by (done || by rewrite <- Hperm).
    by apply remove_first_Permutation.
  - rewrite !bool_decide_eq_false_2 by (done || by rewrite <- Hperm). done.
Qed.

Lemma fold_add_nested_Permutation nested : ∀ l1 l2 : list string,
  l1 ≡ₚ l2 →
  fold_left (add_nested enum1) nested l1 ≡ₚ fold_left (add_nested enum2) nested l2.
Proof.
  induction nested as [|entry nested IH]; intros l1 l2 Hperm; simpl; [done|].
  apply IH. by apply add_nested_Permutation.
Qed.

Lemma generate_api_fields_enum (column_definitions : list col_def) :
  _generate_api_fields enum1 column_definitions
  = _generate_api_fields enum2 column_definitions.
Proof.
  unfold _generate_api_fields.
  destruct (fold_left collect_fields column_definitions (∅, []))
    as [api_fields nested_fields].
  f_equal. apply sorted_Permutation, fold_add_nested_Permutation.
  by rewrite enum1_elements, enum2_elements.
Qed.
End two_enumerations.

(** C8: the GAQL query is a function of the column configuration and the
    time window, so equal inputs give the same query text; the Meta field
    list is the same for every order in which the runtime enumerates the
    sets it is built from, so equal column definitions give the same field
    list in every run. *)
Theorem query_builder_deterministic :
  (∀ (config1 config2 : list GoogleAds.col_config) (w1 w2 : GoogleAds.window),
      config1 = config2 → w1 = w2 →
      GoogleAds.generate_api_query config1 w1 = GoogleAds.generate_api_query config2 w2)
  ∧ (∀ (enum1 enum2 : gset string → list string)
       (column_definitions1 column_definitions2 : list col_def),
      (∀ s, enum1 s ≡ₚ elements s) → (∀ s, enum2 s ≡ₚ elements s) →
      column_definitions1 = column_definitions2 →
      _generate_api_fields enum1 column_definitions1
        = _generate_api_fields enum2 column_definitions2).
Proof.
  split.
  - by intros config1 config2 w1 w2 -> ->.
  - intros enum1 enum2 cols1 cols2 H1 H2 ->. by apply generate_api_fields_enum.
Qed.

Lemma query_builder_deterministic_witness :
  GoogleAds.generate_api_query campaign_config last_week
    = GoogleAds.generate_api_query campaign_config last_week
  ∧ _generate_api_fields elements activity_columns
    = _generate_api_fields (fun s => reverse (elements s)) activity_columns.
Proof.
  destruct query_builder_deterministic as [Hgoogle Hmeta]. split.
  - apply Hgoogle; reflexivity.
  - apply Hmeta; [reflexivity | intros s; apply reverse_Permutation | reflexivity].
Defined.
End query_builder.

(** ** Multiplying a float by plus or minus one *)

Lemma digits2_xO p : Zpos (digits2_pos (xO p)) = Zpos (digits2_pos p) + 1.
Proof. cbn [digits2_pos]. lia. Qed.

Lemma shr_1_xO p :
  shr_1 {| shr_m := Zpos (xO p); shr_r := false; shr_s := false |}
  = {| shr_m := Zpos p; shr_r := false; shr_s := false |}.
Proof. reflexivity. Qed.

(** Rounding [m * 2 ^ 52] at exponent [e - 52] gives back the canonical
    [m] at exponent [e]. *)
Lemma round_shifted sx m e :
  bounded prec emax m e = true →
  binary_round_aux prec emax sx (Zpos (4503599627370496 * m)) (-52 + e) loc_Exact
    = S754_finite sx m e.
Proof.
  intros Hb. apply andb_prop in Hb as [Hcan Hle].
  unfold canonical_mantissa in Hcan. apply Z.eqb_eq in Hcan.
  assert (shr_fexp prec emax (Zpos (4503599627370496 * m)) (-52 + e) loc_Exact
          = ({| shr_m := Zpos m; shr_r := false; shr_s := false |}, e)) as Hfirst.
  { unfold shr_fexp.
    let shifted := eval cbv beta iota fix delta [Pos.mul] in (4503599627370496 * m)%positive in
    change (4503599627370496 * m)%positive with shifted.
    cbn [Zdigits2]. repeat rewrite digits2_xO.
    match goal with
    | |- context [fexp _ _ (?a + (-52 + e))] =>
        replace (a + (-52 + e)) with (Zpos (digits2_pos m) + e) by lia
    end.
    rewrite Hcan. replace (e - (-52 + e)) with 52 by lia.
    cbn [shr shr_record_of_loc iter_pos].
    repeat rewrite shr_1_xO.
    f_equal. lia. }
  unfold binary_round_aux. rewrite Hfirst.
  cbn [shr_m loc_of_shr_record round_nearest_even].
  unfold shr_fexp. cbn [Zdigits2]. rewrite Hcan, Z.sub_diag.
  cbn [shr shr_record_of_loc shr_m]. by rewrite Hle.
Qed.

Lemma float_of_one : float_of_Z 1 = Ok (S754_finite false 4503599627370496 (-52)).
Proof. reflexivity. Qed.

Lemma float_of_minus_one :
  float_of_Z (-1) = Ok (S754_finite true 4503599627370496 (-52)).
Proof. reflexivity. Qed.

Lemma SFmul_unit (neg : bool) (f : spec_float) :
  valid_binary prec emax f = true →
  SFmul prec emax (S754_finite neg 4503599627370496 (-52)) f
    = if neg then SFopp f else f.
Proof.
  intros Hvalid. destruct f as [s|s| |s m e]; simpl.
  - by destruct neg.
  - by destruct neg.
  - by destruct neg.
  - simpl in Hvalid.
    change (Z.neg 52 + e) with (-52 + e).
    rewrite (round_shifted _ m e Hvalid). by destruct neg.
Qed.

(** ** Credit notes of the Xero pipeline *)

Section credit_notes.
Import Xero.
Variable product_multipliers : pydict.

Lemma mul_minus_one v : json_number v → py_mul (PInt (-1)) v = Ok (negation v).
Proof.
  destruct v as [| |z|f| | | |]; try done; intros Hv.
  unfold py_mul. cbn [as_number]. rewrite float_of_minus_one. cbn [bind].
  by rewrite (SFmul_unit true f Hv).
Qed.

Lemma mul_one v : json_number v → py_mul (PInt 1) v = Ok v.
Proof.
  destruct v as [| |z|f| | | |]; try done; intros Hv.
  - unfold py_mul. simpl. by destruct z.
  - unfold py_mul. cbn [as_number]. rewrite float_of_one. cbn [bind].
    by rewrite (SFmul_unit false f Hv).
Qed.

Lemma mul_sign_multiplier credit_note v :
  json_number v →
  py_mul (PInt (sign_multiplier credit_note)) v
    = Ok (if is_acc_pay_credit credit_note then v else negation v).
Proof.
  intros Hv. unfold sign_multiplier.
  destruct (is_acc_pay_credit credit_note); [by apply mul_one | by apply mul_minus_one].
Qed.

(** The test [credit_note.get("Type") == "ACCPAYCREDIT"] holds exactly when
    the credit note has that string under [Type]. *)
Lemma acc_pay_credit_type (credit_note : pydict) :
  is_acc_pay_credit credit_note = true
  ↔ dict_get credit_note "Type" = Some (PStr "ACCPAYCREDIT").
Proof.
  unfold is_acc_pay_credit, dict_get_default.
  destruct (dict_get credit_note "Type") as [v|]; [|by split].
  destruct v; simpl; try by split.
  rewrite String.eqb_eq. split; [by intros -> | by intros [= ->]].
Qed.

(** The data of a line item, for the sign multiplier of the credit note *)
Lemma credit_line_item_data_signed (credit_note line_item : pydict)
    (item_name amount adjusted : pyval) :
  item_name_of (PDict line_item) = Ok item_name →
  line_amount credit_note line_item = Ok amount →
  adjust_quantity_for_product product_multipliers item_name
    (dict_get_default line_item "Quantity" (PInt 0)) = Ok adjusted →
  json_number amount → json_number adjusted →
  ∃ data,
    credit_line_item_data product_multipliers (sign_multiplier credit_note)
      credit_note (PDict line_item) = Ok data
    ∧ dict_get data "Quantity"
      = Some (if is_acc_pay_credit credit_note then adjusted else negation adjusted)
    ∧ dict_get data "UnitAmount"
      = Some (if is_acc_pay_credit credit_note then amount else negation amount).
Proof.
  intros Hname Hamount Hadjusted Hnum_amount Hnum_adjusted.
  unfold credit_line_item_data. rewrite Hname. cbn [bind].
  rewrite Hamount. cbn [bind].
  rewrite (mul_sign_multiplier credit_note amount Hnum_amount). cbn [bind].
  rewrite Hadjusted. cbn [bind].
  rewrite (mul_sign_multiplier credit_note adjusted Hnum_adjusted). cbn [bind].
  unfold item_name_of in Hname. unfold item_code_of.
  destruct (py_get (PDict line_item) "Item" (PDict [])) as [item|] eqn:Hitem;
    [|discriminate].
  cbn [bind] in Hname |- *.
  destruct item as [| | | | | |item|]; try discriminate Hname.
  cbn [py_get bind]. eexists. split; [reflexivity|]. split; reflexivity.
Qed.

(** C10: the record made for a line item of a credit note holds, under
    [LineItems], the multiplier-adjusted quantity and the tax-exclusive
    amount as [Quantity] and [UnitAmount]: unchanged when the credit note
    has ["ACCPAYCREDIT"] under [Type], and with the opposite sign when it
    has anything else there, or nothing; the other fields of the line-item
    data are the same whatever the sign multiplier, and every field of the
    record outside [LineItems] is the one of the base data, built before
    the sign is known. *)
Theorem credit_note_sign :
  (∀ (credit_note base line_item : pydict) (item_name amount adjusted : pyval),
      item_name_of (PDict line_item) = Ok item_name →
      line_amount credit_note line_item = Ok amount →
      adjust_quantity_for_product product_multipliers item_name
        (dict_get_default line_item "Quantity" (PInt 0)) = Ok adjusted →
      json_number amount → json_number adjusted →
      ∃ record data,
        credit_note_record product_multipliers credit_note base (PDict line_item)
          = Ok record
        ∧ dict_get record "LineItems" = Some (PDict data)
        ∧ (dict_get credit_note "Type" = Some (PStr "ACCPAYCREDIT") →
           dict_get data "Quantity" = Some adjusted
           ∧ dict_get data "UnitAmount" = Some amount)
        ∧ (dict_get credit_note "Type" ≠ Some (PStr "ACCPAYCREDIT") →
           dict_get data "Quantity" = Some (negation adjusted)
           ∧ dict_get data "UnitAmount" = Some (negation amount)))
  ∧ (∀ (sign1 sign2 : Z) (credit_note : pydict) (line_item : pyval)
       (data1 data2 : pydict) (k : string),
      credit_line_item_data product_multipliers sign1 credit_note line_item = Ok data1 →
      credit_line_item_data product_multipliers sign2 credit_note line_item = Ok data2 →
      k ≠ "Quantity" → k ≠ "UnitAmount" →
      dict_get data1 k = dict_get data2 k)
  ∧ (∀ (credit_note base : pydict) (line_item : pyval) (record : pydict) (k : string),
      credit_note_record product_multipliers credit_note base line_item = Ok record →
      k ≠ "LineItems" → dict_get record k = dict_get base k).
Proof.
  split; [|split].
  - intros credit_note base line_item item_name amount adjusted
      Hname Hamount Hadjusted Hnum_amount Hnum_adjusted.
    destruct (credit_line_item_data_signed credit_note line_item item_name amount
                adjusted Hname Hamount Hadjusted Hnum_amount Hnum_adjusted)
      as (data & Hdata & Hquantity & Hunit).
    exists (dict_set base "LineItems" (PDict data)), data.
    unfold credit_note_record. rewrite Hdata. cbn [bind].
    split; [done|]. split; [by rewrite dict_get_set, String.eqb_refl|].
    pose proof (acc_pay_credit_type credit_note) as Htype.
    destruct (is_acc_pay_credit credit_note); split.
    + done.
    + intros Hother. destruct Hother. by apply Htype.
    + intros Hpay. apply Htype in Hpay. discriminate.
    + done.
  - intros sign1 sign2 credit_note line_item data1 data2 k H1 H2 Hq Hu.
    unfold credit_line_item_data in H1, H2.
    destruct (item_name_of line_item) as [item_name|]; [|discriminate].
    cbn [bind] in H1, H2.
    destruct line_item as [| | | | | |li|]; try discriminate.
    destruct (line_amount credit_note li) as [amount|]; [|discriminate].
    cbn [bind] in H1, H2.
    destruct (py_mul (PInt sign1) amount) as [u1|]; [|discriminate].
    destruct (py_mul (PInt sign2) amount) as [u2|]; [|discriminate].
    cbn [bind] in H1, H2.
    destruct (adjust_quantity_for_product product_multipliers item_name _)
      as [adjusted|]; [|discriminate].
    cbn [bind] in H1, H2.
    destruct (py_mul (PInt sign1) adjusted) as [q1|]; [|discriminate].
    destruct (py_mul (PInt sign2) adjusted) as [q2|]; [|discriminate].
    cbn [bind] in H1, H2.
    destruct (item_code_of (PDict li)) as [code|]; [|discriminate].
    cbn [bind] in H1, H2.
    injection H1 as <-. injection H2 as <-.
    apply String.eqb_neq in Hq, Hu. cbn [dict_get].
    rewrite (String.eqb_sym "Quantity"), Hq, (String.eqb_sym "UnitAmount"), Hu.
    reflexivity.
  - intros credit_note base line_item record k Hrecord Hk.
    unfold credit_note_record in Hrecord.
    destruct (credit_line_item_data _ _ _ _) as [data|]; [|discriminate].
    cbn [bind] in Hrecord. injection Hrecord as <-.
    rewrite dict_get_set. apply String.eqb_neq in Hk.
    by rewrite String.eqb_sym, Hk.
Qed.
End credit_notes.

Section credit_note_rows.
Import Xero.

Lemma nested_line_item_value (base data : pydict) (field : string) :
  contains_char dot field = false →
  contains_char "["%char field = false →
  extract_nested_value (dict_set base "LineItems" (PDict data)) ("LineItems." +:+ field)
    = default PNone (dict_get data field).
Proof.
  intros Hdot Hbracket. unfold extract_nested_value.
  assert (contains_char "["%char ("LineItems." +:+ field) = false) as ->.
  { by rewrite contains_char_append, Hbracket. }
  cbn [andb].
  change ("LineItems." +:+ field) with ("LineItems" +:+ String dot field).
  unfold split. rewrite split_go_piece by reflexivity.
  rewrite split_go_last by done.
  cbn [follow andb step_field]. unfold String.rev. cbn [String.rev_app].
  rewrite !append_nil_l. rewrite dict_get_set, String.eqb_refl.
  cbn [step_field]. by destruct (dict_get data field).
Qed.

(** In the row of a credit-note line item, column 10 ([unit_amount]) and
    column 13 ([quantity]) hold the [UnitAmount] and the [Quantity] of the
    line-item record. *)
Lemma credit_note_row_amounts (clock : nat → datetime) (n n' : nat)
    (base data : pydict) (values : list pyval) :
  extract_record_values clock n (dict_set base "LineItems" (PDict data))
    CREDIT_NOTES_COLUMN_DEFINITIONS = Ok (values, n') →
  values !! 10%nat = Some (default PNone (dict_get data "UnitAmount"))
  ∧ values !! 13%nat = Some (default PNone (dict_get data "Quantity")).
Proof.
  intros H.
  destruct (xero_extract_record_values_spec clock _ _ _ _ _ H) as (_ & _ & Hcols).
  split.
  - destruct (Hcols 10%nat (nested "unit_amount" "FLOAT64" "LineItems.UnitAmount")
                eq_refl) as (v & -> & Hv).
    cbn [column_value nested auto_generate is_nested source_field] in Hv.
    injection Hv as <-. f_equal.
    by apply (nested_line_item_value base data "UnitAmount").
  - destruct (Hcols 13%nat (nested "quantity" "FLOAT64" "LineItems.Quantity")
                eq_refl) as (v & -> & Hv).
    cbn [column_value nested auto_generate is_nested source_field] in Hv.
    injection Hv as <-. f_equal.
    by apply (nested_line_item_value base data "Quantity").
Qed.

(** A sales credit note turns the two units at 9 of the line into -2 and
    -9; a purchase credit note, of type ["ACCPAYCREDIT"], keeps them. *)
Lemma credit_note_sign_witness :
  (item_name_of (PDict widget_line) = Ok (PStr "Widget")
   ∧ line_amount sales_credit_note widget_line = Ok (PInt 9)
   ∧ line_amount purchase_credit_note widget_line = Ok (PInt 9)
   ∧ adjust_quantity_for_product PRODUCT_QUANTITY_MULTIPLIERS (PStr "Widget")
       (dict_get_default widget_line "Quantity" (PInt 0)) = Ok (PInt 2)
   ∧ dict_get sales_credit_note "Type" ≠ Some (PStr "ACCPAYCREDIT")
   ∧ dict_get purchase_credit_note "Type" = Some (PStr "ACCPAYCREDIT"))
  ∧ (∃ record data,
       credit_note_record PRODUCT_QUANTITY_MULTIPLIERS sales_credit_note
         [("CreditNoteID", PStr "c1")] (PDict widget_line) = Ok record
       ∧ dict_get record "LineItems" = Some (PDict data)
       ∧ dict_get data "Quantity" = Some (PInt (-2))
       ∧ dict_get data "UnitAmount" = Some (PInt (-9)))
  ∧ (∃ record data,
       credit_note_record PRODUCT_QUANTITY_MULTIPLIERS purchase_credit_note
         [("CreditNoteID", PStr "c2")] (PDict widget_line) = Ok record
       ∧ dict_get record "LineItems" = Some (PDict data)
       ∧ dict_get data "Quantity" = Some (PInt 2)
       ∧ dict_get data "UnitAmount" = Some (PInt 9)).
Proof.
  split; [|split].
  - repeat split; try reflexivity. discriminate.
  - destruct (proj1 (credit_note_sign PRODUCT_QUANTITY_MULTIPLIERS)
                sales_credit_note [("CreditNoteID", PStr "c1")] widget_line
                (PStr "Widget") (PInt 9) (PInt 2) eq_refl eq_refl eq_refl I I)
      as (record & data & Hrecord & Hdata & _ & Hsales).
    exists record, data. split; [exact Hrecord|]. split; [exact Hdata|].
    apply Hsales. discriminate.
  - destruct (proj1 (credit_note_sign PRODUCT_QUANTITY_MULTIPLIERS)
                purchase_credit_note [("CreditNoteID", PStr "c2")] widget_line
                (PStr "Widget") (PInt 9) (PInt 2) eq_refl eq_refl eq_refl I I)
      as (record & data & Hrecord & Hdata & Hpurchase & _).
    exists record, data. split; [exact Hrecord|]. split; [exact Hdata|].
    apply Hpurchase. reflexivity.
Defined.

Lemma credit_note_sign_floats :
  ∃ data,
    credit_line_item_data PRODUCT_QUANTITY_MULTIPLIERS
      (sign_multiplier sales_credit_note) sales_credit_note (PDict paste_line)
      = Ok data
    ∧ dict_get data "Quantity"
      = Some (PFloat (S754_finite true 6755399441055744 (-50)))
    ∧ dict_get data "UnitAmount" = Some (PFloat (SFopp half)).
Proof.
  apply (credit_line_item_data_signed PRODUCT_QUANTITY_MULTIPLIERS sales_credit_note
           paste_line (PStr "Stress Paste - 1 box of 12 x 60ml syringes")
           (PFloat half) (PFloat (S754_finite false 6755399441055744 (-50))));
    reflexivity.
Qed.

(** The rows of the two credit notes: the sales credit note gives -9 and -2
    in the columns [unit_amount] and [quantity], the purchase credit note 9
    and 2. *)
Lemma credit_note_rows_signed :
  (∃ row,
      process_credit_notes ticking_clock PRODUCT_QUANTITY_MULTIPLIERS
        CREDIT_NOTES_COLUMN_DEFINITIONS 0 [one_line_credit_note] = Ok ([row], 1%nat)
      ∧ row !! 10%nat = Some (PInt (-9)) ∧ row !! 13%nat = Some (PInt (-2)))
  ∧ (∃ row,
      process_credit_notes ticking_clock PRODUCT_QUANTITY_MULTIPLIERS
        CREDIT_NOTES_COLUMN_DEFINITIONS 0 [one_line_purchase_credit_note]
        = Ok ([row], 1%nat)
      ∧ row !! 10%nat = Some (PInt 9) ∧ row !! 13%nat = Some (PInt 2)).
Proof. split; eexists; (split; [vm_compute; reflexivity|]); by split. Qed.
End credit_note_rows.

(** ** Rows of the Xero invoices and credit notes *)

Section xero_rows.
Import Xero.
Variable clock : nat → datetime.
Variable product_multipliers : pydict.

(** Every row of an invoice is extracted from the base data of the invoice
    with the data of one of its line items under [LineItems]. *)
Lemma invoice_lines_rows invoice base columns : ∀ line_items n rows n',
  invoice_lines clock product_multipliers n invoice base columns line_items
    = Ok (rows, n') →
  length rows = length line_items
  ∧ ∀ i row, rows !! i = Some row →
      ∃ line_item data m m',
        line_items !! i = Some line_item
        ∧ invoice_line_item_data product_multipliers invoice line_item = Ok data
        ∧ extract_record_values clock m (dict_set base "LineItems" (PDict data)) columns
          = Ok (row, m').
Proof.
  induction line_items as [|line_item rest IH]; intros n rows n' H; simpl in H.
  - injection H as <- <-. split; [done|]. intros i row Hi. done.
  - destruct (invoice_line_item_data _ _ _) as [data|] eqn:Hdata; simpl in H;
      [|discriminate].
    destruct (extract_record_values _ _ _ _) as [[row0 n1]|] eqn:Hrow;
      simpl in H; [|discriminate].
    destruct (invoice_lines _ _ _ _ _ _ _) as [[rows' n2]|] eqn:Hrest;
      simpl in H; [|discriminate].
    injection H as <- <-.
    destruct (IH _ _ _ Hrest) as [Hlen Hrows].
    split; [simpl; by rewrite Hlen|].
    intros [|i] row Hi; simpl in Hi.
    + injection Hi as <-. exists line_item, data, n, n1. by simpl.
    + destruct (Hrows i row Hi) as (li & d & m & m' & ? & ? & ?).
      exists li, d, m, m'. by simpl.
Qed.

Lemma credit_note_lines_rows credit_note base columns : ∀ line_items n rows n',
  credit_note_lines clock product_multipliers n credit_note base columns line_items
    = Ok (rows, n') →
  length rows = length line_items
  ∧ ∀ i row, rows !! i = Some row →
      ∃ line_item data m m',
        line_items !! i = Some line_item
        ∧ credit_line_item_data product_multipliers (sign_multiplier credit_note)
            credit_note line_item = Ok data
        ∧ extract_record_values clock m (dict_set base "LineItems" (PDict data)) columns
          = Ok (row, m').
Proof.
  induction line_items as [|line_item rest IH]; intros n rows n' H; simpl in H.
  - injection H as <- <-. split; [done|]. intros i row Hi. done.
  - unfold credit_note_record in H.
    destruct (credit_line_item_data _ _ _ _) as [data|] eqn:Hdata; simpl in H;
      [|discriminate].
    destruct (extract_record_values _ _ _ _) as [[row0 n1]|] eqn:Hrow;
      simpl in H; [|discriminate].
    destruct (credit_note_lines _ _ _ _ _ _ _) as [[rows' n2]|] eqn:Hrest;
      simpl in H; [|discriminate].
    injection H as <- <-.
    destruct (IH _ _ _ Hrest) as [Hlen Hrows].
    split; [simpl; by rewrite Hlen|].
    intros [|i] row Hi; simpl in Hi.
    + injection Hi as <-. exists line_item, data, n, n1. by simpl.
    + destruct (Hrows i row Hi) as (li & d & m & m' & ? & ? & ?).
      exists li, d, m, m'. by simpl.
Qed.

(** The rows of a list of invoices: each comes from one invoice of the
    list and one line item of that invoice. *)
Lemma process_invoices_rows columns : ∀ invoices n rows n',
  process_invoices clock product_multipliers columns n invoices = Ok (rows, n') →
  ∀ row, row ∈ rows →
    ∃ invoice base line_items line_item data m m',
      invoice ∈ invoices
      ∧ base_invoice_data invoice = Ok base
      ∧ py_iter (dict_get_default invoice "LineItems" (PList [])) = Ok line_items
      ∧ line_item ∈ line_items
      ∧ invoice_line_item_data product_multipliers invoice line_item = Ok data
      ∧ extract_record_values clock m (dict_set base "LineItems" (PDict data)) columns
        = Ok (row, m').
Proof.
  induction invoices as [|invoice rest IH]; intros n rows n' H row Hrow; simpl in H.
  - injection H as <- <-. by apply elem_of_nil in Hrow.
  - destruct (process_invoice _ _ _ _ _) as [[rows1 n1]|] eqn:H1; simpl in H;
      [|discriminate].
    destruct (process_invoices _ _ _ _ _) as [[rows2 n2]|] eqn:H2; simpl in H;
      [|discriminate].
    injection H as <- <-. apply elem_of_app in Hrow as [Hrow | Hrow].
    + unfold process_invoice in H1.
      destruct (base_invoice_data invoice) as [base|] eqn:Hbase; simpl in H1;
        [|discriminate].
      destruct (py_iter _) as [line_items|] eqn:Hiter; simpl in H1; [|discriminate].
      destruct (invoice_lines_rows _ _ _ _ _ _ _ H1) as [_ Hrows].
      apply list_elem_of_lookup in Hrow as [i Hi].
      destruct (Hrows i row Hi) as (li & d & m & m' & Hli & Hd & Hx).
      exists invoice, base, line_items, li, d, m, m'.
      repeat split; try done; [left | by eapply list_elem_of_lookup_2].
    + destruct (IH _ _ _ H2 row Hrow)
        as (inv & base & lis & li & d & m & m' & Hin & ?).
      exists inv, base, lis, li, d, m, m'. split; [by right | done].
Qed.

Lemma process_credit_notes_rows columns : ∀ credit_notes n rows n',
  process_credit_notes clock product_multipliers columns n credit_notes
    = Ok (rows, n') →
  ∀ row, row ∈ rows →
    ∃ credit_note base line_items line_item data m m',
      credit_note ∈ credit_notes
      ∧ base_credit_note_data credit_note = Ok base
      ∧ py_iter (dict_get_default credit_note "LineItems" (PList [])) = Ok line_items
      ∧ line_item ∈ line_items
      ∧ credit_line_item_data product_multipliers (sign_multiplier credit_note)
          credit_note line_item = Ok data
      ∧ extract_record_values clock m (dict_set base "LineItems" (PDict data)) columns
        = Ok (row, m').
Proof.
  induction credit_notes as [|credit_note rest IH]; intros n rows n' H row Hrow;
    simpl in H.
  - injection H as <- <-. by apply elem_of_nil in Hrow.
  - destruct (process_credit_note _ _ _ _ _) as [[rows1 n1]|] eqn:H1; simpl in H;
      [|discriminate].
    destruct (process_credit_notes _ _ _ _ _) as [[rows2 n2]|] eqn:H2; simpl in H;
      [|discriminate].
    injection H as <- <-. apply elem_of_app in Hrow as [Hrow | Hrow].
    + unfold process_credit_note in H1.
      destruct (base_credit_note_data credit_note) as [base|] eqn:Hbase;
        simpl in H1; [|discriminate].
      destruct (py_iter _) as [line_items|] eqn:Hiter; simpl in H1; [|discriminate].
      destruct (credit_note_lines_rows _ _ _ _ _ _ _ H1) as [_ Hrows].
      apply list_elem_of_lookup in Hrow as [i Hi].
      destruct (Hrows i row Hi) as (li & d & m & m' & Hli & Hd & Hx).
      exists credit_note, base, line_items, li, d, m, m'.
      repeat split; try done; [left | by eapply list_elem_of_lookup_2].
    + destruct (IH _ _ _ H2 row Hrow)
        as (cn & base & lis & li & d & m & m' & Hin & ?).
      exists cn, base, lis, li, d, m, m'. split; [by right | done].
Qed.

(** The base data of a document: the fields with their defaults, the name
    of the contact, and a one-element list for the first payment or
    attachment. *)
Lemma base_invoice_data_shape (invoice base : pydict) :
  base_invoice_data invoice = Ok base →
  ∃ contact payment,
    contact_name invoice = Ok contact
    ∧ base =
      [ ("Type", dict_get_default invoice "Type" (PStr ""));
        ("InvoiceID", dict_get_default invoice "InvoiceID" (PStr ""));
        ("InvoiceNumber", dict_get_default invoice "InvoiceNumber" (PStr ""));
        ("Reference", dict_get_default invoice "Reference" (PStr ""));
        ("Url", dict_get_default invoice "Url" (PStr ""));
        ("CurrencyRate", dict_get_default invoice "CurrencyRate" (PInt 1));
        ("Contact", PDict [("Name", contact)]);
        ("DateString", dict_get_default invoice "DateString" (PStr ""));
        ("DueDateString", dict_get_default invoice "DueDateString" (PStr ""));
        ("Status", dict_get_default invoice "Status" (PStr ""));
        ("CurrencyCode", dict_get_default invoice "CurrencyCode" (PStr ""));
        ("AmountDue", dict_get_default invoice "AmountDue" (PInt 0));
        ("AmountPaid", dict_get_default invoice "AmountPaid" (PInt 0));
        ("AmountCredited", dict_get_default invoice "AmountCredited" (PInt 0));
        ("SubTotal", dict_get_default invoice "SubTotal" (PInt 0));
        ("Payments", PList [PDict [("Amount", payment)]]) ].
Proof.
  unfold base_invoice_data.
  destruct (contact_name invoice) as [contact|]; cbn [bind]; [|discriminate].
  destruct (first_of invoice "Payments" "Amount" (PInt 0)) as [payment|];
    cbn [bind]; [|discriminate].
  intros [= <-]. by exists contact, payment.
Qed.

Lemma base_credit_note_data_shape (credit_note base : pydict) :
  base_credit_note_data credit_note = Ok base →
  ∃ contact url,
    contact_name credit_note = Ok contact
    ∧ base =
      [ ("Type", dict_get_default credit_note "Type" (PStr ""));
        ("CreditNoteID", dict_get_default credit_note "CreditNoteID" (PStr ""));
        ("CreditNoteNumber", dict_get_default credit_note "CreditNoteNumber" (PStr ""));
        ("Reference", dict_get_default credit_note "Reference" (PStr ""));
        ("Total", dict_get_default credit_note "Total" (PInt 0));
        ("CurrencyRate", dict_get_default credit_note "CurrencyRate" (PInt 1));
        ("Contact", PDict [("Name", contact)]);
        ("DateString", dict_get_default credit_note "DateString" (PStr ""));
        ("Status", dict_get_default credit_note "Status" (PStr ""));
        ("CurrencyCode", dict_get_default credit_note "CurrencyCode" (PStr ""));
        ("SubTotal", dict_get_default credit_note "SubTotal" (PInt 0));
        ("Attachments", PList [PDict [("Url", url)]]) ].
Proof.
  unfold base_credit_note_data.
  destruct (contact_name credit_note) as [contact|]; cbn [bind]; [|discriminate].
  destruct (first_of credit_note "Attachments" "Url" (PStr "")) as [url|];
    cbn [bind]; [|discriminate].
  intros [= <-]. by exists contact, url.
Qed.

(** X1: [payments_amount] (column 4 of an invoice row) and [url] (column 5 of a
    credit-note row) are read by the dotted paths [Payments.Amount] and
    [Attachments.Url]; the record holds a list under [Payments] and
    [Attachments], which a path without an index does not enter: both
    columns are [None] in every row, whatever the document says. *)
Theorem list_valued_fields_read_as_none :
  (∀ invoices n rows n' row,
      process_invoices clock product_multipliers INVOICES_COLUMN_DEFINITIONS n invoices
        = Ok (rows, n') →
      row ∈ rows →
      name <$> INVOICES_COLUMN_DEFINITIONS !! 4%nat = Some "payments_amount"
      ∧ row !! 4%nat = Some PNone)
  ∧ (∀ credit_notes n rows n' row,
      process_credit_notes clock product_multipliers CREDIT_NOTES_COLUMN_DEFINITIONS
        n credit_notes = Ok (rows, n') →
      row ∈ rows →
      name <$> CREDIT_NOTES_COLUMN_DEFINITIONS !! 5%nat = Some "url"
      ∧ row !! 5%nat = Some PNone).
Proof.
  split.
  - intros invoices n rows n' row H Hrow. split; [done|].
    destruct (process_invoices_rows _ _ _ _ _ H row Hrow)
      as (invoice & base & lis & li & data & m & m' & _ & Hbase & _ & _ & _ & Hx).
    destruct (base_invoice_data_shape _ _ Hbase) as (contact & payment & _ & ->).
    destruct (xero_extract_record_values_spec clock _ _ _ _ _ Hx) as (_ & _ & Hcols).
    destruct (Hcols 4%nat (nested "payments_amount" "FLOAT64" "Payments.Amount")
                eq_refl) as (v & -> & Hv).
    vm_compute in Hv. by injection Hv as <-.
  - intros credit_notes n rows n' row H Hrow. split; [done|].
    destruct (process_credit_notes_rows _ _ _ _ _ H row Hrow)
      as (cn & base & lis & li & data & m & m' & _ & Hbase & _ & _ & _ & Hx).
    destruct (base_credit_note_data_shape _ _ Hbase) as (contact & url & _ & ->).
    destruct (xero_extract_record_values_spec clock _ _ _ _ _ Hx) as (_ & _ & Hcols).
    destruct (Hcols 5%nat (nested "url" "STRING" "Attachments.Url")
                eq_refl) as (v & -> & Hv).
    vm_compute in Hv. by injection Hv as <-.
Qed.
End xero_rows.

Lemma list_valued_fields_read_as_none_witness :
  (∃ rows row,
      Xero.process_invoices ticking_clock Xero.PRODUCT_QUANTITY_MULTIPLIERS
        Xero.INVOICES_COLUMN_DEFINITIONS 0 [two_line_invoice] = Ok (rows, 2%nat)
      ∧ row ∈ rows ∧ row !! 4%nat = Some PNone)
  ∧ (∃ rows row,
      Xero.process_credit_notes ticking_clock Xero.PRODUCT_QUANTITY_MULTIPLIERS
        Xero.CREDIT_NOTES_COLUMN_DEFINITIONS 0 [one_line_credit_note]
        = Ok (rows, 1%nat)
      ∧ row ∈ rows ∧ row !! 5%nat = Some PNone).
Proof.
  split.
  - eexists _, _. split; [vm_compute; reflexivity|]. split; [left|].
    eapply (proj1 (list_valued_fields_read_as_none ticking_clock
                     Xero.PRODUCT_QUANTITY_MULTIPLIERS) [two_line_invoice] 0%nat);
      [vm_compute; reflexivity | left].
  - eexists _, _. split; [vm_compute; reflexivity|]. split; [left|].
    eapply (proj2 (list_valued_fields_read_as_none ticking_clock
                     Xero.PRODUCT_QUANTITY_MULTIPLIERS) [one_line_credit_note] 0%nat);
      [vm_compute; reflexivity | left].
Defined.

Section xero_row_contents.
Import Xero.
Variable clock : nat → datetime.
Variable product_multipliers : pydict.

(** The data of a line item of an invoice: the line is a dictionary, and the
    four entries are its item, its adjusted quantity, its amount without tax
    and its account code. *)
Lemma invoice_line_item_data_shape invoice line_item data :
  invoice_line_item_data product_multipliers invoice line_item = Ok data →
  ∃ li item_name item_code unit_amount quantity,
    line_item = PDict li
    ∧ item_name_of (PDict li) = Ok item_name
    ∧ line_amount invoice li = Ok unit_amount
    ∧ item_code_of (PDict li) = Ok item_code
    ∧ adjust_quantity_for_product product_multipliers item_name
        (dict_get_default li "Quantity" (PInt 0)) = Ok quantity
    ∧ data =
      [ ("Item", PDict [("Name", item_name); ("Code", item_code)]);
        ("Quantity", quantity);
        ("UnitAmount", unit_amount);
        ("AccountCode", dict_get_default li "AccountCode" (PStr "")) ].
Proof.
  unfold invoice_line_item_data.
  destruct (item_name_of line_item) as [item_name|] eqn:Hname; cbn [bind];
    [|discriminate].
  destruct line_item as [| | | | | |li|]; try discriminate.
  destruct (line_amount invoice li) as [unit_amount|] eqn:Hamount; cbn [bind];
    [|discriminate].
  destruct (item_code_of (PDict li)) as [code|] eqn:Hcode; cbn [bind];
    [|discriminate].
  destruct (adjust_quantity_for_product _ _ _) as [quantity|] eqn:Hq; cbn [bind];
    [|discriminate].
  intros [= <-]. by exists li, item_name, code, unit_amount, quantity.
Qed.

(** X2: every row [process_invoices] makes comes from one line item of one
    invoice of the list, and holds, column by column: the fields of the
    invoice with their defaults, [None] for [payments_amount], the name of
    the contact, the line amount without tax, the name and the code of the
    item, the quantity adjusted for the product, the account code of the
    line, and the time of the extraction. *)
Theorem invoice_row_contents (invoices : list pydict) (n n' : nat)
    (rows : list (list pyval)) (row : list pyval) :
  process_invoices clock product_multipliers INVOICES_COLUMN_DEFINITIONS n invoices
    = Ok (rows, n') →
  row ∈ rows →
  ∃ invoice line_items line_item contact unit_amount item_name item_code quantity m,
    invoice ∈ invoices
    ∧ py_iter (dict_get_default invoice "LineItems" (PList [])) = Ok line_items
    ∧ PDict line_item ∈ line_items
    ∧ contact_name invoice = Ok contact
    ∧ line_amount invoice line_item = Ok unit_amount
    ∧ item_name_of (PDict line_item) = Ok item_name
    ∧ item_code_of (PDict line_item) = Ok item_code
    ∧ adjust_quantity_for_product product_multipliers item_name
        (dict_get_default line_item "Quantity" (PInt 0)) = Ok quantity
    ∧ row =
      [ dict_get_default invoice "Type" (PStr "");
        dict_get_default invoice "InvoiceID" (PStr "");
        dict_get_default invoice "InvoiceNumber" (PStr "");
        dict_get_default invoice "Reference" (PStr "");
        PNone;
        dict_get_default invoice "AmountDue" (PInt 0);
        dict_get_default invoice "AmountPaid" (PInt 0);
        dict_get_default invoice "AmountCredited" (PInt 0);
        dict_get_default invoice "Url" (PStr "");
        dict_get_default invoice "CurrencyRate" (PInt 1);
        contact;
        dict_get_default invoice "DateString" (PStr "");
        dict_get_default invoice "DueDateString" (PStr "");
        dict_get_default invoice "Status" (PStr "");
        unit_amount;
        item_name;
        item_code;
        quantity;
        dict_get_default invoice "SubTotal" (PInt 0);
        dict_get_default invoice "CurrencyCode" (PStr "");
        dict_get_default line_item "AccountCode" (PStr "");
        PDatetime (clock m) ].
Proof.
  intros H Hrow.
  destruct (process_invoices_rows _ _ _ _ _ _ _ H row Hrow)
    as (invoice & base & lis & li & data & m & m' & Hin & Hbase & Hiter & Hli & Hd & Hx).
  destruct (base_invoice_data_shape _ _ Hbase) as (contact & payment & Hcontact & ->).
  destruct (invoice_line_item_data_shape _ _ _ Hd)
    as (l & item_name & code & unit_amount & quantity
        & -> & Hname & Hamount & Hcode & Hq & ->).
  exists invoice, lis, l, contact, unit_amount, item_name, code, quantity, m.
  repeat (split; [done|]).
  clear -Hx. vm_compute in Hx. injection Hx as <- _. reflexivity.
Qed.
End xero_row_contents.

Section xero_row_contents_example.
Import Xero.

Lemma invoice_row_contents_witness :
  ∃ rows row,
    process_invoices ticking_clock PRODUCT_QUANTITY_MULTIPLIERS
      INVOICES_COLUMN_DEFINITIONS 0 [two_line_invoice] = Ok (rows, 2%nat)
    ∧ row ∈ rows
    ∧ ∃ invoice line_items line_item contact unit_amount item_name item_code quantity m,
    invoice ∈ [two_line_invoice]
    ∧ py_iter (dict_get_default invoice "LineItems" (PList [])) = Ok line_items
    ∧ PDict line_item ∈ line_items
    ∧ contact_name invoice = Ok contact
    ∧ line_amount invoice line_item = Ok unit_amount
    ∧ item_name_of (PDict line_item) = Ok item_name
    ∧ item_code_of (PDict line_item) = Ok item_code
    ∧ adjust_quantity_for_product PRODUCT_QUANTITY_MULTIPLIERS item_name
        (dict_get_default line_item "Quantity" (PInt 0)) = Ok quantity
    ∧ row =
      [ dict_get_default invoice "Type" (PStr "");
        dict_get_default invoice "InvoiceID" (PStr "");
        dict_get_default invoice "InvoiceNumber" (PStr "");
        dict_get_default invoice "Reference" (PStr "");
        PNone;
        dict_get_default invoice "AmountDue" (PInt 0);
        dict_get_default invoice "AmountPaid" (PInt 0);
        dict_get_default invoice "AmountCredited" (PInt 0);
        dict_get_default invoice "Url" (PStr "");
        dict_get_default invoice "CurrencyRate" (PInt 1);
        contact;
        dict_get_default invoice "DateString" (PStr "");
        dict_get_default invoice "DueDateString" (PStr "");
        dict_get_default invoice "Status" (PStr "");
        unit_amount;
        item_name;
        item_code;
        quantity;
        dict_get_default invoice "SubTotal" (PInt 0);
        dict_get_default invoice "CurrencyCode" (PStr "");
        dict_get_default line_item "AccountCode" (PStr "");
        PDatetime (ticking_clock m) ].
Proof.
  eexists _, _. split; [vm_compute; reflexivity|]. split; [left|].
  eapply (invoice_row_contents ticking_clock PRODUCT_QUANTITY_MULTIPLIERS
            [two_line_invoice] 0%nat); [vm_compute; reflexivity | left].
Defined.
End xero_row_contents_example.

Section xero_row_count.
Import Xero.
Variable clock : nat → datetime.
Variable product_multipliers : pydict.

(** A [LineItems] that is not a list is a string or a dictionary; the loop
    over it fails on its first element, which has no [get]. *)
Lemma iterated_line_items (document : pydict) (line_items : list pyval) :
  py_iter (dict_get_default document "LineItems" (PList [])) = Ok line_items →
  line_items = line_items_of document
  ∨ ∃ s rest, line_items = PStr s :: rest.
Proof.
  unfold line_items_of.
  destruct (dict_get_default document "LineItems" (PList [])) as [| | | |s|l|d|];
    simpl; try discriminate; intros [= <-].
  - destruct s as [|c s]; simpl; [by left | right; eauto].
  - by left.
  - destruct d as [|[k v] d]; simpl; [by left | right; eauto].
Qed.

Lemma process_invoice_count columns n invoice rows n' :
  process_invoice clock product_multipliers columns n invoice = Ok (rows, n') →
  length rows = length (line_items_of invoice).
Proof.
  unfold process_invoice. intros H.
  destruct (base_invoice_data invoice) as [base|]; simpl in H; [|discriminate].
  destruct (py_iter _) as [line_items|] eqn:Hiter; simpl in H; [|discriminate].
  destruct (iterated_line_items _ _ Hiter) as [-> | (s & rest & ->)].
  - by destruct (invoice_lines_rows _ _ _ _ _ _ _ _ _ H).
  - simpl in H. discriminate.
Qed.

Lemma process_credit_note_count columns n credit_note rows n' :
  process_credit_note clock product_multipliers columns n credit_note = Ok (rows, n') →
  length rows = length (line_items_of credit_note).
Proof.
  unfold process_credit_note. intros H.
  destruct (base_credit_note_data credit_note) as [base|]; simpl in H; [|discriminate].
  destruct (py_iter _) as [line_items|] eqn:Hiter; simpl in H; [|discriminate].
  destruct (iterated_line_items _ _ Hiter) as [-> | (s & rest & ->)].
  - by destruct (credit_note_lines_rows _ _ _ _ _ _ _ _ _ H).
  - simpl in H. discriminate.
Qed.

Lemma credit_note_lines_total credit_note base columns :
  forallb xero_well_formed columns = true →
  ∀ line_items n,
    Forall (fun line_item =>
              ∃ data, credit_line_item_data product_multipliers
                        (sign_multiplier credit_note) credit_note line_item
                        = Ok data) line_items →
    ∃ rows,
      credit_note_lines clock product_multipliers n credit_note base columns line_items
        = Ok (rows, (n + length line_items * xero_ticks columns)%nat).
Proof.
  intros Hwf. induction line_items as [|line_item rest IH]; intros n Hitems; simpl.
  - exists []. by rewrite Nat.add_0_r.
  - inversion Hitems as [|? ? [data Hdata] Hrest]; subst.
    unfold credit_note_record. rewrite Hdata. simpl.
    destruct (xero_extract_record_values_total clock columns Hwf n
                (dict_set base "LineItems" (PDict data))) as [row ->].
    simpl.
    destruct (IH (n + xero_ticks columns)%nat Hrest) as [rows ->]. simpl.
    exists (row :: rows). do 2 f_equal. lia.
Qed.

(** X3: the rows of a list of invoices, or of credit notes, are as many as
    the line items of all the documents together, so a document without line
    items leaves no row; the rows exist when the column list is well formed
    and the base data and the data of every line item can be built. *)
Theorem rows_count_line_items (columns : list col_def) :
  (∀ invoices n rows n',
      process_invoices clock product_multipliers columns n invoices = Ok (rows, n') →
      length rows = sum_list (map (fun invoice => length (line_items_of invoice)) invoices))
  ∧ (∀ credit_notes n rows n',
      process_credit_notes clock product_multipliers columns n credit_notes
        = Ok (rows, n') →
      length rows
      = sum_list (map (fun credit_note => length (line_items_of credit_note))
                    credit_notes))
  ∧ (forallb xero_well_formed columns = true →
     ∀ invoices n,
       Forall (fun invoice =>
                 (∃ base, base_invoice_data invoice = Ok base)
                 ∧ dict_get_default invoice "LineItems" (PList [])
                   = PList (line_items_of invoice)
                 ∧ Forall (fun line_item =>
                             ∃ data, invoice_line_item_data product_multipliers
                                       invoice line_item = Ok data)
                     (line_items_of invoice)) invoices →
       ∃ rows n',
         process_invoices clock product_multipliers columns n invoices = Ok (rows, n'))
  ∧ (forallb xero_well_formed columns = true →
     ∀ credit_notes n,
       Forall (fun credit_note =>
                 (∃ base, base_credit_note_data credit_note = Ok base)
                 ∧ dict_get_default credit_note "LineItems" (PList [])
                   = PList (line_items_of credit_note)
                 ∧ Forall (fun line_item =>
                             ∃ data, credit_line_item_data product_multipliers
                                       (sign_multiplier credit_note) credit_note
                                       line_item = Ok data)
                     (line_items_of credit_note)) credit_notes →
       ∃ rows n',
         process_credit_notes clock product_multipliers columns n credit_notes
           = Ok (rows, n')).
Proof.
  split; [|split; [|split]].
  - induction invoices as [|invoice rest IH]; intros n rows n' H; simpl in H.
    + by injection H as <- <-.
    + destruct (process_invoice _ _ _ _ _) as [[rows1 n1]|] eqn:H1; simpl in H;
        [|discriminate].
      destruct (process_invoices _ _ _ _ _) as [[rows2 n2]|] eqn:H2; simpl in H;
        [|discriminate].
      injection H as <- <-. rewrite length_app. simpl.
      by rewrite (process_invoice_count _ _ _ _ _ H1), (IH _ _ _ H2).
  - induction credit_notes as [|credit_note rest IH]; intros n rows n' H; simpl in H.
    + by injection H as <- <-.
    + destruct (process_credit_note _ _ _ _ _) as [[rows1 n1]|] eqn:H1; simpl in H;
        [|discriminate].
      destruct (process_credit_notes _ _ _ _ _) as [[rows2 n2]|] eqn:H2; simpl in H;
        [|discriminate].
      injection H as <- <-. rewrite length_app. simpl.
      by rewrite (process_credit_note_count _ _ _ _ _ H1), (IH _ _ _ H2).
  - intros Hwf. induction invoices as [|invoice rest IH]; intros n Hall; simpl.
    + eauto.
    + inversion Hall as [|? ? ([base Hbase] & Hlist & Hlines) Hrest]; subst.
      unfold process_invoice. rewrite Hbase, Hlist. simpl.
      destruct (invoice_lines_total clock product_multipliers invoice base columns
                  Hwf _ n Hlines) as [rows1 ->].
      simpl. destruct (IH (n + length (line_items_of invoice) * xero_ticks columns)%nat
                         Hrest) as (rows2 & n2 & ->).
      simpl. eauto.
  - intros Hwf. induction credit_notes as [|credit_note rest IH]; intros n Hall; simpl.
    + eauto.
    + inversion Hall as [|? ? ([base Hbase] & Hlist & Hlines) Hrest]; subst.
      unfold process_credit_note. rewrite Hbase, Hlist. simpl.
      destruct (credit_note_lines_total credit_note base columns Hwf _ n Hlines)
        as [rows1 ->].
      simpl.
      destruct (IH (n + length (line_items_of credit_note) * xero_ticks columns)%nat
                  Hrest) as (rows2 & n2 & ->).
      simpl. eauto.
Qed.
End xero_row_count.

Lemma rows_count_line_items_witness :
  ∃ rows,
    Xero.process_invoices ticking_clock Xero.PRODUCT_QUANTITY_MULTIPLIERS
      Xero.INVOICES_COLUMN_DEFINITIONS 0 [two_line_invoice; invoice_without_lines]
      = Ok (rows, 2%nat)
    ∧ length rows = 2%nat.
Proof.
  eexists. split; [vm_compute; reflexivity|].
  apply (proj1 (rows_count_line_items ticking_clock Xero.PRODUCT_QUANTITY_MULTIPLIERS
                  Xero.INVOICES_COLUMN_DEFINITIONS)
           [two_line_invoice; invoice_without_lines] 0%nat _ 2%nat).
  vm_compute; reflexivity.
Defined.

(** ** Paths with an index *)

Lemma dec_digits_forallb (p : ascii → bool) fuel :
  (∀ d, 0 <= d < 10 → p (digit_char d) = true) →
  ∀ n rest,
    string_forallb p rest = true →
    string_forallb p (dec_digits fuel n rest) = true.
Proof.
  intros Hp. induction fuel as [|fuel IH]; intros n rest Hrest; [done|].
  assert (0 <= n mod 10 < 10) as Hmod by (apply Z.mod_pos_bound; lia).
  simpl. destruct (n / 10 =? 0); [|apply IH]; simpl; by rewrite (Hp _ Hmod).
Qed.

(** The decimal notation of an integer is made of digits and a sign. *)
Lemma str_of_Z_chars z :
  string_forallb (fun c => is_ascii_digit c || Ascii.eqb c "-"%char) (str_of_Z z) = true.
Proof.
  assert (∀ d, 0 <= d < 10 →
            is_ascii_digit (digit_char d) || Ascii.eqb (digit_char d) "-"%char = true)
    as Hdigit.
  { intros d Hd. by destruct (digit_char_spec d Hd) as (-> & _). }
  unfold str_of_Z, str_of_nonneg. destruct (z <? 0).
  - cbn [string_forallb]. apply andb_true_intro. split; [reflexivity|].
    by apply dec_digits_forallb.
  - by apply dec_digits_forallb.
Qed.

Lemma contains_char_forallb (p : ascii → bool) c s :
  p c = false → string_forallb p s = true → contains_char c s = false.
Proof.
  intros Hc. induction s as [|c' s IH]; simpl; [done|].
  intros [Hc' Hs]%andb_prop. rewrite (IH Hs), orb_false_r.
  apply Ascii.eqb_neq. intros <-. congruence.
Qed.

Lemma str_of_Z_without c z :
  is_ascii_digit c || Ascii.eqb c "-"%char = false →
  contains_char c (str_of_Z z) = false.
Proof.
  intros Hc.
  apply (contains_char_forallb (fun c => is_ascii_digit c || Ascii.eqb c "-"%char));
    [exact Hc | apply str_of_Z_chars].
Qed.

Lemma contains_char_here c s t : contains_char c (s +:+ String c t) = true.
Proof.
  induction s as [|c' s IH]; simpl.
  - by rewrite Ascii.eqb_refl.
  - by rewrite IH, orb_true_r.
Qed.

Section indexed_paths.
Import Xero.

(** X4: a path [key[i]] on a record that holds a list under [key] gives the
    element at index [i] as Python counts it, from the front for [i >= 0]
    and from the back for [i < 0], and [None] when [i] is out of range. *)
Theorem indexed_path_value (record : pydict) (key : string) (i : Z)
    (l : list pyval) :
  contains_char dot key = false →
  contains_char "["%char key = false →
  contains_char "]"%char key = false →
  dict_get record key = Some (PList l) →
  let value := extract_nested_value record (key +:+ "[" +:+ str_of_Z i +:+ "]") in
  (0 <= i < Z.of_nat (length l) → l !! Z.to_nat i = Some value)
  ∧ (- Z.of_nat (length l) <= i < 0 →
     l !! Z.to_nat (Z.of_nat (length l) + i) = Some value)
  ∧ (Z.of_nat (length l) <= i ∨ i < - Z.of_nat (length l) → value = PNone).
Proof.
  intros Hdot Hopen Hclose Hget value.
  set (digits := str_of_Z i) in *.
  assert (contains_char dot digits = false) as Hd1 by by apply str_of_Z_without.
  assert (contains_char "["%char digits = false) as Hd2 by by apply str_of_Z_without.
  assert (contains_char "]"%char digits = false) as Hd3 by by apply str_of_Z_without.
  set (path := key +:+ "[" +:+ digits +:+ "]") in *.
  assert (contains_char "["%char path = true) as Hp1.
  { apply (contains_char_here "["%char key (digits +:+ "]")). }
  assert (contains_char "]"%char path = true) as Hp2.
  { unfold path. change ("[" +:+ digits +:+ "]") with (String "["%char digits +:+ "]").
    rewrite <- append_assoc. apply (contains_char_here "]"%char _ ""). }
  assert (split dot path = [path]) as Hsplit.
  { unfold split. rewrite split_go_last; [done|].
    unfold path. rewrite !contains_char_append, Hdot, Hd1. reflexivity. }
  assert (split "["%char path = [key; digits +:+ "]"]) as Hsplit1.
  { unfold split, path.
    change ("[" +:+ digits +:+ "]") with (String "["%char (digits +:+ "]")).
    rewrite split_go_piece by done. rewrite split_go_last; [done|].
    rewrite contains_char_append, Hd2. reflexivity. }
  assert (split "]"%char (digits +:+ "]") = [digits; ""]) as Hsplit2.
  { unfold split. change (digits +:+ "]") with (digits +:+ String "]"%char "").
    by rewrite split_go_piece. }
  assert (value = default PNone (if Z.of_nat (length l) >? i then list_index l i
                                 else None)) as ->.
  { unfold value, extract_nested_value. rewrite Hp1, Hp2, Hsplit.
    cbn [andb follow]. rewrite Hp1, Hp2. cbn [andb]. unfold step_indexed.
    rewrite Hsplit1. cbn [head lookup list_lookup from_option]. unfold id.
    rewrite Hsplit2. cbn [head from_option]. unfold id.
    unfold digits. rewrite int_of_string_str_of_Z, Hget.
    by destruct (Z.of_nat (length l) >? i); [destruct (list_index l i)|]. }
  unfold list_index. split; [|split].
  - intros Hi. destruct (Z.gtb_spec (Z.of_nat (length l)) i); [|lia].
    destruct (Z.leb_spec 0 i); [|lia].
    destruct (lookup_lt_is_Some_2 l (Z.to_nat i)) as [v ->]; [lia | done].
  - intros Hi. destruct (Z.gtb_spec (Z.of_nat (length l)) i); [|lia].
    destruct (Z.leb_spec 0 i); [lia|].
    destruct (Z.leb_spec (- Z.of_nat (length l)) i); [|lia].
    destruct (lookup_lt_is_Some_2 l (Z.to_nat (Z.of_nat (length l) + i)))
      as [v ->]; [lia | done].
  - intros [Hi | Hi].
    + by destruct (Z.gtb_spec (Z.of_nat (length l)) i); [lia|].
    + destruct (Z.gtb_spec (Z.of_nat (length l)) i); [|done].
      destruct (Z.leb_spec 0 i); [lia|].
      by destruct (Z.leb_spec (- Z.of_nat (length l)) i); [lia|].
Qed.
End indexed_paths.

Lemma indexed_path_value_witness :
  [PStr "a"; PStr "b"] !! 1%nat
  = Some (Xero.extract_nested_value [("Cells", PList [PStr "a"; PStr "b"])]
            ("Cells" +:+ "[" +:+ str_of_Z (-1) +:+ "]")).
Proof.
  apply (proj1 (proj2 (indexed_path_value [("Cells", PList [PStr "a"; PStr "b"])]
                         "Cells" (-1) [PStr "a"; PStr "b"]
                         eq_refl eq_refl eq_refl eq_refl))).
  simpl. lia.
Defined.

(** ** The profit and loss report *)

Lemma eq_str_true v s : eq_str v s = true → v = PStr s.
Proof.
  destruct v; simpl; try discriminate. by intros ->%String.eqb_eq.
Qed.

Section profit_and_loss.
Import Xero.
Variable clock : nat → datetime.

Lemma profit_loss_rows_spec columns title from_date to_date : ∀ lines n rows n',
  profit_loss_rows clock columns n title from_date to_date lines = Ok (rows, n') →
  ∀ row, row ∈ rows →
    ∃ line record m m',
      line ∈ lines
      ∧ is_account_row line = Ok true
      ∧ profit_loss_record title line from_date to_date = Ok record
      ∧ extract_record_values clock m record columns = Ok (row, m').
Proof.
  induction lines as [|line rest IH]; intros n rows n' H row Hrow; simpl in H.
  - injection H as <- <-. by apply elem_of_nil in Hrow.
  - destruct (is_account_row line) as [[|]|] eqn:Hwanted; cbn [bind] in H;
      [| |discriminate].
    + destruct (profit_loss_record _ _ _ _) as [record|] eqn:Hrecord;
        cbn [bind] in H; [|discriminate].
      destruct (extract_record_values _ _ _ _) as [[row0 n1]|] eqn:Hrow0;
        cbn [bind] in H; [|discriminate].
      destruct (profit_loss_rows _ _ _ _ _ _ _) as [[rows' n2]|] eqn:Hrest;
        cbn [bind] in H; [|discriminate].
      injection H as <- <-. apply elem_of_cons in Hrow as [-> | Hrow].
      * exists line, record, n, n1. repeat split; try done. left.
      * destruct (IH _ _ _ Hrest row Hrow) as (l & r & m & m' & ? & ?).
        exists l, r, m, m'. split; [by right | done].
    + destruct (IH _ _ _ H row Hrow) as (l & r & m & m' & ? & ?).
      exists l, r, m, m'. split; [by right | done].
Qed.

Lemma profit_loss_sections_spec columns from_date to_date : ∀ sections n rows n',
  profit_loss_sections clock columns n from_date to_date sections = Ok (rows, n') →
  ∀ row, row ∈ rows →
    ∃ section title section_rows lines line record m m',
      section ∈ sections
      ∧ is_section section = Ok true
      ∧ py_get section "Title" (PStr "") = Ok title
      ∧ py_get section "Rows" (PList []) = Ok section_rows
      ∧ py_iter section_rows = Ok lines
      ∧ line ∈ lines
      ∧ is_account_row line = Ok true
      ∧ profit_loss_record title line from_date to_date = Ok record
      ∧ extract_record_values clock m record columns = Ok (row, m').
Proof.
  induction sections as [|section rest IH]; intros n rows n' H row Hrow; simpl in H.
  - injection H as <- <-. by apply elem_of_nil in Hrow.
  - destruct (is_section section) as [wanted|] eqn:Hwanted; cbn [bind] in H;
      [|discriminate].
    destruct (if wanted then _ else _) as [[rows1 n1]|] eqn:H1; cbn [bind] in H;
      [|discriminate].
    destruct (profit_loss_sections _ _ _ _ _ _) as [[rows2 n2]|] eqn:H2;
      cbn [bind] in H; [|discriminate].
    injection H as <- <-. apply elem_of_app in Hrow as [Hrow | Hrow].
    + destruct wanted; [|injection H1 as <- <-; by apply elem_of_nil in Hrow].
      destruct (py_get section "Title" (PStr "")) as [title|] eqn:Htitle;
        cbn [bind] in H1; [|discriminate].
      destruct (py_get section "Rows" (PList [])) as [section_rows|] eqn:Hrows;
        cbn [bind] in H1; [|discriminate].
      destruct (py_iter section_rows) as [lines|] eqn:Hlines; cbn [bind] in H1;
        [|discriminate].
      destruct (profit_loss_rows_spec _ _ _ _ _ _ _ _ H1 row Hrow)
        as (line & record & m & m' & ? & ? & ? & ?).
      exists section, title, section_rows, lines, line, record, m, m'.
      repeat split; try done. left.
    + destruct (IH _ _ _ H2 row Hrow)
        as (s & t & sr & ls & l & r & m & m' & ? & ?).
      exists s, t, sr, ls, l, r, m, m'. split; [by right | done].
Qed.

(** A section that is processed is a dictionary of type ["Section"]. *)
Lemma is_section_shape section :
  is_section section = Ok true →
  ∃ d, section = PDict d ∧ dict_get d "RowType" = Some (PStr "Section").
Proof.
  unfold is_section. destruct section as [| | | | | |d|]; try discriminate.
  cbn [py_get bind]. unfold dict_get_default.
  destruct (dict_get d "RowType") as [v|] eqn:Hv; [|discriminate].
  destruct (eq_str v "Section") eqn:Heq; [|discriminate].
  apply eq_str_true in Heq as ->. eauto.
Qed.

(** A line that is processed is a dictionary of type ["Row"] with at least
    two cells; the record made of it holds the values of the first two. *)
Lemma profit_loss_record_shape title line from_date to_date record :
  is_account_row line = Ok true →
  profit_loss_record title line from_date to_date = Ok record →
  ∃ d cells cell_0 cell_1 account_name amount,
    line = PDict d
    ∧ dict_get d "RowType" = Some (PStr "Row")
    ∧ dict_get d "Cells" = Some (PList cells)
    ∧ cells !! 0%nat = Some (PDict cell_0)
    ∧ dict_get cell_0 "Value" = Some account_name
    ∧ cells !! 1%nat = Some (PDict cell_1)
    ∧ dict_get cell_1 "Value" = Some amount
    ∧ record =
      [ ("Section", PDict [("Title", title)]);
        ("Row", PDict [("Cells", PList [PDict [("Value", account_name)];
                                        PDict [("Value", amount)]])]);
        ("ReportDate", PDict [("FromDate", PStr from_date);
                              ("ToDate", PStr to_date)]) ].
Proof.
  unfold is_account_row, profit_loss_record.
  destruct line as [| | | | | |d|]; try discriminate.
  cbn [py_get bind py_field]. unfold dict_get_default.
  destruct (dict_get d "RowType") as [v|] eqn:Hv; [|discriminate].
  destruct (eq_str v "Row") eqn:Heq; [|discriminate].
  apply eq_str_true in Heq as ->. intros _.
  destruct (dict_get d "Cells") as [cells|] eqn:Hcells; cbn [bind]; [|discriminate].
  destruct cells as [| | | |s|cells|c|]; try discriminate.
  - cbn [py_item]. destruct (String.get 0 s); cbn [bind py_field]; discriminate.
  - cbn [py_item].
    destruct (cells !! 0%nat) as [cell_0|] eqn:H0; cbn [bind]; [|discriminate].
    destruct cell_0 as [| | | | | |cell_0|]; try discriminate.
    cbn [py_field].
    destruct (dict_get cell_0 "Value") as [account_name|] eqn:Hname; cbn [bind];
      [|discriminate].
    destruct (cells !! 1%nat) as [cell_1|] eqn:H1; cbn [bind]; [|discriminate].
    destruct cell_1 as [| | | | | |cell_1|]; try discriminate.
    cbn [py_field].
    destruct (dict_get cell_1 "Value") as [amount|] eqn:Hamount; cbn [bind];
      [|discriminate].
    intros [= <-]. by exists d, cells, cell_0, cell_1, account_name, amount.
Qed.

(** X5: every row [process_profit_and_loss] makes comes from a line of type
    ["Row"] of a section of type ["Section"] of the report, and holds the
    values of the first two cells of the line as [account_name] and
    [amount], and the time of the extraction; [category], [date_from] and
    [date_to] are [None] in every row: their source fields are dotted paths
    of columns that are not marked as nested, so they are looked up as keys
    of the record, which has no such key. *)
Theorem profit_loss_row_contents (report : pydict) (from_date to_date : string)
    (n n' : nat) (rows : list (list pyval)) (row : list pyval) :
  process_profit_and_loss clock PROFIT_LOSS_COLUMN_DEFINITIONS n report
    from_date to_date = Ok (rows, n') →
  row ∈ rows →
  ∃ sections section lines line cells cell_0 cell_1 account_name amount m,
    py_iter (dict_get_default report "Rows" (PList [])) = Ok sections
    ∧ PDict section ∈ sections
    ∧ dict_get section "RowType" = Some (PStr "Section")
    ∧ py_iter (dict_get_default section "Rows" (PList [])) = Ok lines
    ∧ PDict line ∈ lines
    ∧ dict_get line "RowType" = Some (PStr "Row")
    ∧ dict_get line "Cells" = Some (PList cells)
    ∧ cells !! 0%nat = Some (PDict cell_0)
    ∧ dict_get cell_0 "Value" = Some account_name
    ∧ cells !! 1%nat = Some (PDict cell_1)
    ∧ dict_get cell_1 "Value" = Some amount
    ∧ row = [PNone; account_name; amount; PNone; PNone; PDatetime (clock m)].
Proof.
  unfold process_profit_and_loss. intros H Hrow.
  destruct (py_iter _) as [sections|] eqn:Hsections; cbn [bind] in H; [|discriminate].
  destruct (profit_loss_sections_spec _ _ _ _ _ _ _ H row Hrow)
    as (section & title & section_rows & lines & line & record & m & m'
        & Hsection & Hwanted & Htitle & Hrows & Hlines & Hline & Haccount
        & Hrecord & Hx).
  destruct (is_section_shape _ Hwanted) as (s & -> & Hs).
  destruct (profit_loss_record_shape _ _ _ _ _ Haccount Hrecord)
    as (d & cells & cell_0 & cell_1 & account_name & amount
        & -> & Hd & Hcells & H0 & Hname & H1 & Hamount & ->).
  cbn [py_get] in Hrows. injection Hrows as <-.
  exists sections, s, lines, d, cells, cell_0, cell_1, account_name, amount, m.
  repeat (split; [done|]).
  clear -Hx. vm_compute in Hx. injection Hx as <- _. reflexivity.
Qed.
End profit_and_loss.

Section profit_and_loss_example.
Import Xero.

Lemma profit_loss_row_contents_witness :
  ∃ rows row,
    process_profit_and_loss ticking_clock PROFIT_LOSS_COLUMN_DEFINITIONS 0
      income_report "2024-01-01" "2024-12-31" = Ok (rows, 1%nat)
    ∧ row ∈ rows
    ∧ ∃ sections section lines line cells cell_0 cell_1 account_name amount m,
      py_iter (dict_get_default income_report "Rows" (PList [])) = Ok sections
      ∧ PDict section ∈ sections
      ∧ dict_get section "RowType" = Some (PStr "Section")
      ∧ py_iter (dict_get_default section "Rows" (PList [])) = Ok lines
      ∧ PDict line ∈ lines
      ∧ dict_get line "RowType" = Some (PStr "Row")
      ∧ dict_get line "Cells" = Some (PList cells)
      ∧ cells !! 0%nat = Some (PDict cell_0)
      ∧ dict_get cell_0 "Value" = Some account_name
      ∧ cells !! 1%nat = Some (PDict cell_1)
      ∧ dict_get cell_1 "Value" = Some amount
      ∧ row = [PNone; account_name; amount; PNone; PNone; PDatetime (ticking_clock m)].
Proof.
  eexists _, _. split; [vm_compute; reflexivity|]. split; [left|].
  eapply (profit_loss_row_contents ticking_clock income_report
            "2024-01-01" "2024-12-31" 0%nat); [vm_compute; reflexivity | left].
Defined.
End profit_and_loss_example.

(** ** Names in camel case *)

Lemma contains_char_rev_app c s : ∀ t,
  contains_char c (String.rev_app s t) = contains_char c s || contains_char c t.
Proof.
  induction s as [|c' s IH]; intros t; simpl; [done|].
  rewrite IH. simpl. by destruct (Ascii.eqb c c'), (contains_char c s).
Qed.

(** No piece of a split holds the separator. *)
Lemma split_go_pieces sep s : ∀ cur,
  contains_char sep cur = false →
  Forall (fun piece => contains_char sep piece = false) (split_go sep cur s).
Proof.
  induction s as [|c s IH]; intros cur Hcur; simpl.
  - constructor; [|constructor]. unfold String.rev.
    by rewrite contains_char_rev_app, Hcur.
  - destruct (Ascii.eqb c sep) eqn:Hc.
    + constructor; [|by apply IH]. unfold String.rev.
      by rewrite contains_char_rev_app, Hcur.
    + apply IH. simpl. by rewrite Ascii.eqb_sym, Hc.
Qed.

Lemma split_pieces sep s :
  Forall (fun piece => contains_char sep piece = false) (split sep s).
Proof. by apply split_go_pieces. Qed.

Section camel_case.
Import GoogleAds.

Lemma upper_char_no_underscore c :
  Ascii.eqb "_"%char c = false → contains_char "_"%char (upper_char c) = false.
Proof.
  destruct c as [[] [] [] [] [] [] [] []]; vm_compute; congruence.
Qed.

Lemma capitalize_first_no_underscore segment :
  contains_char "_"%char segment = false →
  contains_char "_"%char (capitalize_first segment) = false.
Proof.
  destruct segment as [|c rest]; simpl; [done|].
  intros [Hc Hrest]%orb_false_elim.
  by rewrite contains_char_append, upper_char_no_underscore, Hrest.
Qed.

(** X6: the camel-case form of a name has no underscore, so converting it
    again changes nothing. *)
Theorem camel_case_has_no_underscore (path_part : string) :
  contains_char "_"%char (_convert_snake_to_camel path_part) = false
  ∧ _convert_snake_to_camel (_convert_snake_to_camel path_part)
    = _convert_snake_to_camel path_part.
Proof.
  assert (contains_char "_"%char (_convert_snake_to_camel path_part) = false) as H.
  { unfold _convert_snake_to_camel.
    destruct (contains_char "_"%char path_part) eqn:Hc; simpl; [|done].
    pose proof (split_pieces "_"%char path_part) as Hpieces.
    destruct (split "_"%char path_part) as [|first rest]; [done|].
    inversion Hpieces as [|? ? Hfirst Hrest]; subst. clear Hpieces.
    revert first Hfirst. induction rest as [|segment rest IH]; intros first Hfirst.
    - done.
    - inversion Hrest; subst. simpl. apply IH; [done|].
      by rewrite contains_char_append, Hfirst, capitalize_first_no_underscore. }
  split; [done|].
  unfold _convert_snake_to_camel at 1. by rewrite H.
Qed.
End camel_case.

(** ** The selected fields of a query *)

Section selected_fields.
Import GoogleAds.
Local Open Scope list_scope.

Lemma unique_fields_fold (fields : list string) : ∀ unique : list string,
  NoDup unique →
  let result :=
    fold_left (fun unique field =>
                 if bool_decide (field ∈ unique) then unique else unique ++ [field])
              fields unique in
  NoDup result
  ∧ (∀ x, x ∈ result ↔ x ∈ unique ∨ x ∈ fields)
  ∧ ∃ added, result = unique ++ added ∧ sublist added fields.
Proof.
  induction fields as [|field fields IH]; intros unique Hunique; simpl.
  - split; [done|]. split.
    + intros x. rewrite elem_of_nil. tauto.
    + exists []. by rewrite app_nil_r.
  - destruct (decide (field ∈ unique)) as [Hin | Hnotin].
    + rewrite bool_decide_eq_true_2 by done.
      destruct (IH unique Hunique) as (Hnodup & Hmem & added & Heq & Hsub).
      split; [done|]. split.
      * intros x. rewrite Hmem, elem_of_cons.
        split; [tauto|]. intros [?|[->|?]]; tauto.
      * exists added. split; [done|]. by apply sublist_cons.
    + rewrite bool_decide_eq_false_2 by done.
      assert (NoDup (unique ++ [field])) as Hunique'.
      { apply NoDup_app. split; [done|]. split; [|apply NoDup_singleton].
        intros x Hx ->%list_elem_of_singleton. done. }
      destruct (IH _ Hunique') as (Hnodup & Hmem & added & Heq & Hsub).
      split; [done|]. split.
      * intros x. rewrite Hmem, elem_of_app, list_elem_of_singleton, elem_of_cons.
        tauto.
      * exists (field :: added). split; [by rewrite Heq, <- app_assoc|].
        by apply sublist_skip.
Qed.

Lemma sublist_same_length {A} (l1 l2 : list A) :
  sublist l1 l2 → (length l2 ≤ length l1)%nat → l1 = l2.
Proof.
  induction 1 as [|x l1 l2 _ IH|x l1 l2 Hsub _]; simpl; intros Hlen.
  - done.
  - f_equal. apply IH. lia.
  - apply sublist_length in Hsub. lia.
Qed.

Lemma unique_fields_members (fields : list string) (field : string) :
  field ∈ unique_fields fields ↔ field ∈ fields.
Proof.
  destruct (unique_fields_fold fields [] (NoDup_nil_2)) as (_ & Hmem & _).
  fold (unique_fields fields) in Hmem. rewrite Hmem, elem_of_nil. tauto.
Qed.

(** A field is appended when it occurs for the first time. *)
Lemma unique_fields_snoc (fields : list string) (field : string) :
  unique_fields (fields ++ [field])
  = if bool_decide (field ∈ fields) then unique_fields fields
    else unique_fields fields ++ [field].
Proof.
  unfold unique_fields. rewrite fold_left_app. simpl.
  fold (unique_fields fields).
  destruct (decide (field ∈ fields)) as [Hin | Hnotin].
  - rewrite !bool_decide_eq_true_2; [done | done | by apply unique_fields_members].
  - rewrite !bool_decide_eq_false_2; [done | done |].
    by rewrite unique_fields_members.
Qed.

(** A field that is selected before another occurs in the list before
    every occurrence of the other. *)
Lemma unique_fields_order (fields : list string) :
  ∀ i j x y,
    unique_fields fields !! i = Some x → unique_fields fields !! j = Some y →
    (i < j)%nat →
    ∃ a, fields !! a = Some x ∧ ∀ b, fields !! b = Some y → (a < b)%nat.
Proof.
  induction fields as [|field fields IH] using rev_ind; intros i j x y Hi Hj Hij.
  - done.
  - assert (∀ a b, fields !! a = Some x →
              (∀ b, fields !! b = Some y → (a < b)%nat) →
              (fields ++ [field]) !! b = Some y → y ∈ fields → (a < b)%nat)
      as Hold.
    { intros a b Ha Hall Hb _.
      destruct (decide (b < length fields)%nat) as [Hlt | Hge].
      - rewrite lookup_app_l in Hb by done. by apply Hall.
      - apply lookup_lt_Some in Ha. lia. }
    rewrite unique_fields_snoc in Hi, Hj.
    destruct (decide (field ∈ fields)) as [Hin | Hnotin].
    + rewrite bool_decide_eq_true_2 in Hi, Hj by done.
      destruct (IH i j x y Hi Hj Hij) as (a & Ha & Hall).
      exists a. split; [by apply lookup_app_l_Some|].
      intros b Hb. apply (Hold a b Ha Hall Hb).
      apply unique_fields_members. by eapply list_elem_of_lookup_2.
    + rewrite bool_decide_eq_false_2 in Hi, Hj by done.
      destruct (decide (j < length (unique_fields fields))%nat) as [Hlt | Hge].
      * rewrite lookup_app_l in Hi, Hj by lia.
        destruct (IH i j x y Hi Hj Hij) as (a & Ha & Hall).
        exists a. split; [by apply lookup_app_l_Some|].
        intros b Hb. apply (Hold a b Ha Hall Hb).
        apply unique_fields_members. by eapply list_elem_of_lookup_2.
      * assert (j = length (unique_fields fields)) as ->.
        { apply lookup_lt_Some in Hj. rewrite length_app in Hj. simpl in Hj. lia. }
        rewrite lookup_app_l in Hi by lia.
        rewrite list_lookup_middle in Hj by done. injection Hj as <-.
        assert (x ∈ fields) as Hx.
        { apply unique_fields_members. by eapply list_elem_of_lookup_2. }
        apply list_elem_of_lookup in Hx as [a Ha].
        exists a. split; [by apply lookup_app_l_Some|].
        intros b Hb. apply lookup_lt_Some in Ha.
        destruct (decide (b < length fields)%nat) as [Hb' | Hb']; [|lia].
        rewrite lookup_app_l in Hb by done.
        destruct Hnotin. by eapply list_elem_of_lookup_2.
Qed.

(** X7: the fields a query selects are the source fields of the columns
    without repetition: every field is kept, once, and the fields stay in
    the order of their first occurrence, that is, a field selected before
    another occurs in the list before every occurrence of the other; a
    list without repetition is selected as it is. *)
Theorem unique_fields_spec (fields : list string) :
  NoDup (unique_fields fields)
  ∧ (∀ field, field ∈ unique_fields fields ↔ field ∈ fields)
  ∧ sublist (unique_fields fields) fields
  ∧ (NoDup fields → unique_fields fields = fields)
  ∧ (∀ i j x y,
       unique_fields fields !! i = Some x → unique_fields fields !! j = Some y →
       (i < j)%nat →
       ∃ a, fields !! a = Some x ∧ ∀ b, fields !! b = Some y → (a < b)%nat).
Proof.
  destruct (unique_fields_fold fields [] (NoDup_nil_2))
    as (Hnodup & Hmem & added & Heq & Hsub).
  fold (unique_fields fields) in Hnodup, Hmem, Heq. simpl in Heq. subst added.
  split; [done|]. split; [apply unique_fields_members|].
  split; [done|]. split; [|apply unique_fields_order].
  intros Hfields. apply sublist_same_length; [done|].
  assert (unique_fields fields ≡ₚ fields) as Hperm.
  { apply NoDup_Permutation; [done | done | apply unique_fields_members]. }
  by rewrite Hperm.
Qed.

(** Keeping the last occurrence of every field instead would not do:
    ["b"; "a"] has no repetition, has the members of ["a"; "b"; "a"] and is
    a subsequence of it, yet ["b"] is selected before ["a"] although ["a"]
    occurs first; the code selects ["a"; "b"]. *)
Lemma unique_fields_keeps_first :
  unique_fields ["a"; "b"; "a"] = ["a"; "b"]
  ∧ ¬ ∃ a, ["a"; "b"; "a"] !! a = Some "b"
           ∧ ∀ b, ["a"; "b"; "a"] !! b = Some "a" → (a < b)%nat.
Proof.
  split; [reflexivity|]. intros (a & Ha & Hall).
  specialize (Hall 0%nat eq_refl). lia.
Qed.
End selected_fields.

(** ** Rows of the Google Ads pipeline *)

Section google_rows.
Import GoogleAds.
Variable clock : nat → datetime.
Variable uuid4 : nat → string.




End google_rows.
